(** * Timed requests and the network-commissioning cluster

    A shallow embedding of [src/app/TimedRequest.cpp] and of
    [src/app/clusters/network-commissioning/network-commissioning.cpp],
    followed by the properties of these two files.

    Conventions.
    - [uint8_t] and [size_t] values are [N]; a narrowing cast is written out
      ([static_cast_uint8]).
    - A [ByteSpan] and a byte array are [list byte]; an array keeps its
      declared size, and [memcpy] overwrites a prefix of it.
    - The global array [sNetworks] is a [list NetworkInfo]; [sNetworks[i]] is
      the list lookup and an assignment through [sNetworks[i]] is the list
      insert.  A pointer [&sNetworks[i]] is passed as the slot's value and
      written back by the caller.
    - Calls that leave the two files (device layer, command handler) are
      recorded, in order, in a log; what such a call returns is given by an
      oracle that sees the log so far. *)

From Stdlib Require Import NArith Strings.Byte.
From stdpp Require Import base numbers list.

#[global] Instance byte_eq_dec : EqDecision byte := Byte.byte_eq_dec.

(** ** Common vocabulary *)

Abbreviation ByteSpan := (list byte) (only parsing).

(** [ByteSpan::size()]. *)
Definition size (s : list byte) : N := N.of_nat (length s).

(** [CanCastTo<uint8_t>(n)] for an unsigned [n]. *)
Definition CanCastTo_uint8 (n : N) : bool := (n <=? 255)%N.

(** [static_cast<uint8_t>(n)]. *)
Definition static_cast_uint8 (n : N) : N := (n mod 256)%N.

(** [memcpy(dst, src, n)]: the first [n] bytes of [dst] become the first [n]
    bytes of [src]; the rest of [dst] stays. *)
Definition memcpy (dst src : list byte) (n : N) : list byte :=
  take (N.to_nat n) src ++ drop (N.to_nat n) dst.

(** [memcmp(a, b, n) == 0]. *)
Definition memcmp_eq0 (a b : list byte) (n : N) : bool :=
  bool_decide (take (N.to_nat n) a = take (N.to_nat n) b).

(** [CHIP_ERROR]: the values the two files name, and any other code a callee
    outside them may return. *)
Inductive CHIP_ERROR : Type :=
| CHIP_NO_ERROR
| CHIP_ERROR_NO_MEMORY
| CHIP_ERROR_INVALID_MESSAGE_TYPE
| CHIP_ERROR_IM_STATUS_CODE_RECEIVED
| CHIP_ERROR_UNSUPPORTED_CHIP_FEATURE
| CHIP_ERROR_NOT_IMPLEMENTED
| CHIP_ERROR_code (code : N).

#[global] Instance CHIP_ERROR_eq_dec : EqDecision CHIP_ERROR.
Proof. solve_decision. Defined.

(** [err == CHIP_NO_ERROR]. *)
Definition is_no_error (err : CHIP_ERROR) : bool :=
  match err with CHIP_NO_ERROR => true | _ => false end.

(** ** [TimedRequest.cpp] *)

Module TimedRequest.

(** [Protocols::InteractionModel::MsgType]: the two types this file names,
    and the others by their number. *)
Inductive MsgType : Type :=
| StatusResponse
| TimedRequest
| MsgType_other (id : N).

(** [Protocols::InteractionModel::Status]: [Success], and every other status
    by its code. *)
Inductive Status : Type :=
| Success
| Status_other (code : N).

#[global] Instance Status_eq_dec : EqDecision Status.
Proof. solve_decision. Defined.

#[global] Instance MsgType_eq_dec : EqDecision MsgType.
Proof. solve_decision. Defined.

Record StatusIB : Type := { mStatus : Status }.

Section HandleResponse.

(** [PayloadHeader], [System::PacketBufferHandle] and the two callees are
    declared outside these files. *)
Context {PayloadHeader PacketBufferHandle : Type}.
Variable HasMessageType : PayloadHeader -> MsgType -> bool.
Variable ProcessStatusResponse : PacketBufferHandle -> StatusIB -> CHIP_ERROR * StatusIB.

(** [TimedRequest::HandleResponse]; [aStatusIB] is an in-out parameter, so
    its final value is returned beside the error. *)
Definition HandleResponse (aPayloadHeader : PayloadHeader) (aPayload : PacketBufferHandle)
    (aStatusIB : StatusIB) : CHIP_ERROR * StatusIB :=
  (* VerifyOrReturnError(aPayloadHeader.HasMessageType(MsgType::StatusResponse), ...) *)
  if negb (HasMessageType aPayloadHeader StatusResponse)
  then (CHIP_ERROR_INVALID_MESSAGE_TYPE, aStatusIB)
  else
    (* ReturnErrorOnFailure(StatusResponse::ProcessStatusResponse(...)) *)
    let '(err, aStatusIB) := ProcessStatusResponse aPayload aStatusIB in
    if negb (is_no_error err) then (err, aStatusIB)
    else
      (* VerifyOrReturnError(aStatusIB.mStatus == Status::Success, ...) *)
      if negb (bool_decide (mStatus aStatusIB = Success))
      then (CHIP_ERROR_IM_STATUS_CODE_RECEIVED, aStatusIB)
      else (CHIP_NO_ERROR, aStatusIB).

End HandleResponse.

(** [SendMessageFlags], as far as this file uses it. *)
Inductive SendMessageFlags : Type :=
| kNone
| kExpectResponse.

Section Send.

(** The packet buffer, the TLV writer with the message builder on top of it,
    and the exchange context are declared outside these files.  [Encoder]
    is the state of the writer and of the builder that writes through it. *)
Context {PacketBufferHandle Encoder : Type}.

(** A message handed to [ExchangeContext::SendMessage]. *)
Record Message : Type := {
  msgType : MsgType;
  msgPayload : PacketBufferHandle;
  msgFlags : SendMessageFlags
}.

(** [MessagePacketBuffer::New(size)]; [None] is a handle for which [IsNull()]
    holds. *)
Variable MessagePacketBuffer_New : N -> option PacketBufferHandle.
Variable writer_Init : PacketBufferHandle -> Encoder.
Variable builder_Init : Encoder -> CHIP_ERROR * Encoder.
Variable builder_TimeoutMs : N -> Encoder -> Encoder.
Variable builder_GetError : Encoder -> CHIP_ERROR.
Variable writer_Finalize : Encoder -> CHIP_ERROR * PacketBufferHandle.
Variable SendMessage : Message -> CHIP_ERROR.

(** [TimedRequest::Send]: the error returned and the messages handed to the
    exchange context, in order. *)
Definition Send (aTimeoutMs : N) : CHIP_ERROR * list Message :=
  match MessagePacketBuffer_New 6 with
  | None => (CHIP_ERROR_NO_MEMORY, []) (* VerifyOrReturnError(!payload.IsNull(), ...) *)
  | Some payload =>
      let writer := writer_Init payload in
      let '(err, builder) := builder_Init writer in
      if negb (is_no_error err) then (err, [])
      else
        let builder := builder_TimeoutMs aTimeoutMs builder in
        let err := builder_GetError builder in
        if negb (is_no_error err) then (err, [])
        else
          let '(err, payload) := writer_Finalize builder in
          if negb (is_no_error err) then (err, [])
          else
            let message :=
              {| msgType := TimedRequest; msgPayload := payload; msgFlags := kExpectResponse |} in
            (SendMessage message, [message])
  end.

End Send.

End TimedRequest.

(** ** [network-commissioning.cpp] *)

Module NetworkCommissioning.

(** The preprocessor symbols the file tests.  [CHIP_DEVICE_LAYER_TARGET] is
    [true] when the symbol is defined. *)
Record BuildConfig : Type := {
  CHIP_DEVICE_CONFIG_ENABLE_THREAD : bool;
  CHIP_DEVICE_LAYER_TARGET : bool;
  CHIP_DEVICE_LAYER_TARGET_LINUX : bool;
  CHIP_CLUSTER_NETWORK_COMMISSIONING_MAX_NETWORKS : N
}.

Definition kMaxNetworkIDLen : N := 32.
Definition kMaxThreadDatasetLen : N := 254.
Definition kMaxWiFiSSIDLen : N := 32.
Definition kMaxWiFiCredentialsLen : N := 64.

(** [constexpr uint8_t kMaxNetworks = CHIP_CLUSTER_NETWORK_COMMISSIONING_MAX_NETWORKS]. *)
Definition kMaxNetworks (cfg : BuildConfig) : N :=
  static_cast_uint8 (CHIP_CLUSTER_NETWORK_COMMISSIONING_MAX_NETWORKS cfg).

Inductive NetworkType : Type :=
| kUndefined
| kWiFi
| kThread
| kEthernet.

#[global] Instance NetworkType_eq_dec : EqDecision NetworkType.
Proof. solve_decision. Defined.

(** [NetworkCommissioningStatus], as far as this file uses it. *)
Inductive NetworkCommissioningStatus : Type :=
| kSuccess
| kOutOfRange
| kBoundsExceeded
| kNetworkIDNotFound
| kUnknownError.

#[global] Instance NetworkCommissioningStatus_eq_dec : EqDecision NetworkCommissioningStatus.
Proof. solve_decision. Defined.

Record WiFiNetworkInfo : Type := {
  mSSID : list byte;          (* uint8_t [kMaxWiFiSSIDLen + 1] *)
  mSSIDLen : N;
  mCredentials : list byte;   (* uint8_t [kMaxWiFiCredentialsLen] *)
  mCredentialsLen : N
}.

Definition sizeof_mSSID : N := kMaxWiFiSSIDLen + 1.
Definition sizeof_mCredentials : N := kMaxWiFiCredentialsLen.
Definition sizeof_mNetworkID : N := kMaxNetworkIDLen.

(** [Thread::OperationalDataset] (lib/support/ThreadOperationalDataset.h) is
    used by this file and declared outside it: its type, the three member
    functions called here and the size of an extended PAN ID are taken as an
    interface.  [Init] is a mutator, so it returns the object's new value;
    [GetExtendedPanId] returns its out-array beside the error. *)
Class ThreadLib : Type := {
  OperationalDataset : Type;
  kSizeExtendedPanId : N;
  Init : OperationalDataset -> ByteSpan -> CHIP_ERROR * OperationalDataset;
  GetExtendedPanId : OperationalDataset -> CHIP_ERROR * list byte;
  AsByteSpan : OperationalDataset -> ByteSpan
}.

(** [union NetworkData { Thread::OperationalDataset mThread; WiFiNetworkInfo
    mWiFi; }]: one storage, read and written through either member.  A
    member reads back what was last written to it; how the two members
    overlap is fixed by the instance, and nothing below assumes that writing
    one member leaves the other alone. *)
Class NetworkDataUnion {thread : ThreadLib} : Type := {
  NetworkData : Type;
  mThread : NetworkData -> OperationalDataset;
  set_mThread : OperationalDataset -> NetworkData -> NetworkData;
  mWiFi : NetworkData -> WiFiNetworkInfo;
  set_mWiFi : WiFiNetworkInfo -> NetworkData -> NetworkData;
  mThread_set_mThread : forall d u, mThread (set_mThread d u) = d;
  mWiFi_set_mWiFi : forall w u, mWiFi (set_mWiFi w u) = w
}.

(** The calls that leave the file, and the two response structures it fills. *)
Inductive Response : Type :=
| NetworkConfigResponse (networkingStatus : NetworkCommissioningStatus)
| ConnectNetworkResponse (networkingStatus : NetworkCommissioningStatus).

Inductive Call : Type :=
| SetThreadEnabled (val : bool)
| SetThreadProvision (netInfo : list byte)
| ProvisionWiFi (ssid key : list byte)
| ConnectNetworkForOperational (networkID : list byte)
| AddResponseData (commandPath : N) (response : Response).

(** The calls [DoConnectNetwork] makes into the device layer. *)
Definition device_call (c : Call) : Prop :=
  match c with
  | SetThreadEnabled _ | SetThreadProvision _ | ProvisionWiFi _ _ => True
  | ConnectNetworkForOperational _ | AddResponseData _ _ => False
  end.

(** The device layer: what a call returns, given the calls made so far. *)
Class DeviceLayer : Type := {
  platform : list Call -> Call -> CHIP_ERROR
}.

(** The two add commands, as data, to speak of sequences of them. *)
Inductive AddCommand : Type :=
| AddWiFi (ssid credentials : list byte)
| AddThread (operationalDataset : list byte).

Section Cluster.

Context {thread : ThreadLib} {union : NetworkDataUnion} {device : DeviceLayer}.
Variable cfg : BuildConfig.

Record NetworkInfo : Type := {
  mNetworkID : list byte;     (* uint8_t [kMaxNetworkIDLen] *)
  mNetworkIDLen : N;
  mEnabled : N;
  mNetworkType : NetworkType;
  mData : NetworkData
}.

(** Assignments to one member of a [NetworkInfo]. *)
Definition set_mNetworkID (v : list byte) (n : NetworkInfo) : NetworkInfo :=
  {| mNetworkID := v; mNetworkIDLen := mNetworkIDLen n; mEnabled := mEnabled n;
     mNetworkType := mNetworkType n; mData := mData n |}.
Definition set_mNetworkIDLen (v : N) (n : NetworkInfo) : NetworkInfo :=
  {| mNetworkID := mNetworkID n; mNetworkIDLen := v; mEnabled := mEnabled n;
     mNetworkType := mNetworkType n; mData := mData n |}.
Definition set_mEnabled (v : N) (n : NetworkInfo) : NetworkInfo :=
  {| mNetworkID := mNetworkID n; mNetworkIDLen := mNetworkIDLen n; mEnabled := v;
     mNetworkType := mNetworkType n; mData := mData n |}.
Definition set_mNetworkType (v : NetworkType) (n : NetworkInfo) : NetworkInfo :=
  {| mNetworkID := mNetworkID n; mNetworkIDLen := mNetworkIDLen n; mEnabled := mEnabled n;
     mNetworkType := v; mData := mData n |}.
Definition set_mData (v : NetworkData) (n : NetworkInfo) : NetworkInfo :=
  {| mNetworkID := mNetworkID n; mNetworkIDLen := mNetworkIDLen n; mEnabled := mEnabled n;
     mNetworkType := mNetworkType n; mData := v |}.

(** Assignments to one member of [n.mData.mWiFi]. *)
Definition update_mWiFi (f : WiFiNetworkInfo -> WiFiNetworkInfo) (n : NetworkInfo) : NetworkInfo :=
  set_mData (set_mWiFi (f (mWiFi (mData n))) (mData n)) n.
Definition set_mSSID (v : list byte) (w : WiFiNetworkInfo) : WiFiNetworkInfo :=
  {| mSSID := v; mSSIDLen := mSSIDLen w; mCredentials := mCredentials w;
     mCredentialsLen := mCredentialsLen w |}.
Definition set_mSSIDLen (v : N) (w : WiFiNetworkInfo) : WiFiNetworkInfo :=
  {| mSSID := mSSID w; mSSIDLen := v; mCredentials := mCredentials w;
     mCredentialsLen := mCredentialsLen w |}.
Definition set_mCredentials (v : list byte) (w : WiFiNetworkInfo) : WiFiNetworkInfo :=
  {| mSSID := mSSID w; mSSIDLen := mSSIDLen w; mCredentials := v;
     mCredentialsLen := mCredentialsLen w |}.
Definition set_mCredentialsLen (v : N) (w : WiFiNetworkInfo) : WiFiNetworkInfo :=
  {| mSSID := mSSID w; mSSIDLen := mSSIDLen w; mCredentials := mCredentials w;
     mCredentialsLen := v |}.

(** The three [for] loops of the file visit [sNetworks[i]] for
    [i = 0 .. kMaxNetworks - 1] and leave the loop (by [break] or [goto exit])
    inside the first slot that passes the loop's test.  [scan test n i tbl]
    is that visit from index [i] with [n] iterations left: the first index
    whose slot passes [test], with the slot. *)
Fixpoint scan (test : NetworkInfo -> bool) (n i : nat) (tbl : list NetworkInfo)
    : option (nat * NetworkInfo) :=
  match n with
  | O => None
  | S n' =>
      match tbl !! i with
      | Some slot => if test slot then Some (i, slot) else scan test n' (S i) tbl
      | None => None (* not reached: the array has kMaxNetworks elements *)
      end
  end.

(** [sNetworks[i].mNetworkType == NetworkType::kUndefined]. *)
Definition is_undefined (slot : NetworkInfo) : bool :=
  bool_decide (mNetworkType slot = kUndefined).

(** The state the three command callbacks act on: the file's global array
    and the calls made so far. *)
Record State : Type := {
  sNetworks : list NetworkInfo;
  calls : list Call
}.

(** [apCommandHandler->AddResponseData(commandPath, response)]; its result is
    not looked at. *)
Definition AddResponseData_to (commandPath : N) (response : Response)
    (tbl : list NetworkInfo) (log : list Call) : State :=
  {| sNetworks := tbl; calls := log ++ [AddResponseData commandPath response] |}.

(** *** AddOrUpdateThreadNetwork *)

(** The body run inside the first Undefined slot, with [err] as on entry;
    it returns [err] as on [break] or [exit]. *)
Definition AddOrUpdateThreadNetwork_slot (operationalDataset : ByteSpan)
    (err : NetworkCommissioningStatus) (slot : NetworkInfo)
    : NetworkCommissioningStatus * NetworkInfo :=
  (* Thread::OperationalDataset & dataset = sNetworks[i].mData.mThread;
     CHIP_ERROR error = dataset.Init(operationalDataset); *)
  let '(error, dataset) := Init (mThread (mData slot)) operationalDataset in
  let slot := set_mData (set_mThread dataset (mData slot)) slot in
  if negb (is_no_error error)
  then (kUnknownError, slot) (* err = kUnknownError; break; *)
  else
    (* SuccessOrExit(dataset.GetExtendedPanId(extendedPanId)); *)
    let '(e, extendedPanId) := GetExtendedPanId dataset in
    if negb (is_no_error e)
    then (err, slot) (* goto exit; err is not assigned *)
    else
      let slot := set_mNetworkID (memcpy (mNetworkID slot) extendedPanId kSizeExtendedPanId) slot in
      let slot := set_mNetworkIDLen kSizeExtendedPanId slot in
      let slot := set_mNetworkType kThread slot in
      let slot := set_mEnabled 0 slot in
      (kSuccess, slot).

Definition OnAddOrUpdateThreadNetworkCommandCallbackInternal (commandPath : N)
    (operationalDataset : ByteSpan) (breadcrumb timeoutMs : N) (st : State) : State :=
  let '(networkingStatus, tbl) :=
    if CHIP_DEVICE_CONFIG_ENABLE_THREAD cfg then
      let err := kBoundsExceeded in
      match scan is_undefined (N.to_nat (kMaxNetworks cfg)) 0 (sNetworks st) with
      | Some (i, slot) =>
          let '(err, slot) := AddOrUpdateThreadNetwork_slot operationalDataset err slot in
          (err, <[i := slot]> (sNetworks st))
      | None => (err, sNetworks st)
      end
    else (kUnknownError, sNetworks st)
  in
  AddResponseData_to commandPath (NetworkConfigResponse networkingStatus) tbl (calls st).

(** *** AddOrUpdateWiFiNetwork *)

(** The body run inside the first Undefined slot.  Each [VerifyOrExit]
    leaves with [kOutOfRange] and with the slot as written so far. *)
Definition AddOrUpdateWiFiNetwork_slot (ssid credentials : ByteSpan)
    (slot : NetworkInfo) : NetworkCommissioningStatus * NetworkInfo :=
  if negb (size ssid <=? sizeof_mSSID)%N then (kOutOfRange, slot)
  else
    let slot := update_mWiFi (fun w => set_mSSID (memcpy (mSSID w) ssid (size ssid)) w) slot in
    if negb (CanCastTo_uint8 (size ssid)) then (kOutOfRange, slot)
    else
      let slot := update_mWiFi (set_mSSIDLen (static_cast_uint8 (size ssid))) slot in
      if negb (size credentials <=? sizeof_mCredentials)%N then (kOutOfRange, slot)
      else
        let slot :=
          update_mWiFi
            (fun w => set_mCredentials (memcpy (mCredentials w) credentials (size credentials)) w)
            slot in
        (* the source tests ssid.size() here, not credentials.size() *)
        if negb (CanCastTo_uint8 (size ssid)) then (kOutOfRange, slot)
        else
          let slot := update_mWiFi (set_mCredentialsLen (static_cast_uint8 (size credentials))) slot in
          if negb (size ssid <=? sizeof_mNetworkID)%N then (kOutOfRange, slot)
          else
            let slot :=
              set_mNetworkID (memcpy (mNetworkID slot) (mSSID (mWiFi (mData slot))) (size ssid)) slot in
            if negb (CanCastTo_uint8 (size ssid)) then (kOutOfRange, slot)
            else
              let slot := set_mNetworkIDLen (static_cast_uint8 (size ssid)) slot in
              let slot := set_mNetworkType kWiFi slot in
              let slot := set_mEnabled 0 slot in
              (kSuccess, slot).

Definition OnAddOrUpdateWiFiNetworkCommandCallbackInternal (commandPath : N)
    (ssid credentials : ByteSpan) (breadcrumb timeoutMs : N) (st : State) : State :=
  let '(networkingStatus, tbl) :=
    if CHIP_DEVICE_LAYER_TARGET cfg then
      let err := kBoundsExceeded in
      match scan is_undefined (N.to_nat (kMaxNetworks cfg)) 0 (sNetworks st) with
      | Some (i, slot) =>
          let '(err, slot) := AddOrUpdateWiFiNetwork_slot ssid credentials slot in
          (err, <[i := slot]> (sNetworks st))
      | None => (err, sNetworks st)
      end
    else (kUnknownError, sNetworks st)
  in
  AddResponseData_to commandPath (NetworkConfigResponse networkingStatus) tbl (calls st).

(** *** ConnectNetwork *)

(** A computation that makes calls: it maps the log so far to its result
    and the extended log. *)
Definition Dev (A : Type) : Type := list Call -> A * list Call.

Definition ret {A : Type} (a : A) : Dev A := fun log => (a, log).

Definition invoke (c : Call) : Dev CHIP_ERROR :=
  fun log => (platform log c, log ++ [c]).

(** [ReturnErrorOnFailure(e); k] in a function whose early return yields
    [on_failure err]. *)
Definition ReturnErrorOnFailure {A : Type} (on_failure : CHIP_ERROR -> A)
    (e : Dev CHIP_ERROR) (k : Dev A) : Dev A :=
  fun log =>
    let '(err, log) := e log in
    if is_no_error err then k log else (on_failure err, log).

(** [DoConnectNetwork(network)]: the error returned and the value of
    [*network] on return. *)
Definition DoConnectNetwork (network : NetworkInfo) : Dev (CHIP_ERROR * NetworkInfo) :=
  let failed (err : CHIP_ERROR) := (err, network) in
  (* network->mEnabled = true; return CHIP_NO_ERROR; *)
  let enabled : Dev (CHIP_ERROR * NetworkInfo) := ret (CHIP_NO_ERROR, set_mEnabled 1 network) in
  match mNetworkType network with
  | kThread =>
      if CHIP_DEVICE_CONFIG_ENABLE_THREAD cfg then
        (* SetThreadProvision(...); SetThreadEnabled(true); *)
        let provision :=
          ReturnErrorOnFailure failed
            (invoke (SetThreadProvision (AsByteSpan (mThread (mData network)))))
            (ReturnErrorOnFailure failed (invoke (SetThreadEnabled true)) enabled) in
        (* #if !CHIP_DEVICE_LAYER_TARGET_LINUX: SetThreadEnabled(false) comes first *)
        if CHIP_DEVICE_LAYER_TARGET_LINUX cfg then provision
        else ReturnErrorOnFailure failed (invoke (SetThreadEnabled false)) provision
      else ret (failed CHIP_ERROR_UNSUPPORTED_CHIP_FEATURE)
  | kWiFi =>
      if CHIP_DEVICE_LAYER_TARGET cfg then
        ReturnErrorOnFailure failed
          (invoke (ProvisionWiFi (mSSID (mWiFi (mData network)))
                                 (mCredentials (mWiFi (mData network)))))
          enabled
      else ret (failed CHIP_ERROR_UNSUPPORTED_CHIP_FEATURE)
  | kEthernet | kUndefined => ret (failed CHIP_ERROR_NOT_IMPLEMENTED)
  end.

(** The test of the loop in [OnConnectNetworkCommandCallbackInternal]. *)
Definition matches_networkID (networkID : ByteSpan) (slot : NetworkInfo) : bool :=
  bool_decide (mNetworkIDLen slot = size networkID)
  && negb (is_undefined slot)
  && memcmp_eq0 (mNetworkID slot) networkID (size networkID).

Definition OnConnectNetworkCommandCallbackInternal (commandPath : N)
    (networkID : ByteSpan) (breadcrumb timeoutMs : N) (st : State) : State :=
  let err := kNetworkIDNotFound in
  let '(err, tbl, log) :=
    match scan (matches_networkID networkID) (N.to_nat (kMaxNetworks cfg)) 0 (sNetworks st) with
    | Some (networkSeq, slot) =>
        let '((e, slot), log) := DoConnectNetwork slot (calls st) in
        let tbl := <[networkSeq := slot]> (sNetworks st) in
        if negb (is_no_error e) then (kUnknownError, tbl, log) else (kSuccess, tbl, log)
    | None => (err, sNetworks st, calls st)
    end
  in
  let log :=
    if bool_decide (err = kSuccess)
    then log ++ [ConnectNetworkForOperational networkID]
    else log in
  AddResponseData_to commandPath (ConnectNetworkResponse err) tbl log.

(** *** Vocabulary of the statements *)

(** The network id a slot holds: the first [mNetworkIDLen] bytes of
    [mNetworkID]. *)
Definition network_id (slot : NetworkInfo) : list byte :=
  take (N.to_nat (mNetworkIDLen slot)) (mNetworkID slot).

(** Two slot values agree on every member but the payload [mData]. *)
Definition same_header (a b : NetworkInfo) : Prop :=
  mNetworkID a = mNetworkID b /\ mNetworkIDLen a = mNetworkIDLen b
  /\ mEnabled a = mEnabled b /\ mNetworkType a = mNetworkType b.

(** Two slot values agree on every member but [mEnabled]. *)
Definition same_but_enabled (a b : NetworkInfo) : Prop :=
  mNetworkID a = mNetworkID b /\ mNetworkIDLen a = mNetworkIDLen b
  /\ mNetworkType a = mNetworkType b /\ mData a = mData b.

(** No slot of the table is Undefined. *)
Definition table_full (tbl : list NetworkInfo) : Prop :=
  forall i slot, tbl !! i = Some slot -> mNetworkType slot <> kUndefined.

(** Every slot of the table is Undefined. *)
Definition table_empty (tbl : list NetworkInfo) : Prop :=
  forall i slot, tbl !! i = Some slot -> mNetworkType slot = kUndefined.

(** The array has its declared number of elements. *)
Definition well_sized (tbl : list NetworkInfo) : Prop :=
  length tbl = N.to_nat (kMaxNetworks cfg).

(** The slots below [j] hold profiles and the slots from [j] on are
    Undefined. *)
Definition filled_upto (j : nat) (tbl : list NetworkInfo) : Prop :=
  forall i slot, tbl !! i = Some slot ->
    (i < j -> mNetworkType slot <> kUndefined) /\ (j <= i -> mNetworkType slot = kUndefined).

(** [i] is the first Undefined slot of the table. *)
Definition first_undefined (tbl : list NetworkInfo) (i : nat) : Prop :=
  (exists slot, tbl !! i = Some slot /\ mNetworkType slot = kUndefined)
  /\ forall j slot, j < i -> tbl !! j = Some slot -> mNetworkType slot <> kUndefined.

(** A dataset that [Init] accepts and that holds an extended PAN ID,
    whatever object it is parsed into. *)
Definition well_formed_dataset (operationalDataset : list byte) : Prop :=
  forall d : OperationalDataset,
    (Init d operationalDataset).1 = CHIP_NO_ERROR
    /\ (GetExtendedPanId (Init d operationalDataset).2).1 = CHIP_NO_ERROR.

(** A dataset that [Init] refuses. *)
Definition unparseable_dataset (operationalDataset : list byte) : Prop :=
  forall d : OperationalDataset, (Init d operationalDataset).1 <> CHIP_NO_ERROR.

(** A dataset that [Init] refuses, or from which no extended PAN ID is
    obtained. *)
Definition malformed_dataset (operationalDataset : list byte) : Prop :=
  forall d : OperationalDataset,
    (Init d operationalDataset).1 <> CHIP_NO_ERROR
    \/ (GetExtendedPanId (Init d operationalDataset).2).1 <> CHIP_NO_ERROR.

(** An add command this build can carry out on a free slot. *)
Definition valid_add (c : AddCommand) : Prop :=
  match c with
  | AddWiFi ssid credentials =>
      CHIP_DEVICE_LAYER_TARGET cfg = true
      /\ (size ssid <= kMaxWiFiSSIDLen)%N /\ (size credentials <= kMaxWiFiCredentialsLen)%N
  | AddThread operationalDataset =>
      CHIP_DEVICE_CONFIG_ENABLE_THREAD cfg = true /\ well_formed_dataset operationalDataset
  end.

(** An add command of a network type this build supports. *)
Definition supported_add (c : AddCommand) : Prop :=
  match c with
  | AddWiFi _ _ => CHIP_DEVICE_LAYER_TARGET cfg = true
  | AddThread _ => CHIP_DEVICE_CONFIG_ENABLE_THREAD cfg = true
  end.

Definition type_of_add (c : AddCommand) : NetworkType :=
  match c with AddWiFi _ _ => kWiFi | AddThread _ => kThread end.

(** The slot holds the profile an accepted add command writes: its type,
    not enabled, and the network id (the SSID) or its length (that of an
    extended PAN ID). *)
Definition profile_of (c : AddCommand) (slot : NetworkInfo) : Prop :=
  mNetworkType slot = type_of_add c /\ mEnabled slot = 0%N
  /\ match c with
     | AddWiFi ssid _ => network_id slot = ssid
     | AddThread _ => mNetworkIDLen slot = kSizeExtendedPanId
     end.

(** The slot holds a profile whose network id is [networkID], in length and
    in bytes. *)
Definition has_network_id (networkID : list byte) (slot : NetworkInfo) : Prop :=
  mNetworkType slot <> kUndefined
  /\ mNetworkIDLen slot = size networkID /\ network_id slot = networkID.

(** [i] is the first slot that holds a profile with the id [networkID]. *)
Definition first_match (tbl : list NetworkInfo) (networkID : list byte) (i : nat) : Prop :=
  (exists slot, tbl !! i = Some slot /\ has_network_id networkID slot)
  /\ forall j slot, j < i -> tbl !! j = Some slot -> ~ has_network_id networkID slot.



(** The response structure of the connect command. *)
Definition connect_response (commandPath : N) (status : NetworkCommissioningStatus) : Call :=
  AddResponseData commandPath (ConnectNetworkResponse status).

(** The response structure of the two add commands. *)
Definition config_response (commandPath : N) (status : NetworkCommissioningStatus) : Call :=
  AddResponseData commandPath (NetworkConfigResponse status).

(** The callback an add command stands for. *)
Definition run_add (commandPath breadcrumb timeoutMs : N) (c : AddCommand) (st : State) : State :=
  match c with
  | AddWiFi ssid credentials =>
      OnAddOrUpdateWiFiNetworkCommandCallbackInternal commandPath ssid credentials
        breadcrumb timeoutMs st
  | AddThread operationalDataset =>
      OnAddOrUpdateThreadNetworkCommandCallbackInternal commandPath operationalDataset
        breadcrumb timeoutMs st
  end.

(** The commands of [cs] one after the other. *)
Definition run_adds (commandPath breadcrumb timeoutMs : N) (cs : list AddCommand) (st : State)
    : State :=
  fold_left (fun st c => run_add commandPath breadcrumb timeoutMs c st) cs st.

(** The loop body an add command runs in the free slot it found. *)
Definition add_in_slot (c : AddCommand) (slot : NetworkInfo)
    : NetworkCommissioningStatus * NetworkInfo :=
  match c with
  | AddWiFi ssid credentials => AddOrUpdateWiFiNetwork_slot ssid credentials slot
  | AddThread operationalDataset =>
      AddOrUpdateThreadNetwork_slot operationalDataset kBoundsExceeded slot
  end.

(** *** Sequences of commands *)

(** The three commands of the cluster, as data. *)
Inductive Command : Type :=
| Add (c : AddCommand)
| Connect (networkID : list byte).

(** The callback a command stands for. *)
Definition run_command (commandPath breadcrumb timeoutMs : N) (cmd : Command) (st : State)
    : State :=
  match cmd with
  | Add c => run_add commandPath breadcrumb timeoutMs c st
  | Connect networkID =>
      OnConnectNetworkCommandCallbackInternal commandPath networkID breadcrumb timeoutMs st
  end.

(** The commands of [cmds] one after the other. *)
Definition run_commands (commandPath breadcrumb timeoutMs : N) (cmds : list Command)
    (st : State) : State :=
  fold_left (fun st cmd => run_command commandPath breadcrumb timeoutMs cmd st) cmds st.

(** The id array has its declared size and the stored id length fits it. *)
Definition id_in_bounds (slot : NetworkInfo) : Prop :=
  length (mNetworkID slot) = N.to_nat sizeof_mNetworkID
  /\ (mNetworkIDLen slot <= kMaxNetworkIDLen)%N.

(** [GetExtendedPanId] fills an array of [kSizeExtendedPanId] bytes, and the
    file's static_assert holds: the id array is at least that large. *)
Definition extended_pan_id_fits : Prop :=
  (kSizeExtendedPanId <= sizeof_mNetworkID)%N
  /\ forall d : OperationalDataset,
       length (GetExtendedPanId d).2 = N.to_nat kSizeExtendedPanId.

End Cluster.

End NetworkCommissioning.

(** ** The timed-interaction window *)

Module TimedInteractionGuard.

(** Modelled from the spec: the Timed Interaction Guard's window and its
    [open_window] / [check_window] operations (spec section 4.2).  The
    responder side of timed interactions is not under src/; [TimedRequest.cpp]
    is the requester side.  The deadline is the time of the announcement plus
    the declared timeout, and a check reports Expired when [now > deadline]. *)
Record TimedInteractionWindow : Type := {
  exchange_id : N;
  deadline : N
}.

Inductive WindowCheck : Type :=
| WithinWindow
| Expired.

Definition open_window (exchange : N) (announced_at timeout_ms : N) : TimedInteractionWindow :=
  {| exchange_id := exchange; deadline := announced_at + timeout_ms |}.

Definition check_window (w : TimedInteractionWindow) (now : N) : WindowCheck :=
  if (deadline w <? now)%N then Expired else WithinWindow.

End TimedInteractionGuard.

(** ** [CHIPClientCallbacks.cpp]: the message-length check *)

Module ClientCallbacks.

(** [EmberAfStatus], as far as the macros of this file use it. *)
Inductive EmberAfStatus : Type :=
| EMBER_ZCL_STATUS_INVALID_VALUE.

(** A call [cb->mCall(cb->mContext, status)] of the failure callback
    registered under the pointer [cb]. *)
Record FailureCall : Type := {
  callback : N;
  status : EmberAfStatus
}.

(** [CanCastTo<uint16_t>(value)] for an integer [value]. *)
Definition CanCastTo_uint16 (value : Z) : bool :=
  ((0 <=? value) && (value <=? 65535))%Z.

(** [static_cast<uint16_t>(value)]. *)
Definition static_cast_uint16 (value : Z) : Z := (value mod 65536)%Z.

(** The block run when a check fails: the failure callback, when it is not
    null, is called with INVALID_VALUE. *)
Definition report_failure (onFailureCallback : option N) : list FailureCall :=
  match onFailureCallback with
  | Some cb => [{| callback := cb; status := EMBER_ZCL_STATUS_INVALID_VALUE |}]
  | None => []
  end.

(** What the macro does to the function it is used in: it returns from it,
    after the calls listed, or goes on with a new [messageLen]. *)
Inductive Checked : Type :=
| Returned (invoked : list FailureCall)
| GoesOn (messageLen : Z).

(** [CHECK_MESSAGE_LENGTH_WITH_RETVAL(value, retval)], with the [uint16_t
    messageLen] and the [onFailureCallback] of the enclosing function. *)
Definition CHECK_MESSAGE_LENGTH (onFailureCallback : option N) (messageLen value : Z) : Checked :=
  if negb (CanCastTo_uint16 value) then Returned (report_failure onFailureCallback)
  else if (messageLen <? value)%Z then Returned (report_failure onFailureCallback)
  else GoesOn (static_cast_uint16 (messageLen - static_cast_uint16 value)).

(** [CHECK_MESSAGE_LENGTH(v1); CHECK_MESSAGE_LENGTH(v2); ...] for the values
    of a list, in order. *)
Fixpoint CHECK_MESSAGE_LENGTHS (onFailureCallback : option N) (messageLen : Z)
    (values : list Z) : Checked :=
  match values with
  | [] => GoesOn messageLen
  | value :: rest =>
      match CHECK_MESSAGE_LENGTH onFailureCallback messageLen value with
      | Returned invoked => Returned invoked
      | GoesOn messageLen' => CHECK_MESSAGE_LENGTHS onFailureCallback messageLen' rest
      end
  end.

(** The sum of a list of integers. *)
Definition total (values : list Z) : Z := foldr Z.add 0%Z values.

End ClientCallbacks.

(** ** Concrete builds, used to run the callbacks on explicit inputs *)

Module Sample.

Import NetworkCommissioning.

(** Modelled from the spec: [Thread::OperationalDataset], which is declared
    and defined outside src/.  The spec gives a dataset blob of at most 254
    bytes from which the 8-byte extended PAN ID is derived; here the blob is
    a sequence of Thread TLVs (type byte, length byte, value), [Init] refuses
    a blob that is too long or that is not such a sequence, and the extended
    PAN ID is the value of the first TLV of type 2 when it has 8 bytes. *)
Record Dataset : Type := {
  ds_mData : list byte;   (* uint8_t [kMaxThreadDatasetLen] *)
  ds_mLength : N
}.

Fixpoint tlvs (fuel : nat) (data : list byte) : option (list (byte * list byte)) :=
  match fuel with
  | O => None
  | S fuel' =>
      match data with
      | [] => Some []
      | [_] => None
      | type :: len :: rest =>
          let n := N.to_nat (Byte.to_N len) in
          if decide (n <= length rest)
          then option_map (cons (type, take n rest)) (tlvs fuel' (drop n rest))
          else None
      end
  end.

Definition parse (data : list byte) : option (list (byte * list byte)) :=
  tlvs (S (length data)) data.

Definition kTypeExtendedPanId : byte := x02.

Definition Dataset_Init (d : Dataset) (data : list byte) : CHIP_ERROR * Dataset :=
  if negb (size data <=? kMaxThreadDatasetLen)%N then (CHIP_ERROR_code 47, d)
  else
    match parse data with
    | None => (CHIP_ERROR_code 47, d)
    | Some _ =>
        (CHIP_NO_ERROR,
         {| ds_mData := memcpy (ds_mData d) data (size data); ds_mLength := size data |})
    end.

Definition Dataset_AsByteSpan (d : Dataset) : list byte :=
  take (N.to_nat (ds_mLength d)) (ds_mData d).

Definition Dataset_GetExtendedPanId (d : Dataset) : CHIP_ERROR * list byte :=
  match parse (Dataset_AsByteSpan d) with
  | Some entries =>
      match list_find (fun e => e.1 = kTypeExtendedPanId) entries with
      | Some (_, (_, value)) =>
          if decide (length value = 8) then (CHIP_NO_ERROR, value)
          else (CHIP_ERROR_code 51, replicate 8 x00)
      | None => (CHIP_ERROR_code 51, replicate 8 x00)
      end
  | None => (CHIP_ERROR_code 51, replicate 8 x00)
  end.

Definition threadLib : ThreadLib := {|
  OperationalDataset := Dataset;
  kSizeExtendedPanId := 8;
  Init := Dataset_Init;
  GetExtendedPanId := Dataset_GetExtendedPanId;
  AsByteSpan := Dataset_AsByteSpan
|}.

#[local] Existing Instance threadLib.

(** A union instance that keeps the two members side by side. *)
Definition sideBySide : @NetworkDataUnion threadLib := {|
  NetworkData := Dataset * WiFiNetworkInfo;
  mThread := fun u : Dataset * WiFiNetworkInfo => u.1;
  set_mThread := fun (d : Dataset) (u : Dataset * WiFiNetworkInfo) => (d, u.2);
  mWiFi := fun u : Dataset * WiFiNetworkInfo => u.2;
  set_mWiFi := fun (w : WiFiNetworkInfo) (u : Dataset * WiFiNetworkInfo) => (u.1, w);
  mThread_set_mThread := fun d u => eq_refl;
  mWiFi_set_mWiFi := fun w u => eq_refl
|}.

#[local] Existing Instance sideBySide.

(** Device layers. *)
Definition allSucceed : DeviceLayer := {| platform := fun _ _ => CHIP_NO_ERROR |}.

Definition provisionFails : DeviceLayer := {|
  platform := fun _ c =>
    match c with
    | SetThreadProvision _ | ProvisionWiFi _ _ => CHIP_ERROR_code 172
    | _ => CHIP_NO_ERROR
    end
|}.

Definition disableFails : DeviceLayer := {|
  platform := fun _ c =>
    match c with
    | SetThreadEnabled false => CHIP_ERROR_code 172
    | _ => CHIP_NO_ERROR
    end
|}.

(** Builds. *)
Definition embedded : BuildConfig := {|
  CHIP_DEVICE_CONFIG_ENABLE_THREAD := true;
  CHIP_DEVICE_LAYER_TARGET := true;
  CHIP_DEVICE_LAYER_TARGET_LINUX := false;
  CHIP_CLUSTER_NETWORK_COMMISSIONING_MAX_NETWORKS := 4
|}.

Definition linux : BuildConfig := {|
  CHIP_DEVICE_CONFIG_ENABLE_THREAD := true;
  CHIP_DEVICE_LAYER_TARGET := true;
  CHIP_DEVICE_LAYER_TARGET_LINUX := true;
  CHIP_CLUSTER_NETWORK_COMMISSIONING_MAX_NETWORKS := 4
|}.

(** A build with a device-layer target and without Thread support. *)
Definition wifiOnly : BuildConfig := {|
  CHIP_DEVICE_CONFIG_ENABLE_THREAD := false;
  CHIP_DEVICE_LAYER_TARGET := true;
  CHIP_DEVICE_LAYER_TARGET_LINUX := false;
  CHIP_CLUSTER_NETWORK_COMMISSIONING_MAX_NETWORKS := 4
|}.

(** The zero-initialised global array. *)
Definition zeroSlot : NetworkInfo := {|
  mNetworkID := replicate 32 x00;
  mNetworkIDLen := 0;
  mEnabled := 0;
  mNetworkType := kUndefined;
  mData :=
    ({| ds_mData := replicate 254 x00; ds_mLength := 0 |},
     {| mSSID := replicate 33 x00; mSSIDLen := 0;
        mCredentials := replicate 64 x00; mCredentialsLen := 0 |})
|}.

Definition atBoot : State := {| sNetworks := replicate 4 zeroSlot; calls := [] |}.

(** Inputs. *)
Definition home : list byte := ["h"; "o"; "m"; "e"]%byte.
Definition secret123 : list byte := ["s"; "e"; "c"; "r"; "e"; "t"; "1"; "2"; "3"]%byte.
Definition office : list byte := ["o"; "f"; "f"; "i"; "c"; "e"]%byte.

(** A dataset of one TLV: the extended PAN ID 01 02 03 04 05 06 07 08. *)
Definition panId : list byte := [x01; x02; x03; x04; x05; x06; x07; x08].
Definition dataset1 : list byte := [x02; x08] ++ panId.

(** The adds of the spec's example: the same WiFi network twice, and two
    more networks. *)
Definition fourAdds : list AddCommand :=
  [AddWiFi home secret123; AddWiFi home secret123; AddThread dataset1; AddWiFi office []].

(** The state after the WiFi network [home] was added at boot, and after all
    of [fourAdds] were. *)
Definition homeAdded : State :=
  OnAddOrUpdateWiFiNetworkCommandCallbackInternal embedded 0 home secret123 0 0 atBoot.

Definition allAdded : State := run_adds embedded 0 0 0 fourAdds atBoot.

(** Four WiFi adds, and the state after them on the build without Thread
    support. *)
Definition fourWiFiAdds : list AddCommand :=
  [AddWiFi home secret123; AddWiFi office []; AddWiFi home []; AddWiFi office secret123].

Definition wifiOnlyFull : State := run_adds wifiOnly 0 0 0 fourWiFiAdds atBoot.

(** The WiFi profile in slot 0 of [homeAdded]. *)
Definition homeProfile : NetworkInfo := default zeroSlot (sNetworks homeAdded !! 0).

(** The Thread profile that adding [dataset1] at boot leaves in slot 0. *)
Definition threadProfile : NetworkInfo :=
  default zeroSlot
    (sNetworks (OnAddOrUpdateThreadNetworkCommandCallbackInternal embedded 0 dataset1 0 0 atBoot)
       !! 0).

(** A slot holding a profile of the given type under the id [home]. *)
Definition profile (type : NetworkType) : NetworkInfo :=
  set_mNetworkType type
    (set_mNetworkIDLen 4 (set_mNetworkID (memcpy (replicate 32 x00) home 4) zeroSlot)).

Definition withProfile (type : NetworkType) : State :=
  {| sNetworks := profile type :: replicate 3 zeroSlot; calls := [] |}.

Definition fullTable : State := {| sNetworks := replicate 4 (profile kEthernet); calls := [] |}.

(** A stand-in for [PayloadHeader] and for the decoder
    [StatusResponse::ProcessStatusResponse], both outside src/: a header is
    its message type; a payload with no byte to read is refused, otherwise
    its first byte is the status code (0 for Success). *)
Definition hasMessageType (header type : TimedRequest.MsgType) : bool :=
  bool_decide (header = type).

Definition processStatusResponse (payload : list byte) (status : TimedRequest.StatusIB)
    : CHIP_ERROR * TimedRequest.StatusIB :=
  match payload with
  | [] => (CHIP_ERROR_code 33, status)
  | code :: _ =>
      (CHIP_NO_ERROR,
       {| TimedRequest.mStatus :=
            if decide (code = x00) then TimedRequest.Success
            else TimedRequest.Status_other (Byte.to_N code) |})
  end.

End Sample.

(** * Properties *)

(** ** [TimedRequest::HandleResponse] *)

Section TimedRequestProperties.

Import TimedRequest.

Context {PayloadHeader PacketBufferHandle : Type}.
Variable HasMessageType : PayloadHeader -> MsgType -> bool.
Variable ProcessStatusResponse : PacketBufferHandle -> StatusIB -> CHIP_ERROR * StatusIB.

(** C6, as amended.  [HandleResponse] has four outcomes, tried in this
    order: a reply whose header is not of type StatusResponse yields
    CHIP_ERROR_INVALID_MESSAGE_TYPE; otherwise a payload that
    [ProcessStatusResponse] fails to decode yields the decoder's error;
    otherwise a decoded status other than Success yields
    CHIP_ERROR_IM_STATUS_CODE_RECEIVED; otherwise the result is
    CHIP_NO_ERROR. *)
Theorem HandleResponse_outcomes (aPayloadHeader : PayloadHeader)
    (aPayload : PacketBufferHandle) (aStatusIB : StatusIB) :
  let decoded := ProcessStatusResponse aPayload aStatusIB in
  let result := HandleResponse HasMessageType ProcessStatusResponse aPayloadHeader aPayload aStatusIB in
  (HasMessageType aPayloadHeader StatusResponse = false ->
     result = (CHIP_ERROR_INVALID_MESSAGE_TYPE, aStatusIB))
  /\ (HasMessageType aPayloadHeader StatusResponse = true ->
      decoded.1 <> CHIP_NO_ERROR ->
      result = decoded)
  /\ (HasMessageType aPayloadHeader StatusResponse = true ->
      decoded.1 = CHIP_NO_ERROR ->
      mStatus decoded.2 <> Success ->
      result = (CHIP_ERROR_IM_STATUS_CODE_RECEIVED, decoded.2))
  /\ (HasMessageType aPayloadHeader StatusResponse = true ->
      decoded.1 = CHIP_NO_ERROR ->
      mStatus decoded.2 = Success ->
      result = (CHIP_NO_ERROR, decoded.2)).
Proof.
  unfold HandleResponse; cbn zeta.
  destruct (HasMessageType aPayloadHeader StatusResponse) eqn:Htype; cbn [negb].
  - destruct (ProcessStatusResponse aPayload aStatusIB) as [err decodedIB] eqn:Hdecode.
    cbn [fst snd].
    repeat split; intros; try discriminate.
    + destruct err; cbn; congruence.
    + subst err; cbn. rewrite bool_decide_eq_false_2 by assumption. reflexivity.
    + subst err; cbn. rewrite bool_decide_eq_true_2 by assumption. reflexivity.
  - repeat split; intros; try discriminate; reflexivity.
Qed.

End TimedRequestProperties.

(** C6, as stated, fails on a reply of the right type whose payload cannot be
    decoded: with the sample decoder and an empty payload the result is the
    decoder's error, which is neither CHIP_ERROR_IM_STATUS_CODE_RECEIVED nor
    CHIP_NO_ERROR, while the status object still reads Success. *)
Lemma HandleResponse_undecodable_payload :
  TimedRequest.HandleResponse Sample.hasMessageType Sample.processStatusResponse
    TimedRequest.StatusResponse [] {| TimedRequest.mStatus := TimedRequest.Success |}
  = (CHIP_ERROR_code 33, {| TimedRequest.mStatus := TimedRequest.Success |})
  /\ CHIP_ERROR_code 33 <> CHIP_ERROR_IM_STATUS_CODE_RECEIVED
  /\ CHIP_ERROR_code 33 <> CHIP_NO_ERROR.
Proof. repeat split; discriminate. Qed.

(** ** The network-commissioning cluster *)

Import NetworkCommissioning.

Section ClusterProperties.

Context {thread : ThreadLib} {union : NetworkDataUnion} {device : DeviceLayer}.
Variable cfg : BuildConfig.

(** *** The slot scan *)

Lemma scan_Some (test : NetworkInfo -> bool) (n i : nat) (tbl : list NetworkInfo) k slot :
  scan test n i tbl = Some (k, slot) ->
  tbl !! k = Some slot /\ test slot = true /\ i <= k < i + n
  /\ forall j s, i <= j < k -> tbl !! j = Some s -> test s = false.
Proof.
  revert i; induction n as [|n IH]; intros i; cbn [scan]; [discriminate|].
  destruct (tbl !! i) as [s0|] eqn:Hi; [|discriminate].
  destruct (test s0) eqn:Ht.
  - intros [= <- <-]. repeat split; try assumption; lia.
  - intros Hscan. destruct (IH _ Hscan) as (Hk & Hk' & Hrange & Hbefore).
    repeat split; try assumption; try lia.
    intros j s Hj Hjs. destruct (decide (j = i)) as [->|Hne].
    + congruence.
    + apply (Hbefore j s); [lia|assumption].
Qed.

Lemma scan_None (test : NetworkInfo -> bool) (n i : nat) (tbl : list NetworkInfo) :
  scan test n i tbl = None ->
  forall j s, i <= j < i + n -> tbl !! j = Some s -> test s = false.
Proof.
  revert i; induction n as [|n IH]; intros i; cbn [scan]; [intros _ j s Hj; lia|].
  destruct (tbl !! i) as [s0|] eqn:Hi.
  - destruct (test s0) eqn:Ht; [discriminate|].
    intros Hscan j s Hj Hjs. destruct (decide (j = i)) as [->|Hne].
    + congruence.
    + apply (IH _ Hscan j s); [lia|assumption].
  - intros _ j s Hj Hjs.
    apply lookup_ge_None in Hi. apply lookup_lt_Some in Hjs. lia.
Qed.

Lemma scan_first (test : NetworkInfo -> bool) (n i : nat) (tbl : list NetworkInfo) k slot :
  tbl !! k = Some slot -> test slot = true -> i <= k < i + n ->
  (forall j s, i <= j < k -> tbl !! j = Some s -> test s = false) ->
  scan test n i tbl = Some (k, slot).
Proof.
  revert i; induction n as [|n IH]; intros i Hk Ht Hrange Hbefore; [lia|].
  cbn [scan]. destruct (decide (i = k)) as [->|Hne].
  - rewrite Hk, Ht. reflexivity.
  - destruct (tbl !! i) as [s0|] eqn:Hi.
    + rewrite (Hbefore i s0) by (lia || assumption).
      apply IH; try assumption; [lia|].
      intros j s Hj; apply Hbefore; lia.
    + apply lookup_ge_None in Hi. apply lookup_lt_Some in Hk. lia.
Qed.

Lemma is_undefined_true (slot : NetworkInfo) :
  is_undefined slot = true <-> mNetworkType slot = kUndefined.
Proof. unfold is_undefined. apply bool_decide_eq_true. Qed.

Lemma is_undefined_false (slot : NetworkInfo) :
  is_undefined slot = false <-> mNetworkType slot <> kUndefined.
Proof. unfold is_undefined. apply bool_decide_eq_false. Qed.

(** The scan for a free slot finds the first Undefined slot of a table of
    [kMaxNetworks] elements, and nothing when the table is full. *)
Lemma scan_first_undefined (tbl : list NetworkInfo) i :
  well_sized cfg tbl -> first_undefined tbl i ->
  exists slot, scan is_undefined (N.to_nat (kMaxNetworks cfg)) 0 tbl = Some (i, slot)
               /\ tbl !! i = Some slot /\ mNetworkType slot = kUndefined.
Proof.
  intros Hsize [(slot & Hi & Hundef) Hbefore]. exists slot. repeat split; try assumption.
  apply scan_first; try assumption.
  - by apply is_undefined_true.
  - apply lookup_lt_Some in Hi. unfold well_sized in Hsize. lia.
  - intros j s Hj Hjs. apply is_undefined_false. by apply (Hbefore j s); [lia|].
Qed.

Lemma scan_undefined_first (tbl : list NetworkInfo) n i slot :
  scan is_undefined n 0 tbl = Some (i, slot) -> first_undefined tbl i.
Proof.
  intros Hscan. destruct (scan_Some _ _ _ _ _ _ Hscan) as (Hi & Ht & _ & Hbefore). split.
  - exists slot. split; [assumption|]. by apply is_undefined_true.
  - intros j s Hj Hjs. apply is_undefined_false. apply (Hbefore j s); [lia|assumption].
Qed.

Lemma scan_undefined_iff (tbl : list NetworkInfo) (n i : nat) (slot : NetworkInfo) :
  scan is_undefined n 0 tbl = Some (i, slot)
  <-> first_undefined tbl i /\ i < n /\ tbl !! i = Some slot.
Proof.
  split.
  - intros Hscan. destruct (scan_Some _ _ _ _ _ _ Hscan) as (Hi & _ & Hrange & _).
    split; [by eapply scan_undefined_first|]. split; [lia|assumption].
  - intros ([(s & Hs & Hundef) Hbefore] & Hlt & Hi).
    assert (s = slot) as -> by congruence.
    apply scan_first; try assumption.
    + by apply is_undefined_true.
    + lia.
    + intros j s Hj Hjs. apply is_undefined_false. apply (Hbefore j s); [lia|assumption].
Qed.

Lemma scan_table_full (tbl : list NetworkInfo) n :
  table_full tbl -> scan is_undefined n 0 tbl = None.
Proof.
  intros Hfull. destruct (scan is_undefined n 0 tbl) as [[i slot]|] eqn:Hscan; [|reflexivity].
  destruct (scan_Some _ _ _ _ _ _ Hscan) as (Hi & Ht & _).
  apply is_undefined_true in Ht. by destruct (Hfull i slot Hi).
Qed.

Lemma first_undefined_unique (tbl : list NetworkInfo) i j :
  first_undefined tbl i -> first_undefined tbl j -> i = j.
Proof.
  intros [(si & Hi & Hui) Hbi] [(sj & Hj & Huj) Hbj].
  destruct (Nat.lt_trichotomy i j) as [Hlt|[Heq|Hgt]]; [|assumption|].
  - by destruct (Hbj i si Hlt Hi).
  - by destruct (Hbi j sj Hgt Hj).
Qed.

(** *** Adding a WiFi network *)

Lemma memcpy_prefix (dst src rest : list byte) :
  memcpy dst (src ++ rest) (size src) = src ++ drop (length src) dst.
Proof.
  unfold memcpy, size. rewrite Nat2N.id, take_app_length. reflexivity.
Qed.

Lemma memcpy_whole (dst src : list byte) :
  memcpy dst src (size src) = src ++ drop (length src) dst.
Proof.
  rewrite <- (app_nil_r src) at 1. apply memcpy_prefix.
Qed.

Lemma static_cast_uint8_small (n : N) : (n <= 255)%N -> static_cast_uint8 n = n.
Proof. intros Hn. unfold static_cast_uint8. apply N.mod_small. lia. Qed.

Lemma update_mWiFi_header (f : WiFiNetworkInfo -> WiFiNetworkInfo) (slot : NetworkInfo) :
  same_header slot (update_mWiFi f slot).
Proof. repeat split. Qed.

Lemma same_header_refl (slot : NetworkInfo) : same_header slot slot.
Proof. repeat split. Qed.

Lemma same_header_trans (a b c : NetworkInfo) :
  same_header a b -> same_header b c -> same_header a c.
Proof.
  intros (? & ? & ? & ?) (? & ? & ? & ?). repeat split; congruence.
Qed.

(** A refused WiFi add answers OutOfRange and leaves every member of the
    slot but the payload as it was. *)
Lemma AddOrUpdateWiFiNetwork_slot_refused (ssid credentials : list byte) (slot : NetworkInfo) :
  (kMaxWiFiSSIDLen < size ssid \/ kMaxWiFiCredentialsLen < size credentials)%N ->
  exists slot', AddOrUpdateWiFiNetwork_slot ssid credentials slot = (kOutOfRange, slot')
                /\ same_header slot slot'.
Proof.
  intros Hover. unfold AddOrUpdateWiFiNetwork_slot.
  unfold sizeof_mSSID, sizeof_mCredentials, sizeof_mNetworkID, CanCastTo_uint8,
    kMaxWiFiSSIDLen, kMaxWiFiCredentialsLen, kMaxNetworkIDLen in *.
  repeat match goal with
         | |- context [negb (?a <=? ?b)%N] =>
             destruct (N.leb_spec a b); cbn [negb]
         end;
    try lia;
    eexists; (split; [reflexivity|]);
    repeat first [ apply same_header_refl
                 | eapply same_header_trans; [|apply update_mWiFi_header] ].
Qed.

(** An accepted WiFi add writes the slot's header: the SSID as network id,
    type WiFi, not enabled. *)
Lemma AddOrUpdateWiFiNetwork_slot_accepted (ssid credentials : list byte) (slot : NetworkInfo) :
  (size ssid <= kMaxWiFiSSIDLen)%N -> (size credentials <= kMaxWiFiCredentialsLen)%N ->
  exists slot', AddOrUpdateWiFiNetwork_slot ssid credentials slot = (kSuccess, slot')
                /\ mNetworkType slot' = kWiFi /\ mEnabled slot' = 0%N
                /\ mNetworkIDLen slot' = size ssid /\ network_id slot' = ssid.
Proof.
  intros Hssid Hcred. unfold AddOrUpdateWiFiNetwork_slot.
  unfold sizeof_mSSID, sizeof_mCredentials, sizeof_mNetworkID, CanCastTo_uint8,
    kMaxWiFiSSIDLen, kMaxWiFiCredentialsLen, kMaxNetworkIDLen in *.
  repeat match goal with
         | |- context [negb (?a <=? ?b)%N] =>
             destruct (N.leb_spec a b); cbn [negb]
         end;
    try lia.
  eexists; split; [reflexivity|].
  unfold network_id; cbn.
  rewrite !mWiFi_set_mWiFi; cbn.
  rewrite static_cast_uint8_small by lia.
  repeat split.
  rewrite memcpy_whole, memcpy_prefix. unfold size. rewrite Nat2N.id.
  apply take_app_length.
Qed.

(** Writing back one slot whose header is kept keeps every header of the
    table, and every other slot as a whole. *)
Lemma write_back_header (tbl : list NetworkInfo) (k : nat) (old new : NetworkInfo) :
  tbl !! k = Some old -> same_header old new ->
  length (<[k := new]> tbl) = length tbl
  /\ forall i slot, tbl !! i = Some slot ->
       exists slot', <[k := new]> tbl !! i = Some slot' /\ same_header slot slot'
                     /\ (i <> k -> slot' = slot).
Proof.
  intros Hk Hsame. split; [apply length_insert|].
  intros i slot Hi. destruct (decide (i = k)) as [->|Hne].
  - exists new. rewrite list_lookup_insert_eq by (by eapply lookup_lt_Some).
    assert (slot = old) as -> by congruence.
    repeat split; try apply Hsame. congruence.
  - exists slot. rewrite list_lookup_insert_ne by congruence.
    split; [assumption|]. split; [apply same_header_refl|reflexivity].
Qed.

(** C1, as amended.  On a build with WiFi support and a table of
    kMaxNetworks slots, a WiFi add whose ssid is longer than 32 bytes or whose
    credentials are longer than 64 bytes gives exactly one response: OutOfRange
    when some slot is Undefined, BoundsExceeded when none is.  No slot's
    network id bytes, network id length, enabled flag or network type
    changes, and every slot other than the first Undefined one is left as it
    was. *)
Theorem wifi_add_oversize_rejected (commandPath : N) (ssid credentials : list byte)
    (breadcrumb timeoutMs : N) (st : State) :
  CHIP_DEVICE_LAYER_TARGET cfg = true ->
  well_sized cfg (sNetworks st) ->
  (kMaxWiFiSSIDLen < size ssid \/ kMaxWiFiCredentialsLen < size credentials)%N ->
  exists status st',
    OnAddOrUpdateWiFiNetworkCommandCallbackInternal cfg commandPath ssid credentials
      breadcrumb timeoutMs st = st'
    /\ calls st' = calls st ++ [AddResponseData commandPath (NetworkConfigResponse status)]
    /\ ((exists i, first_undefined (sNetworks st) i) -> status = kOutOfRange)
    /\ (table_full (sNetworks st) -> status = kBoundsExceeded)
    /\ length (sNetworks st') = length (sNetworks st)
    /\ forall i slot, sNetworks st !! i = Some slot ->
         exists slot', sNetworks st' !! i = Some slot' /\ same_header slot slot'
                       /\ (~ first_undefined (sNetworks st) i -> slot' = slot).
Proof.
  intros Htarget Hsize Hover.
  unfold OnAddOrUpdateWiFiNetworkCommandCallbackInternal. rewrite Htarget.
  destruct (scan is_undefined (N.to_nat (kMaxNetworks cfg)) 0 (sNetworks st))
    as [[k old]|] eqn:Hscan.
  - pose proof (scan_undefined_first _ _ _ _ Hscan) as Hfirst.
    destruct (scan_Some _ _ _ _ _ _ Hscan) as (Hk & Hundef & _).
    apply is_undefined_true in Hundef.
    destruct (AddOrUpdateWiFiNetwork_slot_refused ssid credentials old Hover)
      as (new & -> & Hsame).
    destruct (write_back_header _ _ _ _ Hk Hsame) as [Hlen Hframe].
    exists kOutOfRange. eexists. split; [reflexivity|]. cbn.
    repeat split; try assumption.
    + intros Hfull. by destruct (Hfull k old Hk).
    + intros i slot Hi. destruct (Hframe i slot Hi) as (slot' & Hi' & Hhdr & Hother).
      exists slot'. repeat split; try assumption; try apply Hhdr.
      intros Hnot. apply Hother. intros ->. by apply Hnot.
  - exists kBoundsExceeded. eexists. split; [reflexivity|]. cbn.
    repeat split.
    + intros [i Hfirst].
      destruct (scan_first_undefined _ _ Hsize Hfirst) as (slot & Hfound & _). congruence.
    + intros i slot Hi. exists slot. split; [assumption|].
      split; [apply same_header_refl|reflexivity].
Qed.

(** *** Adding a Thread network *)

(** A dataset that is refused, or that holds no extended PAN ID, leaves every
    member of the slot but the payload as it was; the status is UnknownError
    when [Init] refuses it and the entry value of [err] otherwise. *)
Lemma AddOrUpdateThreadNetwork_slot_refused (operationalDataset : list byte)
    (err : NetworkCommissioningStatus) (slot : NetworkInfo) :
  malformed_dataset operationalDataset ->
  exists status slot',
    AddOrUpdateThreadNetwork_slot operationalDataset err slot = (status, slot')
    /\ same_header slot slot'
    /\ ((Init (mThread (mData slot)) operationalDataset).1 <> CHIP_NO_ERROR ->
        status = kUnknownError)
    /\ ((Init (mThread (mData slot)) operationalDataset).1 = CHIP_NO_ERROR -> status = err).
Proof.
  intros Hbad. specialize (Hbad (mThread (mData slot))).
  unfold AddOrUpdateThreadNetwork_slot.
  destruct (Init (mThread (mData slot)) operationalDataset) as [error dataset]; cbn [fst snd] in *.
  destruct (is_no_error error) eqn:Herror; cbn [negb].
  - assert (error = CHIP_NO_ERROR) as -> by (by destruct error).
    destruct (GetExtendedPanId dataset) as [e extendedPanId]; cbn [fst] in *.
    destruct Hbad as [Hbad|Hbad]; [congruence|].
    assert (is_no_error e = false) as -> by (by destruct e).
    cbn [negb]. do 2 eexists. split; [reflexivity|].
    repeat split; congruence.
  - do 2 eexists. split; [reflexivity|].
    repeat split. intros ->. discriminate.
Qed.

(** A well-formed dataset is accepted: the slot becomes a Thread profile,
    not enabled, with a network id as long as an extended PAN ID. *)
Lemma AddOrUpdateThreadNetwork_slot_accepted (operationalDataset : list byte)
    (err : NetworkCommissioningStatus) (slot : NetworkInfo) :
  well_formed_dataset operationalDataset ->
  exists slot',
    AddOrUpdateThreadNetwork_slot operationalDataset err slot = (kSuccess, slot')
    /\ mNetworkType slot' = kThread /\ mEnabled slot' = 0%N
    /\ mNetworkIDLen slot' = kSizeExtendedPanId.
Proof.
  intros Hgood. destruct (Hgood (mThread (mData slot))) as [Hinit Hpan].
  unfold AddOrUpdateThreadNetwork_slot.
  destruct (Init (mThread (mData slot)) operationalDataset) as [error dataset]; cbn [fst snd] in *.
  subst error. cbn [is_no_error negb].
  destruct (GetExtendedPanId dataset) as [e extendedPanId]; cbn [fst] in *.
  subst e. cbn [is_no_error negb].
  eexists. split; [reflexivity|]. repeat split.
Qed.

(** *** One add command *)

(** A valid add on a table with a free slot answers Success and writes the
    profile into the first Undefined slot, and nowhere else. *)
Lemma run_add_accepted (commandPath breadcrumb timeoutMs : N) (c : AddCommand)
    (st : State) (i : nat) :
  well_sized cfg (sNetworks st) -> first_undefined (sNetworks st) i -> valid_add cfg c ->
  exists slot',
    run_add cfg commandPath breadcrumb timeoutMs c st
    = {| sNetworks := <[i := slot']> (sNetworks st);
         calls := calls st ++ [config_response commandPath kSuccess] |}
    /\ profile_of c slot'.
Proof.
  intros Hsize Hfirst Hvalid.
  destruct (scan_first_undefined _ _ Hsize Hfirst) as (old & Hscan & Hi & Hundef).
  destruct c as [ssid credentials|operationalDataset]; cbn [run_add valid_add] in *.
  - destruct Hvalid as (Htarget & Hssid & Hcred).
    unfold OnAddOrUpdateWiFiNetworkCommandCallbackInternal. rewrite Htarget, Hscan.
    destruct (AddOrUpdateWiFiNetwork_slot_accepted ssid credentials old Hssid Hcred)
      as (new & -> & Htype & Henabled & _ & Hid).
    exists new. split; [reflexivity|]. repeat split; assumption.
  - destruct Hvalid as (Hthread & Hgood).
    unfold OnAddOrUpdateThreadNetworkCommandCallbackInternal. rewrite Hthread, Hscan.
    destruct (AddOrUpdateThreadNetwork_slot_accepted operationalDataset kBoundsExceeded old Hgood)
      as (new & -> & Htype & Henabled & Hlen).
    exists new. split; [reflexivity|]. repeat split; assumption.
Qed.

(** An add of a supported network type on a full table answers
    BoundsExceeded and leaves the table as it was. *)
Lemma run_add_full (commandPath breadcrumb timeoutMs : N) (c : AddCommand) (st : State) :
  table_full (sNetworks st) -> supported_add cfg c ->
  run_add cfg commandPath breadcrumb timeoutMs c st
  = {| sNetworks := sNetworks st;
       calls := calls st ++ [config_response commandPath kBoundsExceeded] |}.
Proof.
  intros Hfull Hsupported.
  destruct c as [ssid credentials|operationalDataset]; cbn [run_add supported_add] in *.
  - unfold OnAddOrUpdateWiFiNetworkCommandCallbackInternal.
    rewrite Hsupported, (scan_table_full _ _ Hfull). reflexivity.
  - unfold OnAddOrUpdateThreadNetworkCommandCallbackInternal.
    rewrite Hsupported, (scan_table_full _ _ Hfull). reflexivity.
Qed.

(** Any add on a full table leaves the table as it was; its answer depends
    on whether the build supports the network type. *)
Lemma run_add_on_full_table (commandPath breadcrumb timeoutMs : N) (c : AddCommand)
    (st : State) :
  table_full (sNetworks st) ->
  exists status,
    run_add cfg commandPath breadcrumb timeoutMs c st
    = {| sNetworks := sNetworks st; calls := calls st ++ [config_response commandPath status] |}
    /\ (supported_add cfg c -> status = kBoundsExceeded)
    /\ (~ supported_add cfg c -> status = kUnknownError).
Proof.
  intros Hfull.
  destruct c as [ssid credentials|operationalDataset]; cbn [run_add supported_add].
  - unfold OnAddOrUpdateWiFiNetworkCommandCallbackInternal.
    destruct (CHIP_DEVICE_LAYER_TARGET cfg).
    + rewrite (scan_table_full _ _ Hfull). exists kBoundsExceeded.
      split; [reflexivity|]. split; [reflexivity|]. intros Hno. by destruct Hno.
    + exists kUnknownError. split; [reflexivity|]. split; [discriminate|reflexivity].
  - unfold OnAddOrUpdateThreadNetworkCommandCallbackInternal.
    destruct (CHIP_DEVICE_CONFIG_ENABLE_THREAD cfg).
    + rewrite (scan_table_full _ _ Hfull). exists kBoundsExceeded.
      split; [reflexivity|]. split; [reflexivity|]. intros Hno. by destruct Hno.
    + exists kUnknownError. split; [reflexivity|]. split; [discriminate|reflexivity].
Qed.

(** *** Sequences of add commands *)

Lemma filled_upto_first (tbl : list NetworkInfo) (j : nat) :
  filled_upto j tbl -> j < length tbl -> first_undefined tbl j.
Proof.
  intros Hfilled Hj. destruct (lookup_lt_is_Some_2 tbl j Hj) as [slot Hslot]. split.
  - exists slot. split; [assumption|]. by apply (Hfilled j slot).
  - intros i s Hi His. by apply (Hfilled i s).
Qed.

Lemma filled_upto_insert (tbl : list NetworkInfo) (j : nat) (new : NetworkInfo) :
  filled_upto j tbl -> mNetworkType new <> kUndefined ->
  filled_upto (S j) (<[j := new]> tbl).
Proof.
  intros Hfilled Hnew i slot Hi. destruct (decide (i = j)) as [->|Hne].
  - apply list_lookup_insert_Some in Hi as [(_ & -> & _)|(? & _)]; [|congruence].
    split; [intros _; assumption|lia].
  - rewrite list_lookup_insert_ne in Hi by congruence.
    destruct (Hfilled i slot Hi) as [Hbelow Hfrom]. split; intros ?; [apply Hbelow|apply Hfrom]; lia.
Qed.

Lemma profile_of_defined (c : AddCommand) (slot : NetworkInfo) :
  profile_of c slot -> mNetworkType slot <> kUndefined.
Proof. intros (-> & _). by destruct c. Qed.

(** From a table filled up to [j], valid adds that still fit all succeed;
    the [k]-th of them fills slot [j + k], and every other slot is kept. *)
Lemma run_adds_fill (commandPath breadcrumb timeoutMs : N) (cs : list AddCommand) :
  forall (st : State) (j : nat),
    well_sized cfg (sNetworks st) -> filled_upto j (sNetworks st) ->
    j + length cs <= N.to_nat (kMaxNetworks cfg) -> Forall (valid_add cfg) cs ->
    exists tbl',
      run_adds cfg commandPath breadcrumb timeoutMs cs st
      = {| sNetworks := tbl';
           calls := calls st ++ map (fun _ => config_response commandPath kSuccess) cs |}
      /\ well_sized cfg tbl' /\ filled_upto (j + length cs) tbl'
      /\ (forall k c, cs !! k = Some c ->
            exists slot, tbl' !! (j + k) = Some slot /\ profile_of c slot)
      /\ (forall i, i < j \/ j + length cs <= i -> tbl' !! i = sNetworks st !! i).
Proof.
  induction cs as [|c cs IH]; intros st j Hsize Hfilled Hfit Hvalid.
  - exists (sNetworks st). cbn. rewrite app_nil_r, Nat.add_0_r.
    destruct st as [tbl log]; cbn [sNetworks calls] in *.
    split; [reflexivity|]. split; [assumption|]. split; [assumption|].
    split; [|reflexivity]. intros k c Hk. discriminate.
  - cbn [length] in Hfit. apply Forall_cons in Hvalid as [Hc Hcs].
    assert (first_undefined (sNetworks st) j) as Hfirst.
    { apply filled_upto_first; [assumption|]. unfold well_sized in Hsize. lia. }
    destruct (run_add_accepted commandPath breadcrumb timeoutMs c st j Hsize Hfirst Hc)
      as (new & Hrun & Hprofile).
    pose proof (profile_of_defined _ _ Hprofile) as Hdefined.
    unfold run_adds in *. cbn [fold_left]. rewrite Hrun.
    destruct (IH {| sNetworks := <[j := new]> (sNetworks st);
                    calls := calls st ++ [config_response commandPath kSuccess] |} (S j))
      as (tbl' & Hruns & Hsize' & Hfilled' & Hslots & Hframe);
      [| |cbn [sNetworks]; lia|exact Hcs|].
    { unfold well_sized in *. cbn [sNetworks]. by rewrite length_insert. }
    { by apply filled_upto_insert. }
    cbn [sNetworks calls] in *.
    exists tbl'. rewrite Hruns. cbn [map length]. rewrite <- app_assoc. cbn [app].
    split; [reflexivity|]. split; [assumption|].
    split; [by replace (j + S (length cs)) with (S j + length cs) by lia|].
    split.
    + intros [|k] c' Hk; cbn in Hk.
      * injection Hk as <-. exists new. split; [|assumption].
        rewrite Nat.add_0_r, Hframe by lia.
        apply list_lookup_insert_eq. unfold well_sized in Hsize. lia.
      * destruct (Hslots k c' Hk) as (slot & Hslot & Hp). exists slot.
        split; [|assumption]. by replace (j + S k) with (S j + k) by lia.
    + intros i Hi. rewrite Hframe by lia. apply list_lookup_insert_ne. lia.
Qed.

Lemma filled_upto_empty (tbl : list NetworkInfo) : table_empty tbl -> filled_upto 0 tbl.
Proof. intros Hempty i slot Hi. split; [lia|]. intros _. by apply (Hempty i slot). Qed.

Lemma filled_upto_full (tbl : list NetworkInfo) (j : nat) :
  filled_upto j tbl -> length tbl <= j -> table_full tbl.
Proof.
  intros Hfilled Hj i slot Hi. apply (Hfilled i slot Hi).
  apply lookup_lt_Some in Hi. lia.
Qed.

(** C3.  Starting from a table of kMaxNetworks slots that are all Undefined,
    every sequence of at most kMaxNetworks valid add commands (WiFi with an
    SSID of at most 32 and credentials of at most 64 bytes, Thread with a
    well-formed dataset, on a build that supports the type) gets the response
    Success for each command; the [k]-th command's profile is in slot [k], so
    the profiles are in distinct slots, and the slots after them are
    untouched.  After kMaxNetworks adds no slot is Undefined, and on any
    table without an Undefined slot every further add makes one call, its
    response, and leaves the table as it was: the response is BoundsExceeded
    when the build supports the add's network type, and UnknownError when it
    does not. *)
Theorem capacity_invariant (commandPath breadcrumb timeoutMs : N) (cs : list AddCommand)
    (st : State) :
  well_sized cfg (sNetworks st) -> table_empty (sNetworks st) ->
  length cs <= N.to_nat (kMaxNetworks cfg) -> Forall (valid_add cfg) cs ->
  exists st',
    run_adds cfg commandPath breadcrumb timeoutMs cs st = st'
    /\ calls st' = calls st ++ map (fun _ => config_response commandPath kSuccess) cs
    /\ (forall k c, cs !! k = Some c ->
          exists slot, sNetworks st' !! k = Some slot /\ profile_of c slot)
    /\ (forall k, length cs <= k -> sNetworks st' !! k = sNetworks st !! k)
    /\ (length cs = N.to_nat (kMaxNetworks cfg) -> table_full (sNetworks st'))
    /\ (forall (further : AddCommand) (full : State),
          table_full (sNetworks full) ->
          exists status,
            run_add cfg commandPath breadcrumb timeoutMs further full
            = {| sNetworks := sNetworks full;
                 calls := calls full ++ [config_response commandPath status] |}
            /\ (supported_add cfg further -> status = kBoundsExceeded)
            /\ (~ supported_add cfg further -> status = kUnknownError)).
Proof.
  intros Hsize Hempty Hfit Hvalid.
  destruct (run_adds_fill commandPath breadcrumb timeoutMs cs st 0 Hsize
              (filled_upto_empty _ Hempty) Hfit Hvalid)
    as (tbl' & Hruns & Hsize' & Hfilled' & Hslots & Hframe).
  eexists. split; [exact Hruns|]. cbn [sNetworks calls].
  split; [reflexivity|]. split; [exact Hslots|].
  split; [intros k Hk; apply Hframe; lia|].
  split.
  - intros Hall. apply (filled_upto_full _ _ Hfilled'). unfold well_sized in Hsize'. lia.
  - intros further full. apply run_add_on_full_table.
Qed.

(** *** Malformed Thread datasets *)

(** C5, as amended.  On a build with Thread support and a table of
    kMaxNetworks slots, a Thread add whose dataset is refused by [Init], or
    holds no extended PAN ID, gives exactly one response, which is never
    Success: UnknownError when [Init] refuses the dataset and some slot is
    Undefined, BoundsExceeded when no slot is Undefined.  No slot's network
    type, network id bytes, network id length or enabled flag changes, and
    every slot other than the first Undefined one is left as it was. *)
Theorem thread_add_malformed_rejected (commandPath : N) (operationalDataset : list byte)
    (breadcrumb timeoutMs : N) (st : State) :
  CHIP_DEVICE_CONFIG_ENABLE_THREAD cfg = true ->
  well_sized cfg (sNetworks st) ->
  malformed_dataset operationalDataset ->
  exists status st',
    OnAddOrUpdateThreadNetworkCommandCallbackInternal cfg commandPath operationalDataset
      breadcrumb timeoutMs st = st'
    /\ calls st' = calls st ++ [config_response commandPath status]
    /\ status <> kSuccess
    /\ (unparseable_dataset operationalDataset ->
        (exists i, first_undefined (sNetworks st) i) -> status = kUnknownError)
    /\ (table_full (sNetworks st) -> status = kBoundsExceeded)
    /\ length (sNetworks st') = length (sNetworks st)
    /\ forall i slot, sNetworks st !! i = Some slot ->
         exists slot', sNetworks st' !! i = Some slot' /\ same_header slot slot'
                       /\ (~ first_undefined (sNetworks st) i -> slot' = slot).
Proof.
  intros Hthread Hsize Hbad.
  unfold OnAddOrUpdateThreadNetworkCommandCallbackInternal. rewrite Hthread.
  destruct (scan is_undefined (N.to_nat (kMaxNetworks cfg)) 0 (sNetworks st))
    as [[k old]|] eqn:Hscan.
  - pose proof (scan_undefined_first _ _ _ _ Hscan) as Hfirst.
    destruct (scan_Some _ _ _ _ _ _ Hscan) as (Hk & Hundef & _).
    apply is_undefined_true in Hundef.
    destruct (AddOrUpdateThreadNetwork_slot_refused operationalDataset kBoundsExceeded old Hbad)
      as (status & new & -> & Hsame & Hrefused & Hnopan).
    destruct (write_back_header _ _ _ _ Hk Hsame) as [Hlen Hframe].
    exists status. eexists. split; [reflexivity|]. cbn [sNetworks calls AddResponseData_to].
    split; [reflexivity|]. split.
    { destruct (decide ((Init (mThread (mData old)) operationalDataset).1 = CHIP_NO_ERROR))
        as [Hok|Hfail].
      - rewrite (Hnopan Hok). discriminate.
      - rewrite (Hrefused Hfail). discriminate. }
    split; [intros Hunparseable _; apply Hrefused, Hunparseable|].
    split; [intros Hfull; by destruct (Hfull k old Hk)|].
    split; [assumption|].
    intros i slot Hi. destruct (Hframe i slot Hi) as (slot' & Hi' & Hhdr & Hother).
    exists slot'. repeat split; try assumption; try apply Hhdr.
    intros Hnot. apply Hother. intros ->. by apply Hnot.
  - exists kBoundsExceeded. eexists. split; [reflexivity|]. cbn [sNetworks calls AddResponseData_to].
    split; [reflexivity|]. split; [discriminate|].
    split.
    { intros _ [i Hfirst].
      destruct (scan_first_undefined _ _ Hsize Hfirst) as (slot & Hfound & _). congruence. }
    split; [reflexivity|]. split; [reflexivity|].
    intros i slot Hi. exists slot. split; [assumption|].
    split; [apply same_header_refl|reflexivity].
Qed.

(** *** Timing arguments *)

(** C2, as amended.  Neither add callback consults a timed-interaction
    window: what it answers and what it leaves in the table do not depend on
    its [breadcrumb] and [timeoutMs] arguments, and it has no other input
    that carries a time or a window.  AddOrUpdateWiFiNetwork answers
    UnknownError exactly on a build without a device-layer target, and
    AddOrUpdateThreadNetwork exactly on a build without Thread support or
    when [Init] refuses the dataset in the first Undefined slot. *)
Theorem add_callbacks_take_no_window (commandPath : N) (ssid credentials operationalDataset : list byte)
    (breadcrumb timeoutMs breadcrumb' timeoutMs' : N) (st : State) :
  OnAddOrUpdateWiFiNetworkCommandCallbackInternal cfg commandPath ssid credentials
    breadcrumb timeoutMs st
  = OnAddOrUpdateWiFiNetworkCommandCallbackInternal cfg commandPath ssid credentials
      breadcrumb' timeoutMs' st
  /\ OnAddOrUpdateThreadNetworkCommandCallbackInternal cfg commandPath operationalDataset
       breadcrumb timeoutMs st
     = OnAddOrUpdateThreadNetworkCommandCallbackInternal cfg commandPath operationalDataset
         breadcrumb' timeoutMs' st
  /\ (calls (OnAddOrUpdateWiFiNetworkCommandCallbackInternal cfg commandPath ssid credentials
               breadcrumb timeoutMs st)
      = calls st ++ [config_response commandPath kUnknownError]
      <-> CHIP_DEVICE_LAYER_TARGET cfg = false)
  /\ (calls (OnAddOrUpdateThreadNetworkCommandCallbackInternal cfg commandPath
               operationalDataset breadcrumb timeoutMs st)
      = calls st ++ [config_response commandPath kUnknownError]
      <-> CHIP_DEVICE_CONFIG_ENABLE_THREAD cfg = false
          \/ exists i slot,
               (first_undefined (sNetworks st) i /\ i < N.to_nat (kMaxNetworks cfg)
                /\ sNetworks st !! i = Some slot)
               /\ (Init (mThread (mData slot)) operationalDataset).1 <> CHIP_NO_ERROR).
Proof.
  unfold config_response.
  setoid_rewrite <- scan_undefined_iff.
  split; [reflexivity|]. split; [reflexivity|]. split.
  - unfold OnAddOrUpdateWiFiNetworkCommandCallbackInternal.
    destruct (CHIP_DEVICE_LAYER_TARGET cfg); [|by split].
    split; [|discriminate]. intros Hcalls. exfalso. revert Hcalls.
    destruct (scan is_undefined _ 0 (sNetworks st)) as [[k old]|].
    + assert (exists slot' status, AddOrUpdateWiFiNetwork_slot ssid credentials old = (status, slot')
                                   /\ status <> kUnknownError) as (slot' & status & -> & Hstatus).
      { destruct (N.leb_spec (size ssid) kMaxWiFiSSIDLen);
          [destruct (N.leb_spec (size credentials) kMaxWiFiCredentialsLen)|].
        - destruct (AddOrUpdateWiFiNetwork_slot_accepted ssid credentials old)
            as (slot' & -> & _); try assumption. by do 2 eexists.
        - destruct (AddOrUpdateWiFiNetwork_slot_refused ssid credentials old)
            as (slot' & -> & _); [by right|]. by do 2 eexists.
        - destruct (AddOrUpdateWiFiNetwork_slot_refused ssid credentials old)
            as (slot' & -> & _); [by left|]. by do 2 eexists. }
      cbn. intros Hcalls. apply app_inv_head in Hcalls. congruence.
    + cbn. intros Hcalls. apply app_inv_head in Hcalls. discriminate.
  - unfold OnAddOrUpdateThreadNetworkCommandCallbackInternal.
    destruct (CHIP_DEVICE_CONFIG_ENABLE_THREAD cfg); [|split; [by left|reflexivity]].
    destruct (scan is_undefined _ 0 (sNetworks st)) as [[k old]|].
    + unfold AddOrUpdateThreadNetwork_slot.
      destruct (Init (mThread (mData old)) operationalDataset) as [error dataset] eqn:Hinit.
      destruct (is_no_error error) eqn:Herror; cbn [negb].
      * assert (error = CHIP_NO_ERROR) as -> by (by destruct error).
        destruct (GetExtendedPanId dataset) as [e extendedPanId].
        destruct (is_no_error e); cbn.
        all: split;
          [intros Hcalls; apply app_inv_head in Hcalls; discriminate
          |intros [?|(i & slot & [= <- <-] & Hfail)]; [discriminate|]];
          rewrite Hinit in Hfail; by destruct Hfail.
      * cbn. split; [|reflexivity]. intros _. right. exists k, old.
        split; [reflexivity|]. rewrite Hinit. cbn. intros ->. discriminate.
    + cbn. split.
      * intros Hcalls. apply app_inv_head in Hcalls. discriminate.
      * intros [?|(i & slot & ? & _)]; discriminate.
Qed.

(** *** The same WiFi network added twice *)

Lemma undefined_slot_has_first (tbl : list NetworkInfo) (i : nat) (slot : NetworkInfo) :
  well_sized cfg tbl -> tbl !! i = Some slot -> mNetworkType slot = kUndefined ->
  exists f, first_undefined tbl f.
Proof.
  intros Hsize Hi Hundef.
  destruct (scan is_undefined (N.to_nat (kMaxNetworks cfg)) 0 tbl) as [[f s]|] eqn:Hscan.
  - exists f. by eapply scan_undefined_first.
  - exfalso. apply lookup_lt_Some in Hi as Hlt. unfold well_sized in Hsize.
    assert (is_undefined slot = false) as Hnone
      by (apply (scan_None _ _ _ _ Hscan i slot); [lia|assumption]).
    by apply is_undefined_false in Hnone.
Qed.

(** C9, as amended.  On a build with WiFi support, two consecutive WiFi adds
    with the same SSID of at most 32 bytes and the same credentials of at most
    64 bytes, into a table of kMaxNetworks slots of which at least two are
    Undefined, both answer Success; they fill two different slots that were
    Undefined, the first of them the first Undefined slot; both slots then
    hold a WiFi profile whose network id is the SSID, so the two ids are
    equal byte for byte; and every other slot, in particular every profile
    already stored, is left as it was: add makes no uniqueness check and
    updates no profile in place. *)
Theorem wifi_add_twice_same_id (commandPath breadcrumb timeoutMs : N)
    (ssid credentials : list byte) (st : State) (i j : nat) (si sj : NetworkInfo) :
  CHIP_DEVICE_LAYER_TARGET cfg = true ->
  well_sized cfg (sNetworks st) ->
  (size ssid <= kMaxWiFiSSIDLen)%N -> (size credentials <= kMaxWiFiCredentialsLen)%N ->
  i <> j ->
  sNetworks st !! i = Some si -> mNetworkType si = kUndefined ->
  sNetworks st !! j = Some sj -> mNetworkType sj = kUndefined ->
  exists (first second : nat) (a b : NetworkInfo) (st' : State),
    OnAddOrUpdateWiFiNetworkCommandCallbackInternal cfg commandPath ssid credentials
      breadcrumb timeoutMs
      (OnAddOrUpdateWiFiNetworkCommandCallbackInternal cfg commandPath ssid credentials
         breadcrumb timeoutMs st) = st'
    /\ calls st' = calls st ++ [config_response commandPath kSuccess;
                                config_response commandPath kSuccess]
    /\ first <> second
    /\ first_undefined (sNetworks st) first
    /\ (exists s, sNetworks st !! second = Some s /\ mNetworkType s = kUndefined)
    /\ sNetworks st' !! first = Some a /\ sNetworks st' !! second = Some b
    /\ mNetworkType a = kWiFi /\ mNetworkType b = kWiFi
    /\ network_id a = ssid /\ network_id b = ssid /\ network_id a = network_id b
    /\ forall k, k <> first -> k <> second -> sNetworks st' !! k = sNetworks st !! k.
Proof.
  intros Htarget Hsize Hssid Hcred Hij Hi Hui Hj Huj.
  assert (valid_add cfg (AddWiFi ssid credentials)) as Hvalid by (by repeat split).
  destruct (undefined_slot_has_first _ _ _ Hsize Hi Hui) as [f Hf].
  destruct (run_add_accepted commandPath breadcrumb timeoutMs _ st f Hsize Hf Hvalid)
    as (a & Hrun1 & Hta & _ & Hida).
  cbn [run_add type_of_add] in Hrun1, Hta, Hida. rewrite Hrun1.
  assert (f < length (sNetworks st)) as Hflt.
  { destruct Hf as [(s & Hs & _) _]. by eapply lookup_lt_Some. }
  set (st1 := {| sNetworks := <[f := a]> (sNetworks st);
                 calls := calls st ++ [config_response commandPath kSuccess] |}).
  assert (well_sized cfg (sNetworks st1)) as Hsize1.
  { unfold well_sized in *. cbn. by rewrite length_insert. }
  assert (exists u su, u <> f /\ sNetworks st !! u = Some su /\ mNetworkType su = kUndefined)
    as (u & su & Huf & Hu & Huu).
  { destruct (decide (i = f)) as [->|Hne]; [exists j, sj|exists i, si]; by repeat split. }
  assert (sNetworks st1 !! u = Some su) as Hu1.
  { cbn. by rewrite list_lookup_insert_ne. }
  destruct (undefined_slot_has_first _ _ _ Hsize1 Hu1 Huu) as [g Hg].
  destruct (run_add_accepted commandPath breadcrumb timeoutMs _ st1 g Hsize1 Hg Hvalid)
    as (b & Hrun2 & Htb & _ & Hidb).
  cbn [run_add type_of_add] in Hrun2, Htb, Hidb. rewrite Hrun2.
  assert (g <> f) as Hgf.
  { intros ->. destruct Hg as [(s & Hs & Hsu) _]. cbn in Hs.
    rewrite list_lookup_insert_eq in Hs by assumption. congruence. }
  assert (exists s, sNetworks st !! g = Some s /\ mNetworkType s = kUndefined) as Hgfree.
  { destruct Hg as [(s & Hs & Hsu) _]. cbn in Hs.
    rewrite list_lookup_insert_ne in Hs by congruence. by exists s. }
  assert (g < length (sNetworks st)) as Hglt.
  { destruct Hgfree as (s & Hs & _). by eapply lookup_lt_Some. }
  exists f, g, a, b. eexists. split; [reflexivity|]. cbn [sNetworks calls st1].
  split; [by rewrite <- app_assoc|].
  split; [congruence|]. split; [assumption|]. split; [assumption|].
  split.
  { rewrite list_lookup_insert_ne by congruence. by apply list_lookup_insert_eq. }
  split.
  { apply list_lookup_insert_eq. by rewrite length_insert. }
  repeat split; try assumption; try congruence.
  intros k Hkf Hkg. by rewrite !list_lookup_insert_ne by congruence.
Qed.

(** *** Connecting *)

Lemma is_no_error_true (err : CHIP_ERROR) : is_no_error err = true <-> err = CHIP_NO_ERROR.
Proof. by destruct err. Qed.

Lemma is_no_error_false (err : CHIP_ERROR) : is_no_error err = false <-> err <> CHIP_NO_ERROR.
Proof. by destruct err. Qed.

(** The loop test of the connect callback is the match of the id in length
    and bytes, on a slot that is not Undefined. *)
Lemma matches_networkID_spec (networkID : list byte) (slot : NetworkInfo) :
  matches_networkID networkID slot = true <-> has_network_id networkID slot.
Proof.
  unfold matches_networkID, has_network_id, memcmp_eq0, network_id, size.
  rewrite !andb_true_iff, negb_true_iff, !bool_decide_eq_true, is_undefined_false.
  rewrite Nat2N.id, firstn_all.
  split.
  - intros [[Hlen Htype] Hbytes]. rewrite Hlen, Nat2N.id. by repeat split.
  - intros (Htype & Hlen & Hbytes). rewrite Hlen, Nat2N.id in Hbytes. by repeat split.
Qed.

Lemma scan_first_match (tbl : list NetworkInfo) (networkID : list byte) (n i : nat)
    (slot : NetworkInfo) :
  scan (matches_networkID networkID) n 0 tbl = Some (i, slot) ->
  first_match tbl networkID i.
Proof.
  intros Hscan. destruct (scan_Some _ _ _ _ _ _ Hscan) as (Hi & Ht & _ & Hbefore). split.
  - exists slot. split; [assumption|]. by apply matches_networkID_spec.
  - intros j s Hj Hjs Hmatch. apply matches_networkID_spec in Hmatch.
    rewrite (Hbefore j s) in Hmatch by (lia || assumption). discriminate.
Qed.

Lemma first_match_scan (tbl : list NetworkInfo) (networkID : list byte) (i : nat)
    (slot : NetworkInfo) :
  well_sized cfg tbl -> first_match tbl networkID i -> tbl !! i = Some slot ->
  scan (matches_networkID networkID) (N.to_nat (kMaxNetworks cfg)) 0 tbl = Some (i, slot).
Proof.
  intros Hsize [(s & Hs & Hmatch) Hbefore] Hi.
  assert (s = slot) as -> by congruence.
  apply scan_first; try assumption.
  - by apply matches_networkID_spec.
  - apply lookup_lt_Some in Hi. unfold well_sized in Hsize. lia.
  - intros j s Hj Hjs. apply not_true_is_false. intros Hm.
    apply matches_networkID_spec in Hm. apply (Hbefore j s); [lia|assumption..].
Qed.

Lemma no_match_scan (tbl : list NetworkInfo) (networkID : list byte) (n : nat) :
  (forall i slot, tbl !! i = Some slot -> ~ has_network_id networkID slot) ->
  scan (matches_networkID networkID) n 0 tbl = None.
Proof.
  intros Hnone.
  destruct (scan (matches_networkID networkID) n 0 tbl) as [[i slot]|] eqn:Hscan; [|reflexivity].
  destruct (scan_Some _ _ _ _ _ _ Hscan) as (Hi & Ht & _).
  apply matches_networkID_spec in Ht. by destruct (Hnone i slot Hi).
Qed.

(** What [DoConnectNetwork] can do: it extends the log by device-layer
    calls only, and either fails and leaves [*network] as it was, or
    succeeds and sets [mEnabled]. *)
Lemma DoConnectNetwork_effect (network : NetworkInfo) (log : list Call) :
  exists err network' issued,
    DoConnectNetwork cfg network log = ((err, network'), log ++ issued)
    /\ Forall device_call issued
    /\ (err = CHIP_NO_ERROR -> network' = set_mEnabled 1 network)
    /\ (err <> CHIP_NO_ERROR -> network' = network).
Proof.
  unfold DoConnectNetwork, ReturnErrorOnFailure, invoke, ret.
  destruct (mNetworkType network);
    repeat match goal with
           | |- context [if CHIP_DEVICE_CONFIG_ENABLE_THREAD cfg then _ else _] =>
               destruct (CHIP_DEVICE_CONFIG_ENABLE_THREAD cfg)
           | |- context [if CHIP_DEVICE_LAYER_TARGET cfg then _ else _] =>
               destruct (CHIP_DEVICE_LAYER_TARGET cfg)
           | |- context [if CHIP_DEVICE_LAYER_TARGET_LINUX cfg then _ else _] =>
               destruct (CHIP_DEVICE_LAYER_TARGET_LINUX cfg)
           | |- context [is_no_error (platform ?l ?c)] =>
               let E := fresh "E" in
               destruct (is_no_error (platform l c)) eqn:E;
               [apply is_no_error_true in E|apply is_no_error_false in E]
           end;
    do 2 eexists;
    first [ exists []; rewrite app_nil_r; split; [reflexivity|]
          | rewrite <- ?app_assoc in *; eexists; split; [reflexivity|] ].
  all: split; [repeat (constructor; try exact I)|].
  all: split; intros; congruence.
Qed.




(** The connect callback, by the outcome of its scan. *)
Lemma connect_unmatched (commandPath : N) (networkID : list byte) (breadcrumb timeoutMs : N)
    (st : State) :
  scan (matches_networkID networkID) (N.to_nat (kMaxNetworks cfg)) 0 (sNetworks st) = None ->
  OnConnectNetworkCommandCallbackInternal cfg commandPath networkID breadcrumb timeoutMs st
  = {| sNetworks := sNetworks st;
       calls := calls st ++ [connect_response commandPath kNetworkIDNotFound] |}.
Proof.
  intros Hscan. unfold OnConnectNetworkCommandCallbackInternal. rewrite Hscan. reflexivity.
Qed.

Lemma connect_matched (commandPath : N) (networkID : list byte) (breadcrumb timeoutMs : N)
    (st : State) (k : nat) (slot network' : NetworkInfo) (err : CHIP_ERROR) (log' : list Call) :
  scan (matches_networkID networkID) (N.to_nat (kMaxNetworks cfg)) 0 (sNetworks st)
  = Some (k, slot) ->
  DoConnectNetwork cfg slot (calls st) = ((err, network'), log') ->
  OnConnectNetworkCommandCallbackInternal cfg commandPath networkID breadcrumb timeoutMs st
  = if is_no_error err
    then {| sNetworks := <[k := network']> (sNetworks st);
            calls := log' ++ [ConnectNetworkForOperational networkID;
                              connect_response commandPath kSuccess] |}
    else {| sNetworks := <[k := network']> (sNetworks st);
            calls := log' ++ [connect_response commandPath kUnknownError] |}.
Proof.
  intros Hscan Hconnect. unfold OnConnectNetworkCommandCallbackInternal.
  rewrite Hscan, Hconnect. unfold AddResponseData_to, connect_response.
  destruct (is_no_error err); cbn [negb bool_decide decide_rel]; [|reflexivity].
  rewrite bool_decide_eq_true_2 by reflexivity. cbn [sNetworks calls].
  by rewrite <- app_assoc.
Qed.

(** C4, as amended.  On a build with Thread support, connecting a Thread
    profile calls the device layer in this order: disable the Thread radio
    (this call is left out on a Linux target), apply the stored dataset as
    the provision, enable the Thread radio.  Each call is made only if the
    one before it succeeded, and the first failure is returned with the
    profile untouched; so when applying the provision fails, the enable call
    is not made and the last call on the radio, on a non-Linux target, is the
    disable.  The profile's enabled flag is set only when every call
    succeeded. *)
Theorem thread_connect_call_order (network : NetworkInfo) (log : list Call) :
  CHIP_DEVICE_CONFIG_ENABLE_THREAD cfg = true ->
  mNetworkType network = kThread ->
  let disable := SetThreadEnabled false in
  let provision := SetThreadProvision (AsByteSpan (mThread (mData network))) in
  let enable := SetThreadEnabled true in
  let log1 := if CHIP_DEVICE_LAYER_TARGET_LINUX cfg then log else log ++ [disable] in
  let disabled :=
    CHIP_DEVICE_LAYER_TARGET_LINUX cfg = true \/ platform log disable = CHIP_NO_ERROR in
  (CHIP_DEVICE_LAYER_TARGET_LINUX cfg = false ->
   platform log disable <> CHIP_NO_ERROR ->
   DoConnectNetwork cfg network log = ((platform log disable, network), log ++ [disable]))
  /\ (disabled ->
      platform log1 provision <> CHIP_NO_ERROR ->
      DoConnectNetwork cfg network log
      = ((platform log1 provision, network), log1 ++ [provision]))
  /\ (disabled ->
      platform log1 provision = CHIP_NO_ERROR ->
      platform (log1 ++ [provision]) enable <> CHIP_NO_ERROR ->
      DoConnectNetwork cfg network log
      = ((platform (log1 ++ [provision]) enable, network), log1 ++ [provision; enable]))
  /\ (disabled ->
      platform log1 provision = CHIP_NO_ERROR ->
      platform (log1 ++ [provision]) enable = CHIP_NO_ERROR ->
      DoConnectNetwork cfg network log
      = ((CHIP_NO_ERROR, set_mEnabled 1 network), log1 ++ [provision; enable])).
Proof.
  intros Hthread Htype. cbn zeta.
  unfold DoConnectNetwork, ReturnErrorOnFailure, invoke, ret. rewrite Hthread, Htype.
  destruct (CHIP_DEVICE_LAYER_TARGET_LINUX cfg).
  - split; [discriminate|].
    repeat split; intros _;
      repeat match goal with
             | |- _ <> _ -> _ => let E := fresh in intros E; apply is_no_error_false in E as ->
             | |- ?e = CHIP_NO_ERROR -> _ =>
                 let E := fresh in
                 intros E; assert (is_no_error e = true) as -> by (by apply is_no_error_true)
             end;
      rewrite <- ?app_assoc; reflexivity.
  - repeat split.
    + intros _ E. apply is_no_error_false in E as ->. reflexivity.
    + intros [?|E]; [discriminate|].
      rewrite (proj2 (is_no_error_true _) E).
      intros E2. apply is_no_error_false in E2 as ->. reflexivity.
    + intros [?|E]; [discriminate|].
      rewrite (proj2 (is_no_error_true _) E).
      intros E2. rewrite (proj2 (is_no_error_true _) E2).
      intros E3. apply is_no_error_false in E3 as ->. by rewrite <- !app_assoc.
    + intros [?|E]; [discriminate|].
      rewrite (proj2 (is_no_error_true _) E).
      intros E2. rewrite (proj2 (is_no_error_true _) E2).
      intros E3. rewrite (proj2 (is_no_error_true _) E3). by rewrite <- !app_assoc.
Qed.


(** C10.  The connect callback keeps the number of slots, and every slot
    keeps its network id bytes, network id length, network type and payload;
    a slot is either left as it was or it is the first slot holding the
    requested id and only its enabled flag has been set.  This holds whether
    the connect succeeds or fails. *)
Theorem connect_changes_only_enabled (commandPath : N) (networkID : list byte)
    (breadcrumb timeoutMs : N) (st : State) :
  length (sNetworks (OnConnectNetworkCommandCallbackInternal cfg commandPath networkID
                       breadcrumb timeoutMs st))
  = length (sNetworks st)
  /\ forall i slot, sNetworks st !! i = Some slot ->
       exists slot',
         sNetworks (OnConnectNetworkCommandCallbackInternal cfg commandPath networkID
                      breadcrumb timeoutMs st) !! i = Some slot'
         /\ same_but_enabled slot slot'
         /\ (slot' = slot
             \/ (first_match (sNetworks st) networkID i /\ slot' = set_mEnabled 1 slot)).
Proof.
  destruct (scan (matches_networkID networkID) (N.to_nat (kMaxNetworks cfg)) 0 (sNetworks st))
    as [[k matched]|] eqn:Hscan.
  - destruct (DoConnectNetwork_effect matched (calls st))
      as (err & network' & device_calls & Hconnect & _ & Hok & Hfail).
    rewrite (connect_matched _ _ _ _ _ _ _ _ _ _ Hscan Hconnect).
    pose proof (scan_first_match _ _ _ _ _ Hscan) as Hfirst.
    destruct (scan_Some _ _ _ _ _ _ Hscan) as (Hk & _).
    assert (sNetworks (if is_no_error err
                       then {| sNetworks := <[k := network']> (sNetworks st);
                               calls := (calls st ++ device_calls)
                                        ++ [ConnectNetworkForOperational networkID;
                                            connect_response commandPath kSuccess] |}
                       else {| sNetworks := <[k := network']> (sNetworks st);
                               calls := (calls st ++ device_calls)
                                        ++ [connect_response commandPath kUnknownError] |})
            = <[k := network']> (sNetworks st)) as -> by (by destruct (is_no_error err)).
    split; [apply length_insert|].
    intros i slot Hi. destruct (decide (i = k)) as [->|Hne].
    + assert (slot = matched) as -> by congruence.
      exists network'. split; [apply list_lookup_insert_eq; by eapply lookup_lt_Some|].
      destruct (decide (err = CHIP_NO_ERROR)) as [Herr|Herr].
      * rewrite (Hok Herr). split; [by repeat split|by right].
      * rewrite (Hfail Herr). split; [by repeat split|by left].
    + exists slot. rewrite list_lookup_insert_ne by congruence.
      split; [assumption|]. split; [by repeat split|by left].
  - rewrite (connect_unmatched _ _ _ _ _ Hscan). cbn [sNetworks].
    split; [reflexivity|]. intros i slot Hi. exists slot.
    split; [assumption|]. split; [by repeat split|by left].
Qed.

(** C8, as amended.  When the first slot holding the requested id is an
    Ethernet profile, [DoConnectNetwork] returns CHIP_ERROR_NOT_IMPLEMENTED
    without calling the device layer and without touching the profile, and
    the callback answers UnknownError and leaves the table as it was; this is
    the status it delivers for every failure of [DoConnectNetwork] on a
    matched profile, whatever the error. *)
Theorem connect_ethernet_not_implemented (commandPath : N) (networkID : list byte)
    (breadcrumb timeoutMs : N) (st : State) (i : nat) (slot : NetworkInfo) :
  well_sized cfg (sNetworks st) ->
  first_match (sNetworks st) networkID i ->
  sNetworks st !! i = Some slot ->
  mNetworkType slot = kEthernet ->
  DoConnectNetwork cfg slot (calls st) = ((CHIP_ERROR_NOT_IMPLEMENTED, slot), calls st)
  /\ OnConnectNetworkCommandCallbackInternal cfg commandPath networkID breadcrumb timeoutMs st
     = {| sNetworks := sNetworks st;
          calls := calls st ++ [connect_response commandPath kUnknownError] |}
  /\ forall (other : State) (j : nat) (matched : NetworkInfo),
       well_sized cfg (sNetworks other) ->
       first_match (sNetworks other) networkID j ->
       sNetworks other !! j = Some matched ->
       (DoConnectNetwork cfg matched (calls other)).1.1 <> CHIP_NO_ERROR ->
       exists device_calls,
         OnConnectNetworkCommandCallbackInternal cfg commandPath networkID
           breadcrumb timeoutMs other
         = {| sNetworks := sNetworks other;
              calls := calls other ++ device_calls
                       ++ [connect_response commandPath kUnknownError] |}.
Proof.
  intros Hsize Hfirst Hi Htype.
  assert (DoConnectNetwork cfg slot (calls st) = ((CHIP_ERROR_NOT_IMPLEMENTED, slot), calls st))
    as Hconnect by (unfold DoConnectNetwork; by rewrite Htype).
  split; [assumption|]. split.
  - rewrite (connect_matched _ _ _ _ _ _ _ _ _ _ (first_match_scan _ _ _ _ Hsize Hfirst Hi)
               Hconnect).
    cbn [is_no_error]. by rewrite list_insert_id.
  - intros other j matched Hsize' Hfirst' Hj Hfail.
    destruct (DoConnectNetwork_effect matched (calls other))
      as (err & network' & device_calls & Hconnect' & _ & _ & Hkept).
    rewrite Hconnect' in Hfail; cbn [fst] in Hfail.
    rewrite (connect_matched _ _ _ _ _ _ _ _ _ _ (first_match_scan _ _ _ _ Hsize' Hfirst' Hj)
               Hconnect').
    rewrite (proj2 (is_no_error_false _) Hfail), (Hkept Hfail).
    exists device_calls. rewrite list_insert_id by assumption. by rewrite <- app_assoc.
Qed.

End ClusterProperties.

(** ** Runs on the sample builds *)

Section ConcreteRuns.

Import Sample.

#[local] Existing Instance threadLib.
#[local] Existing Instance sideBySide.

(** The sample datasets: [dataset1] is accepted whatever object it is parsed
    into; a blob of one byte, or of 255 bytes, is refused; the empty blob is
    accepted and holds no extended PAN ID. *)
Lemma dataset1_well_formed : well_formed_dataset dataset1.
Proof. intros d. split; reflexivity. Qed.

Lemma one_byte_unparseable : unparseable_dataset [x01].
Proof. intros d. discriminate. Qed.

Lemma oversize_unparseable : unparseable_dataset (replicate 255 x00).
Proof. intros d. discriminate. Qed.

Lemma atBoot_first_undefined : first_undefined (sNetworks atBoot) 0.
Proof.
  split.
  - exists zeroSlot. split; reflexivity.
  - intros j slot Hj. inversion Hj.
Qed.

(** C1, as stated, fails at boot on a 33-byte SSID: the response is
    OutOfRange and slot 0 stays Undefined, but the 33 bytes are already in
    the slot's WiFi payload, so the table is not as it was. *)
Lemma wifi_add_33_byte_ssid_writes_payload :
  calls (OnAddOrUpdateWiFiNetworkCommandCallbackInternal embedded 0
           (replicate 33 "a"%byte) secret123 0 0 atBoot)
  = [config_response 0 kOutOfRange]
  /\ mNetworkType
       <$> sNetworks (OnAddOrUpdateWiFiNetworkCommandCallbackInternal embedded 0
                        (replicate 33 "a"%byte) secret123 0 0 atBoot) !! 0
     = Some kUndefined
  /\ (fun slot => mSSID (mWiFi (mData slot))) <$> sNetworks atBoot !! 0
     = Some (replicate 33 x00)
  /\ (fun slot => mSSID (mWiFi (mData slot)))
       <$> sNetworks (OnAddOrUpdateWiFiNetworkCommandCallbackInternal embedded 0
                        (replicate 33 "a"%byte) secret123 0 0 atBoot) !! 0
     = Some (replicate 33 "a"%byte)
  /\ sNetworks (OnAddOrUpdateWiFiNetworkCommandCallbackInternal embedded 0
                  (replicate 33 "a"%byte) secret123 0 0 atBoot)
     <> sNetworks atBoot.
Proof. repeat split. discriminate. Qed.

(** C1's amended statement at boot, for a 33-byte SSID: the three hypotheses
    hold and the response is OutOfRange. *)
Lemma wifi_add_oversize_rejected_witness :
  CHIP_DEVICE_LAYER_TARGET embedded = true
  /\ well_sized embedded (sNetworks atBoot)
  /\ (kMaxWiFiSSIDLen < size (replicate 33 "a"%byte))%N
  /\ exists st',
       OnAddOrUpdateWiFiNetworkCommandCallbackInternal embedded 0
         (replicate 33 "a"%byte) secret123 0 0 atBoot = st'
       /\ calls st' = calls atBoot ++ [AddResponseData 0 (NetworkConfigResponse kOutOfRange)].
Proof.
  assert (CHIP_DEVICE_LAYER_TARGET embedded = true) as Htarget by reflexivity.
  assert (well_sized embedded (sNetworks atBoot)) as Hsize by reflexivity.
  assert (kMaxWiFiSSIDLen < size (replicate 33 "a"%byte))%N as Hover by reflexivity.
  split; [exact Htarget|]. split; [exact Hsize|]. split; [exact Hover|].
  destruct (wifi_add_oversize_rejected embedded 0 (replicate 33 "a"%byte) secret123 0 0 atBoot
              Htarget Hsize (or_introl Hover))
    as (status & st' & Hrun & Hcalls & Hfree & _).
  exists st'. split; [exact Hrun|].
  rewrite <- (Hfree (ex_intro _ 0 atBoot_first_undefined)). exact Hcalls.
Defined.

(** C2, as stated, fails: a window opened for 50 ms and checked at 60 ms has
    expired, and an add called at that time with [timeoutMs = 50] still
    answers Success and fills slot 0, for WiFi and for Thread. *)
Lemma add_after_expired_window :
  TimedInteractionGuard.check_window (TimedInteractionGuard.open_window 1 0 50) 60
  = TimedInteractionGuard.Expired
  /\ calls (OnAddOrUpdateWiFiNetworkCommandCallbackInternal embedded 0 home secret123 0 50 atBoot)
     = [config_response 0 kSuccess]
  /\ mNetworkType
       <$> sNetworks (OnAddOrUpdateWiFiNetworkCommandCallbackInternal embedded 0
                        home secret123 0 50 atBoot) !! 0
     = Some kWiFi
  /\ calls (OnAddOrUpdateThreadNetworkCommandCallbackInternal embedded 0 dataset1 0 50 atBoot)
     = [config_response 0 kSuccess]
  /\ mNetworkType
       <$> sNetworks (OnAddOrUpdateThreadNetworkCommandCallbackInternal embedded 0
                        dataset1 0 50 atBoot) !! 0
     = Some kThread.
Proof. repeat split. Qed.

(** C3, as stated, fails on a build without Thread support: four valid WiFi
    adds at boot all answer Success and leave four WiFi profiles, no slot is
    Undefined, and a further add, of a Thread network, answers UnknownError,
    not BoundsExceeded.  The table is left as it was. *)
Lemma further_add_of_unsupported_type :
  calls wifiOnlyFull = replicate 4 (config_response 0 kSuccess)
  /\ mNetworkType <$> sNetworks wifiOnlyFull = [kWiFi; kWiFi; kWiFi; kWiFi]
  /\ run_add wifiOnly 0 0 0 (AddThread dataset1) wifiOnlyFull
     = {| sNetworks := sNetworks wifiOnlyFull;
          calls := calls wifiOnlyFull ++ [config_response 0 kUnknownError] |}.
Proof. split; [reflexivity|]. split; reflexivity. Qed.

(** C3 on the spec's example: the four adds at boot all answer Success and
    leave no slot Undefined. *)
Lemma capacity_invariant_witness :
  well_sized embedded (sNetworks atBoot)
  /\ table_empty (sNetworks atBoot)
  /\ length fourAdds <= N.to_nat (kMaxNetworks embedded)
  /\ Forall (valid_add embedded) fourAdds
  /\ exists st',
       run_adds embedded 0 0 0 fourAdds atBoot = st'
       /\ calls st' = replicate 4 (config_response 0 kSuccess)
       /\ table_full (sNetworks st').
Proof.
  assert (well_sized embedded (sNetworks atBoot)) as Hsize by reflexivity.
  assert (table_empty (sNetworks atBoot)) as Hempty.
  { intros i slot Hi. apply list_elem_of_lookup_2 in Hi.
    apply elem_of_replicate in Hi as [-> _]. reflexivity. }
  assert (length fourAdds <= N.to_nat (kMaxNetworks embedded)) as Hfit by exact (le_n 4).
  assert (Forall (valid_add embedded) fourAdds) as Hvalid.
  { repeat constructor; try exact dataset1_well_formed; cbn; discriminate. }
  split; [exact Hsize|]. split; [exact Hempty|]. split; [exact Hfit|]. split; [exact Hvalid|].
  destruct (capacity_invariant embedded 0 0 0 fourAdds atBoot Hsize Hempty Hfit Hvalid)
    as (st' & Hrun & Hcalls & _ & _ & Hfull & _).
  exists st'. split; [exact Hrun|]. split; [exact Hcalls|]. exact (Hfull eq_refl).
Defined.

(** C4, as stated, fails on a Linux target: connecting the Thread profile
    added at boot makes two device-layer calls, apply-provision and enable,
    and no disable call.  It also fails on the other targets when the
    disable call fails: then that call is the only one. *)
Lemma thread_connect_on_linux_skips_disable :
  calls (OnConnectNetworkCommandCallbackInternal (device := allSucceed) linux 0 panId 0 0
           (OnAddOrUpdateThreadNetworkCommandCallbackInternal linux 0 dataset1 0 0 atBoot))
  = [config_response 0 kSuccess;
     SetThreadProvision dataset1; SetThreadEnabled true;
     ConnectNetworkForOperational panId; connect_response 0 kSuccess]
  /\ calls (OnConnectNetworkCommandCallbackInternal (device := disableFails) embedded 0 panId 0 0
              (OnAddOrUpdateThreadNetworkCommandCallbackInternal embedded 0 dataset1 0 0 atBoot))
     = [config_response 0 kSuccess;
        SetThreadEnabled false; connect_response 0 kUnknownError].
Proof. split; reflexivity. Qed.

(** C4's amended statement on the Thread profile added at boot: with a
    device layer where every call succeeds the three calls are made in order
    and the profile is enabled; where applying the provision fails, the
    calls stop there and the profile is untouched. *)
Lemma thread_connect_call_order_witness :
  CHIP_DEVICE_CONFIG_ENABLE_THREAD embedded = true
  /\ mNetworkType threadProfile = kThread
  /\ DoConnectNetwork (device := allSucceed) embedded threadProfile []
     = ((CHIP_NO_ERROR, set_mEnabled 1 threadProfile),
        [SetThreadEnabled false; SetThreadProvision dataset1; SetThreadEnabled true])
  /\ DoConnectNetwork (device := provisionFails) embedded threadProfile []
     = ((CHIP_ERROR_code 172, threadProfile),
        [SetThreadEnabled false; SetThreadProvision dataset1]).
Proof.
  assert (CHIP_DEVICE_CONFIG_ENABLE_THREAD embedded = true) as Hthread by reflexivity.
  assert (mNetworkType threadProfile = kThread) as Htype by reflexivity.
  split; [exact Hthread|]. split; [exact Htype|]. split.
  - pose proof (thread_connect_call_order (device := allSucceed) embedded threadProfile []
                  Hthread Htype) as Horder.
    cbn zeta in Horder. destruct Horder as (_ & _ & _ & Hall).
    exact (Hall (or_intror eq_refl) eq_refl eq_refl).
  - pose proof (thread_connect_call_order (device := provisionFails) embedded threadProfile []
                  Hthread Htype) as Horder.
    cbn zeta in Horder. destruct Horder as (_ & Hprovision & _).
    apply (Hprovision (or_intror eq_refl)). discriminate.
Defined.

(** C5, as stated, fails once the table is full: after the four adds of the
    example, a Thread add with a dataset that [Init] refuses answers
    BoundsExceeded, which is neither OutOfRange nor UnknownError. *)
Lemma thread_add_malformed_on_full_table :
  unparseable_dataset [x01]
  /\ calls allAdded = replicate 4 (config_response 0 kSuccess)
  /\ OnAddOrUpdateThreadNetworkCommandCallbackInternal embedded 0 [x01] 0 0 allAdded
     = {| sNetworks := sNetworks allAdded;
          calls := calls allAdded ++ [config_response 0 kBoundsExceeded] |}.
Proof. split; [exact one_byte_unparseable|]. split; reflexivity. Qed.

(** The second way C5 fails, left out of the amended statement: a dataset that
    [Init] accepts and that holds no extended PAN ID leaves the callback
    through [SuccessOrExit] with [err] still at its initial value, so at boot,
    with every slot free, the empty dataset is answered with
    BoundsExceeded. *)
Lemma thread_add_without_pan_id_at_boot :
  (Init zeroSlot.(mData).1 []).1 = CHIP_NO_ERROR
  /\ (GetExtendedPanId (Init zeroSlot.(mData).1 []).2).1 = CHIP_ERROR_code 51
  /\ calls (OnAddOrUpdateThreadNetworkCommandCallbackInternal embedded 0 [] 0 0 atBoot)
     = [config_response 0 kBoundsExceeded]
  /\ mNetworkType
       <$> sNetworks (OnAddOrUpdateThreadNetworkCommandCallbackInternal embedded 0 [] 0 0 atBoot)
     = replicate 4 kUndefined.
Proof. repeat split. Qed.

(** C5's amended statement at boot, for a dataset cut short after its first
    byte: the response is UnknownError. *)
Lemma thread_add_malformed_rejected_witness :
  CHIP_DEVICE_CONFIG_ENABLE_THREAD embedded = true
  /\ well_sized embedded (sNetworks atBoot)
  /\ malformed_dataset [x01]
  /\ exists st',
       OnAddOrUpdateThreadNetworkCommandCallbackInternal embedded 0 [x01] 0 0 atBoot = st'
       /\ calls st' = calls atBoot ++ [config_response 0 kUnknownError].
Proof.
  assert (CHIP_DEVICE_CONFIG_ENABLE_THREAD embedded = true) as Hthread by reflexivity.
  assert (well_sized embedded (sNetworks atBoot)) as Hsize by reflexivity.
  assert (malformed_dataset [x01]) as Hbad by (intros d; left; discriminate).
  split; [exact Hthread|]. split; [exact Hsize|]. split; [exact Hbad|].
  destruct (thread_add_malformed_rejected embedded 0 [x01] 0 0 atBoot Hthread Hsize Hbad)
    as (status & st' & Hrun & Hcalls & _ & Hrefused & _).
  exists st'. split; [exact Hrun|].
  rewrite <- (Hrefused one_byte_unparseable (ex_intro _ 0 atBoot_first_undefined)).
  exact Hcalls.
Defined.



(** C8, as stated, fails: the status delivered for an Ethernet profile is
    UnknownError, the same status that is delivered when the platform call
    for a WiFi profile fails; the caller cannot tell the two apart. *)
Lemma ethernet_status_same_as_platform_failure :
  calls (OnConnectNetworkCommandCallbackInternal (device := allSucceed) embedded 0 home 0 0
           (withProfile kEthernet))
  = [connect_response 0 kUnknownError]
  /\ calls (OnConnectNetworkCommandCallbackInternal (device := provisionFails) embedded 0
              home 0 0 homeAdded)
     = [config_response 0 kSuccess;
        ProvisionWiFi (home ++ replicate 29 x00) (secret123 ++ replicate 55 x00);
        connect_response 0 kUnknownError].
Proof. split; reflexivity. Qed.

Lemma ethernet_first_match : first_match (sNetworks (withProfile kEthernet)) home 0.
Proof.
  split.
  - eexists. split; [reflexivity|]. repeat split. discriminate.
  - intros j slot Hj. inversion Hj.
Qed.

(** C8's amended statement on a table whose slot 0 is an Ethernet profile. *)
Lemma connect_ethernet_not_implemented_witness :
  well_sized embedded (sNetworks (withProfile kEthernet))
  /\ first_match (sNetworks (withProfile kEthernet)) home 0
  /\ mNetworkType (profile kEthernet) = kEthernet
  /\ DoConnectNetwork (device := allSucceed) embedded (profile kEthernet) []
     = ((CHIP_ERROR_NOT_IMPLEMENTED, profile kEthernet), [])
  /\ OnConnectNetworkCommandCallbackInternal (device := allSucceed) embedded 0 home 0 0
       (withProfile kEthernet)
     = {| sNetworks := sNetworks (withProfile kEthernet);
          calls := [connect_response 0 kUnknownError] |}.
Proof.
  assert (well_sized embedded (sNetworks (withProfile kEthernet))) as Hsize by reflexivity.
  split; [exact Hsize|]. split; [exact ethernet_first_match|]. split; [reflexivity|].
  destruct (connect_ethernet_not_implemented (device := allSucceed) embedded 0 home 0 0
              (withProfile kEthernet) 0 (profile kEthernet) Hsize ethernet_first_match
              eq_refl eq_refl)
    as (Hconnect & Hanswer & _).
  split; [exact Hconnect|exact Hanswer].
Defined.

(** C9, as stated, fails for an SSID the callback refuses: at boot, with four
    Undefined slots, two consecutive adds of the same 33-byte SSID both
    answer OutOfRange and no slot becomes a profile. *)
Lemma wifi_add_twice_oversize_both_refused :
  calls (OnAddOrUpdateWiFiNetworkCommandCallbackInternal embedded 0
           (replicate 33 "a"%byte) secret123 0 0
           (OnAddOrUpdateWiFiNetworkCommandCallbackInternal embedded 0
              (replicate 33 "a"%byte) secret123 0 0 atBoot))
  = [config_response 0 kOutOfRange; config_response 0 kOutOfRange]
  /\ mNetworkType
       <$> sNetworks (OnAddOrUpdateWiFiNetworkCommandCallbackInternal embedded 0
                        (replicate 33 "a"%byte) secret123 0 0
                        (OnAddOrUpdateWiFiNetworkCommandCallbackInternal embedded 0
                           (replicate 33 "a"%byte) secret123 0 0 atBoot))
     = replicate 4 kUndefined.
Proof. split; reflexivity. Qed.

(** C9's amended statement at boot: the network [home] added twice is in two
    slots under the same id. *)
Lemma wifi_add_twice_same_id_witness :
  CHIP_DEVICE_LAYER_TARGET embedded = true
  /\ well_sized embedded (sNetworks atBoot)
  /\ (size home <= kMaxWiFiSSIDLen)%N /\ (size secret123 <= kMaxWiFiCredentialsLen)%N
  /\ exists (first second : nat) (a b : NetworkInfo) (st' : State),
       OnAddOrUpdateWiFiNetworkCommandCallbackInternal embedded 0 home secret123 0 0 homeAdded
       = st'
       /\ first <> second
       /\ sNetworks st' !! first = Some a /\ sNetworks st' !! second = Some b
       /\ network_id a = home /\ network_id b = home.
Proof.
  assert (CHIP_DEVICE_LAYER_TARGET embedded = true) as Htarget by reflexivity.
  assert (well_sized embedded (sNetworks atBoot)) as Hsize by reflexivity.
  assert (size home <= kMaxWiFiSSIDLen)%N as Hssid by discriminate.
  assert (size secret123 <= kMaxWiFiCredentialsLen)%N as Hcred by discriminate.
  split; [exact Htarget|]. split; [exact Hsize|]. split; [exact Hssid|]. split; [exact Hcred|].
  destruct (wifi_add_twice_same_id embedded 0 0 0 home secret123 atBoot 0 1 zeroSlot zeroSlot
              Htarget Hsize Hssid Hcred (O_S 0) eq_refl eq_refl eq_refl eq_refl)
    as (first & second & a & b & st' & Hrun & _ & Hne & _ & _ & Ha & Hb & _ & _ & Hida & Hidb & _).
  exists first, second, a, b, st'. repeat split; assumption.
Defined.

End ConcreteRuns.

(** ** Further properties of the cluster *)

Section ClusterBehaviour.

Context {thread : ThreadLib} {union : NetworkDataUnion} {device : DeviceLayer}.
Variable cfg : BuildConfig.

(** *** What one add leaves in its slot *)

Lemma AddOrUpdateWiFiNetwork_slot_outcome (ssid credentials : list byte) (slot : NetworkInfo) :
  exists status slot',
    AddOrUpdateWiFiNetwork_slot ssid credentials slot = (status, slot')
    /\ (((size ssid <= kMaxWiFiSSIDLen)%N /\ (size credentials <= kMaxWiFiCredentialsLen)%N)
        /\ status = kSuccess
        /\ mNetworkID slot' = ssid ++ drop (length ssid) (mNetworkID slot)
        /\ mNetworkIDLen slot' = size ssid
        /\ mEnabled slot' = 0%N /\ mNetworkType slot' = kWiFi
        /\ mWiFi (mData slot')
           = {| mSSID := ssid ++ drop (length ssid) (mSSID (mWiFi (mData slot)));
                mSSIDLen := size ssid;
                mCredentials :=
                  credentials ++ drop (length credentials) (mCredentials (mWiFi (mData slot)));
                mCredentialsLen := size credentials |}
        \/ ~ ((size ssid <= kMaxWiFiSSIDLen)%N /\ (size credentials <= kMaxWiFiCredentialsLen)%N)
           /\ status = kOutOfRange /\ same_header slot slot').
Proof.
  destruct (N.leb_spec (size ssid) kMaxWiFiSSIDLen) as [Hssid|Hssid];
    [destruct (N.leb_spec (size credentials) kMaxWiFiCredentialsLen) as [Hcred|Hcred]|].
  - exists kSuccess. unfold AddOrUpdateWiFiNetwork_slot.
    unfold sizeof_mSSID, sizeof_mCredentials, sizeof_mNetworkID, CanCastTo_uint8,
      kMaxWiFiSSIDLen, kMaxWiFiCredentialsLen, kMaxNetworkIDLen in *.
    repeat match goal with
           | |- context [negb (?a <=? ?b)%N] => destruct (N.leb_spec a b); cbn [negb]
           end;
      try lia.
    eexists. split; [reflexivity|]. left. split; [by split|]. split; [reflexivity|].
    cbn. rewrite !mWiFi_set_mWiFi. cbn.
    rewrite !static_cast_uint8_small by lia.
    rewrite !memcpy_whole, memcpy_prefix. by repeat split.
  - destruct (AddOrUpdateWiFiNetwork_slot_refused ssid credentials slot) as (slot' & -> & Hsame);
      [by right|].
    exists kOutOfRange, slot'. split; [reflexivity|]. right. repeat split; try apply Hsame. lia.
  - destruct (AddOrUpdateWiFiNetwork_slot_refused ssid credentials slot) as (slot' & -> & Hsame);
      [by left|].
    exists kOutOfRange, slot'. split; [reflexivity|]. right. repeat split; try apply Hsame. lia.
Qed.

Lemma AddOrUpdateThreadNetwork_slot_outcome (operationalDataset : list byte)
    (err : NetworkCommissioningStatus) (slot : NetworkInfo) :
  exists status slot',
    AddOrUpdateThreadNetwork_slot operationalDataset err slot = (status, slot')
    /\ ((Init (mThread (mData slot)) operationalDataset).1 <> CHIP_NO_ERROR
        /\ status = kUnknownError /\ same_header slot slot'
        \/ (Init (mThread (mData slot)) operationalDataset).1 = CHIP_NO_ERROR
           /\ (GetExtendedPanId (Init (mThread (mData slot)) operationalDataset).2).1
              <> CHIP_NO_ERROR
           /\ status = err /\ same_header slot slot'
        \/ (Init (mThread (mData slot)) operationalDataset).1 = CHIP_NO_ERROR
           /\ (GetExtendedPanId (Init (mThread (mData slot)) operationalDataset).2).1
              = CHIP_NO_ERROR
           /\ status = kSuccess
           /\ mNetworkID slot'
              = memcpy (mNetworkID slot)
                  (GetExtendedPanId (Init (mThread (mData slot)) operationalDataset).2).2
                  kSizeExtendedPanId
           /\ mNetworkIDLen slot' = kSizeExtendedPanId
           /\ mEnabled slot' = 0%N /\ mNetworkType slot' = kThread
           /\ mThread (mData slot') = (Init (mThread (mData slot)) operationalDataset).2).
Proof.
  unfold AddOrUpdateThreadNetwork_slot.
  destruct (Init (mThread (mData slot)) operationalDataset) as [error dataset]; cbn [fst snd].
  destruct (is_no_error error) eqn:Herror; cbn [negb].
  - apply is_no_error_true in Herror as ->.
    destruct (GetExtendedPanId dataset) as [e extendedPanId]; cbn [fst snd].
    destruct (is_no_error e) eqn:He; cbn [negb].
    + apply is_no_error_true in He as ->. do 2 eexists. split; [reflexivity|].
      right. right. cbn. rewrite mThread_set_mThread. by repeat split.
    + apply is_no_error_false in He. do 2 eexists. split; [reflexivity|].
      right. left. by repeat split.
  - apply is_no_error_false in Herror. do 2 eexists. split; [reflexivity|].
    left. by repeat split.
Qed.

(** An add command, by the outcome of its scan for a free slot. *)
Lemma run_add_unsupported (commandPath breadcrumb timeoutMs : N) (c : AddCommand) (st : State) :
  ~ supported_add cfg c ->
  run_add cfg commandPath breadcrumb timeoutMs c st
  = {| sNetworks := sNetworks st;
       calls := calls st ++ [config_response commandPath kUnknownError] |}.
Proof.
  destruct c as [ssid credentials|operationalDataset]; cbn [supported_add run_add]; intros Hno.
  - unfold OnAddOrUpdateWiFiNetworkCommandCallbackInternal.
    by destruct (CHIP_DEVICE_LAYER_TARGET cfg).
  - unfold OnAddOrUpdateThreadNetworkCommandCallbackInternal.
    by destruct (CHIP_DEVICE_CONFIG_ENABLE_THREAD cfg).
Qed.

Lemma run_add_free (commandPath breadcrumb timeoutMs : N) (c : AddCommand) (st : State)
    (k : nat) (old : NetworkInfo) :
  supported_add cfg c ->
  scan is_undefined (N.to_nat (kMaxNetworks cfg)) 0 (sNetworks st) = Some (k, old) ->
  run_add cfg commandPath breadcrumb timeoutMs c st
  = {| sNetworks := <[k := (add_in_slot c old).2]> (sNetworks st);
       calls := calls st ++ [config_response commandPath (add_in_slot c old).1] |}.
Proof.
  destruct c as [ssid credentials|operationalDataset];
    cbn [supported_add run_add add_in_slot]; intros Hyes Hscan.
  - unfold OnAddOrUpdateWiFiNetworkCommandCallbackInternal. rewrite Hyes, Hscan.
    by destruct (AddOrUpdateWiFiNetwork_slot ssid credentials old).
  - unfold OnAddOrUpdateThreadNetworkCommandCallbackInternal. rewrite Hyes, Hscan.
    by destruct (AddOrUpdateThreadNetwork_slot operationalDataset kBoundsExceeded old).
Qed.

Lemma run_add_no_free (commandPath breadcrumb timeoutMs : N) (c : AddCommand) (st : State) :
  supported_add cfg c ->
  scan is_undefined (N.to_nat (kMaxNetworks cfg)) 0 (sNetworks st) = None ->
  run_add cfg commandPath breadcrumb timeoutMs c st
  = {| sNetworks := sNetworks st;
       calls := calls st ++ [config_response commandPath kBoundsExceeded] |}.
Proof.
  destruct c as [ssid credentials|operationalDataset];
    cbn [supported_add run_add]; intros Hyes Hscan.
  - unfold OnAddOrUpdateWiFiNetworkCommandCallbackInternal. by rewrite Hyes, Hscan.
  - unfold OnAddOrUpdateThreadNetworkCommandCallbackInternal. by rewrite Hyes, Hscan.
Qed.

Lemma supported_add_dec (c : AddCommand) : supported_add cfg c \/ ~ supported_add cfg c.
Proof.
  destruct c; cbn [supported_add].
  - destruct (CHIP_DEVICE_LAYER_TARGET cfg); [by left|by right].
  - destruct (CHIP_DEVICE_CONFIG_ENABLE_THREAD cfg); [by left|by right].
Qed.

(** The status an add leaves its loop body with is never NetworkIDNotFound,
    and a refused add keeps the slot's header. *)
Lemma add_in_slot_outcome (c : AddCommand) (old : NetworkInfo) :
  (add_in_slot c old).1 <> kNetworkIDNotFound
  /\ ((add_in_slot c old).1 <> kSuccess -> same_header old (add_in_slot c old).2)
  /\ ((add_in_slot c old).1 = kSuccess ->
      mNetworkType (add_in_slot c old).2 = type_of_add c
      /\ mEnabled (add_in_slot c old).2 = 0%N).
Proof.
  destruct c as [ssid credentials|operationalDataset]; cbn [add_in_slot type_of_add].
  - destruct (AddOrUpdateWiFiNetwork_slot_outcome ssid credentials old)
      as (status & slot' & -> & [(_ & -> & _ & _ & ? & ? & _)|(_ & -> & ?)]);
      cbn [fst snd];
      (split; [discriminate|]);
      (split; intros; [try assumption; congruence|try (split; assumption); congruence]).
  - destruct (AddOrUpdateThreadNetwork_slot_outcome operationalDataset kBoundsExceeded old)
      as (status & slot' & -> & [(_ & -> & ?)|[(_ & _ & -> & ?)|(_ & _ & -> & _ & _ & ? & ? & _)]]);
      cbn [fst snd];
      (split; [discriminate|]);
      (split; intros; [try assumption; congruence|try (split; assumption); congruence]).
Qed.

(** *** Responses of the add commands *)

(** X1.  On every build and for every input, an add command makes exactly one
    call, its response, and never answers NetworkIDNotFound; the table keeps
    its number of slots; and on a build that does not support the command's
    network type the answer is UnknownError and the table is untouched. *)
Theorem add_answers_once (commandPath breadcrumb timeoutMs : N) (c : AddCommand) (st : State) :
  exists status,
    calls (run_add cfg commandPath breadcrumb timeoutMs c st)
    = calls st ++ [config_response commandPath status]
    /\ status <> kNetworkIDNotFound
    /\ length (sNetworks (run_add cfg commandPath breadcrumb timeoutMs c st))
       = length (sNetworks st)
    /\ (~ supported_add cfg c ->
        status = kUnknownError
        /\ sNetworks (run_add cfg commandPath breadcrumb timeoutMs c st) = sNetworks st).
Proof.
  destruct (supported_add_dec c) as [Hyes|Hno].
  - destruct (scan is_undefined (N.to_nat (kMaxNetworks cfg)) 0 (sNetworks st))
      as [[k old]|] eqn:Hscan.
    + rewrite (run_add_free _ _ _ _ _ _ _ Hyes Hscan). cbn [calls sNetworks].
      exists (add_in_slot c old).1. split; [reflexivity|].
      split; [apply add_in_slot_outcome|]. split; [apply length_insert|]. by intros ?.
    + rewrite (run_add_no_free _ _ _ _ _ Hyes Hscan). cbn [calls sNetworks].
      exists kBoundsExceeded. split; [reflexivity|]. split; [discriminate|].
      split; [reflexivity|]. by intros ?.
  - rewrite (run_add_unsupported _ _ _ _ _ Hno). cbn [calls sNetworks].
    exists kUnknownError. split; [reflexivity|]. split; [discriminate|]. by repeat split.
Qed.

(** X2.  On a build with WiFi support and a table of kMaxNetworks slots, the
    status of a WiFi add is decided by two facts: whether some slot is
    Undefined, and whether the SSID has at most 32 and the credentials at
    most 64 bytes.  It is Success exactly when both hold, OutOfRange exactly
    when a slot is free and a length is too large, BoundsExceeded exactly
    when no slot is free (whatever the lengths). *)
Theorem wifi_add_status_table (commandPath : N) (ssid credentials : list byte)
    (breadcrumb timeoutMs : N) (st : State) :
  CHIP_DEVICE_LAYER_TARGET cfg = true ->
  well_sized cfg (sNetworks st) ->
  exists status,
    calls (OnAddOrUpdateWiFiNetworkCommandCallbackInternal cfg commandPath ssid credentials
             breadcrumb timeoutMs st)
    = calls st ++ [config_response commandPath status]
    /\ (status = kSuccess
        <-> (exists i, first_undefined (sNetworks st) i)
            /\ (size ssid <= kMaxWiFiSSIDLen)%N /\ (size credentials <= kMaxWiFiCredentialsLen)%N)
    /\ (status = kOutOfRange
        <-> (exists i, first_undefined (sNetworks st) i)
            /\ ~ ((size ssid <= kMaxWiFiSSIDLen)%N
                  /\ (size credentials <= kMaxWiFiCredentialsLen)%N))
    /\ (status = kBoundsExceeded <-> ~ exists i, first_undefined (sNetworks st) i).
Proof.
  intros Htarget Hsize.
  assert (supported_add cfg (AddWiFi ssid credentials)) as Hyes by exact Htarget.
  change (OnAddOrUpdateWiFiNetworkCommandCallbackInternal cfg commandPath ssid credentials
            breadcrumb timeoutMs st)
    with (run_add cfg commandPath breadcrumb timeoutMs (AddWiFi ssid credentials) st).
  destruct (scan is_undefined (N.to_nat (kMaxNetworks cfg)) 0 (sNetworks st))
    as [[k old]|] eqn:Hscan.
  - rewrite (run_add_free _ _ _ _ _ _ _ Hyes Hscan). cbn [calls add_in_slot].
    assert (exists i, first_undefined (sNetworks st) i) as Hfree
      by (exists k; by eapply scan_undefined_first).
    destruct (AddOrUpdateWiFiNetwork_slot_outcome ssid credentials old)
      as (status & slot' & -> & [(Hvalid & -> & _)|(Hinvalid & -> & _)]); cbn [fst].
    + exists kSuccess. split; [reflexivity|]. split; [|split].
      * split; [intros _; split; [exact Hfree|exact Hvalid]|reflexivity].
      * split; [discriminate|]. intros [_ Hinvalid]. by destruct Hinvalid.
      * split; [discriminate|]. intros Hnone. by destruct Hnone.
    + exists kOutOfRange. split; [reflexivity|]. split; [|split].
      * split; [discriminate|]. intros (_ & HA & HB). destruct Hinvalid. by split.
      * split; [intros _; by split|reflexivity].
      * split; [discriminate|]. intros Hnone. by destruct Hnone.
  - rewrite (run_add_no_free _ _ _ _ _ Hyes Hscan). cbn [calls].
    assert (~ exists i, first_undefined (sNetworks st) i) as Hnone.
    { intros [i Hfirst].
      destruct (scan_first_undefined cfg _ _ Hsize Hfirst) as (slot & Hfound & _). congruence. }
    exists kBoundsExceeded. split; [reflexivity|]. split; [|split].
    + split; [discriminate|]. intros (Hfree & _). by destruct Hnone.
    + split; [discriminate|]. intros (Hfree & _). by destruct Hnone.
    + by split.
Qed.

(** X3.  On a build with Thread support and a table of kMaxNetworks slots, a
    Thread add answers BoundsExceeded when no slot is Undefined; otherwise
    its status is decided by what [Init] and [GetExtendedPanId] return on the
    dataset object of the first Undefined slot: UnknownError exactly when
    [Init] fails, Success exactly when both succeed, and BoundsExceeded
    exactly when [Init] succeeds and no extended PAN ID is obtained. *)
Theorem thread_add_status_table (commandPath : N) (operationalDataset : list byte)
    (breadcrumb timeoutMs : N) (st : State) :
  CHIP_DEVICE_CONFIG_ENABLE_THREAD cfg = true ->
  well_sized cfg (sNetworks st) ->
  exists status,
    calls (OnAddOrUpdateThreadNetworkCommandCallbackInternal cfg commandPath operationalDataset
             breadcrumb timeoutMs st)
    = calls st ++ [config_response commandPath status]
    /\ (table_full (sNetworks st) -> status = kBoundsExceeded)
    /\ forall i slot,
         first_undefined (sNetworks st) i -> sNetworks st !! i = Some slot ->
         (status = kUnknownError
          <-> (Init (mThread (mData slot)) operationalDataset).1 <> CHIP_NO_ERROR)
         /\ (status = kSuccess
             <-> (Init (mThread (mData slot)) operationalDataset).1 = CHIP_NO_ERROR
                 /\ (GetExtendedPanId (Init (mThread (mData slot)) operationalDataset).2).1
                    = CHIP_NO_ERROR)
         /\ (status = kBoundsExceeded
             <-> (Init (mThread (mData slot)) operationalDataset).1 = CHIP_NO_ERROR
                 /\ (GetExtendedPanId (Init (mThread (mData slot)) operationalDataset).2).1
                    <> CHIP_NO_ERROR).
Proof.
  intros Hthread Hsize.
  assert (supported_add cfg (AddThread operationalDataset)) as Hyes by exact Hthread.
  change (OnAddOrUpdateThreadNetworkCommandCallbackInternal cfg commandPath operationalDataset
            breadcrumb timeoutMs st)
    with (run_add cfg commandPath breadcrumb timeoutMs (AddThread operationalDataset) st).
  destruct (scan is_undefined (N.to_nat (kMaxNetworks cfg)) 0 (sNetworks st))
    as [[k old]|] eqn:Hscan.
  - rewrite (run_add_free _ _ _ _ _ _ _ Hyes Hscan). cbn [calls add_in_slot].
    destruct (scan_Some _ _ _ _ _ _ Hscan) as (Hk & Hundef & _).
    apply is_undefined_true in Hundef.
    pose proof (scan_undefined_first _ _ _ _ Hscan) as Hfirst.
    destruct (AddOrUpdateThreadNetwork_slot_outcome operationalDataset kBoundsExceeded old)
      as (status & slot' & -> & Hcases); cbn [fst].
    exists status. split; [reflexivity|]. split.
    { intros Hfull. by destruct (Hfull k old Hk). }
    intros i slot Hi Hslot.
    assert (i = k) as -> by (by eapply first_undefined_unique).
    assert (slot = old) as -> by congruence.
    destruct Hcases as [(Hinit & -> & _)|[(Hinit & Hpan & -> & _)|(Hinit & Hpan & -> & _)]].
    + split; [by split|]. split; (split; [discriminate|intros [? ?]; congruence]).
    + split; [split; [discriminate|congruence]|].
      split; [split; [discriminate|intros [? ?]; congruence]|by split].
    + split; [split; [discriminate|congruence]|].
      split; [by split|split; [discriminate|intros [? ?]; congruence]].
  - rewrite (run_add_no_free _ _ _ _ _ Hyes Hscan). cbn [calls].
    exists kBoundsExceeded. split; [reflexivity|]. split; [done|].
    intros i slot Hfirst _.
    destruct (scan_first_undefined cfg _ _ Hsize Hfirst) as (s & Hfound & _). congruence.
Qed.

(** *** The connect command, by its outcome *)

Lemma connect_cases (commandPath : N) (networkID : list byte) (breadcrumb timeoutMs : N)
    (st : State) :
  (exists status issued,
      status <> kSuccess
      /\ OnConnectNetworkCommandCallbackInternal cfg commandPath networkID breadcrumb timeoutMs st
         = {| sNetworks := sNetworks st;
              calls := calls st ++ issued ++ [connect_response commandPath status] |}
      /\ Forall device_call issued
      /\ (status = kNetworkIDNotFound
          <-> scan (matches_networkID networkID) (N.to_nat (kMaxNetworks cfg)) 0 (sNetworks st)
              = None))
  \/ (exists i slot issued,
        first_match (sNetworks st) networkID i /\ sNetworks st !! i = Some slot
        /\ OnConnectNetworkCommandCallbackInternal cfg commandPath networkID breadcrumb
             timeoutMs st
           = {| sNetworks := <[i := set_mEnabled 1 slot]> (sNetworks st);
                calls := calls st ++ issued
                         ++ [ConnectNetworkForOperational networkID;
                             connect_response commandPath kSuccess] |}
        /\ Forall device_call issued).
Proof.
  destruct (scan (matches_networkID networkID) (N.to_nat (kMaxNetworks cfg)) 0 (sNetworks st))
    as [[k slot]|] eqn:Hscan.
  - destruct (DoConnectNetwork_effect cfg slot (calls st))
      as (err & network' & issued & Hconnect & Hdevice & Hok & Hfail).
    rewrite (connect_matched cfg _ _ _ _ _ _ _ _ _ _ Hscan Hconnect).
    destruct (scan_Some _ _ _ _ _ _ Hscan) as (Hk & _).
    destruct (is_no_error err) eqn:Herr.
    + apply is_no_error_true in Herr. right. exists k, slot, issued.
      split; [by eapply scan_first_match|]. split; [assumption|].
      rewrite (Hok Herr), <- app_assoc. by split.
    + apply is_no_error_false in Herr. left. exists kUnknownError, issued.
      split; [discriminate|]. rewrite (Hfail Herr), list_insert_id by assumption.
      rewrite <- app_assoc. split; [reflexivity|]. split; [assumption|]. by split.
  - left. exists kNetworkIDNotFound, []. split; [discriminate|].
    rewrite (connect_unmatched cfg _ _ _ _ _ Hscan). by repeat split.
Qed.

(** X4.  For a table of kMaxNetworks slots, the response of a connect and its
    effect on the table go together: the response is NetworkIDNotFound
    exactly when no slot holds the requested id; whenever the response is
    not Success the table is left exactly as it was (a failed connect
    changes no enabled flag); and when it is Success the table differs only
    in that the first slot holding the id has its enabled flag set. *)
Theorem connect_status_and_table (commandPath : N) (networkID : list byte)
    (breadcrumb timeoutMs : N) (st : State) :
  well_sized cfg (sNetworks st) ->
  exists status issued,
    calls (OnConnectNetworkCommandCallbackInternal cfg commandPath networkID breadcrumb
             timeoutMs st)
    = calls st ++ issued ++ [connect_response commandPath status]
    /\ (status = kNetworkIDNotFound
        <-> forall i slot, sNetworks st !! i = Some slot -> ~ has_network_id networkID slot)
    /\ (status <> kSuccess ->
        sNetworks (OnConnectNetworkCommandCallbackInternal cfg commandPath networkID breadcrumb
                     timeoutMs st) = sNetworks st)
    /\ (status = kSuccess ->
        exists i slot,
          first_match (sNetworks st) networkID i /\ sNetworks st !! i = Some slot
          /\ sNetworks (OnConnectNetworkCommandCallbackInternal cfg commandPath networkID
                          breadcrumb timeoutMs st)
             = <[i := set_mEnabled 1 slot]> (sNetworks st)).
Proof.
  intros Hsize.
  destruct (connect_cases commandPath networkID breadcrumb timeoutMs st)
    as [(status & issued & Hne & -> & _ & Hnotfound)|(i & slot & issued & Hfirst & Hi & -> & _)];
    cbn [calls sNetworks].
  - exists status, issued. split; [reflexivity|]. split; [|by split].
    rewrite Hnotfound. split.
    + intros Hscan i slot Hi Hmatch. apply matches_networkID_spec in Hmatch.
      rewrite (scan_None _ _ _ _ Hscan i slot) in Hmatch; [discriminate| |assumption].
      apply lookup_lt_Some in Hi. unfold well_sized in Hsize. lia.
    + apply no_match_scan.
  - exists kSuccess, (issued ++ [ConnectNetworkForOperational networkID]).
    split; [by rewrite <- !app_assoc|]. split; [|split; [done|by exists i, slot]].
    split; [discriminate|]. intros Hnone. destruct Hfirst as [(s & Hs & Hmatch) _].
    by destruct (Hnone i s Hs).
Qed.

(** *** Sequences of commands *)

Lemma has_network_id_set_mEnabled (networkID : list byte) (v : N) (slot : NetworkInfo) :
  has_network_id networkID (set_mEnabled v slot) <-> has_network_id networkID slot.
Proof. reflexivity. Qed.

(** One command leaves a stored profile as it was, or sets its enabled
    flag. *)
Lemma run_command_keeps_profile (commandPath breadcrumb timeoutMs : N) (cmd : Command)
    (st : State) (i : nat) (slot : NetworkInfo) :
  sNetworks st !! i = Some slot -> mNetworkType slot <> kUndefined ->
  sNetworks (run_command cfg commandPath breadcrumb timeoutMs cmd st) !! i = Some slot
  \/ sNetworks (run_command cfg commandPath breadcrumb timeoutMs cmd st) !! i
     = Some (set_mEnabled 1 slot).
Proof.
  intros Hi Hdefined. destruct cmd as [c|networkID]; cbn [run_command].
  - left. destruct (supported_add_dec c) as [Hyes|Hno].
    + destruct (scan is_undefined (N.to_nat (kMaxNetworks cfg)) 0 (sNetworks st))
        as [[k old]|] eqn:Hscan.
      * rewrite (run_add_free _ _ _ _ _ _ _ Hyes Hscan). cbn [sNetworks].
        destruct (scan_Some _ _ _ _ _ _ Hscan) as (Hk & Hundef & _).
        apply is_undefined_true in Hundef.
        rewrite list_lookup_insert_ne; [assumption|]. intros ->. congruence.
      * by rewrite (run_add_no_free _ _ _ _ _ Hyes Hscan).
    + by rewrite (run_add_unsupported _ _ _ _ _ Hno).
  - destruct (connect_cases commandPath networkID breadcrumb timeoutMs st)
      as [(status & issued & _ & -> & _)|(k & matched & issued & _ & Hk & -> & _)];
      cbn [sNetworks]; [by left|].
    destruct (decide (i = k)) as [->|Hne].
    + right. assert (matched = slot) as -> by congruence.
      apply list_lookup_insert_eq. by eapply lookup_lt_Some.
    + left. by rewrite list_lookup_insert_ne.
Qed.

(** X5.  No sequence of add and connect commands removes or rewrites a stored
    profile: a slot that holds a profile keeps its network type, network id
    bytes, id length and payload for ever; the only change it can see is its
    enabled flag being set, and once set the flag is never cleared. *)
Theorem profiles_persist (commandPath breadcrumb timeoutMs : N) (cmds : list Command)
    (st : State) (i : nat) (slot : NetworkInfo) :
  sNetworks st !! i = Some slot -> mNetworkType slot <> kUndefined ->
  exists slot',
    sNetworks (run_commands cfg commandPath breadcrumb timeoutMs cmds st) !! i = Some slot'
    /\ same_but_enabled slot slot'
    /\ (slot' = slot \/ slot' = set_mEnabled 1 slot)
    /\ (mEnabled slot = 1%N -> slot' = slot).
Proof.
  revert st slot. induction cmds as [|cmd cmds IH]; intros st slot Hi Hdefined.
  - exists slot. cbn. split; [assumption|]. split; [by repeat split|]. split; [by left|done].
  - unfold run_commands in *. cbn [fold_left].
    destruct (run_command_keeps_profile commandPath breadcrumb timeoutMs cmd st i slot Hi Hdefined)
      as [Hsame|Hset].
    + apply (IH _ slot Hsame Hdefined).
    + destruct (IH _ (set_mEnabled 1 slot) Hset Hdefined)
        as (slot' & Hslot' & Hkept & Hcases & Hstays).
      exists slot'. split; [assumption|]. split; [by destruct Hkept as (? & ? & ? & ?)|].
      split.
      * right. by destruct Hcases as [->| ->].
      * intros Henabled. rewrite (Hstays eq_refl). by destruct slot; cbn in *; subst.
Qed.

(** One connect never touches a slot that holds the same id as an earlier
    slot, and keeps both slots holding that id. *)
Lemma connect_skips_shadowed (commandPath : N) (requested : list byte)
    (breadcrumb timeoutMs : N) (st : State) (networkID : list byte) (i j : nat)
    (si sj : NetworkInfo) :
  i < j ->
  sNetworks st !! i = Some si -> sNetworks st !! j = Some sj ->
  has_network_id networkID si -> has_network_id networkID sj ->
  sNetworks (OnConnectNetworkCommandCallbackInternal cfg commandPath requested breadcrumb
               timeoutMs st) !! j = Some sj
  /\ exists si',
       sNetworks (OnConnectNetworkCommandCallbackInternal cfg commandPath requested breadcrumb
                    timeoutMs st) !! i = Some si'
       /\ has_network_id networkID si'.
Proof.
  intros Hij Hi Hj Hidi Hidj.
  destruct (connect_cases commandPath requested breadcrumb timeoutMs st)
    as [(status & issued & _ & -> & _)|(k & matched & issued & Hfirst & Hk & -> & _)];
    cbn [sNetworks]; [split; [assumption|by exists si]|].
  assert (k <> j) as Hkj.
  { intros ->. destruct Hfirst as [(s & Hs & _ & _ & Hreq) Hbefore].
    assert (s = sj) as -> by congruence.
    assert (requested = networkID) as -> by (destruct Hidj as (_ & _ & <-); done).
    by destruct (Hbefore i si Hij Hi). }
  split; [by rewrite list_lookup_insert_ne|].
  destruct (decide (i = k)) as [->|Hne].
  - exists (set_mEnabled 1 si). assert (matched = si) as -> by congruence.
    split; [apply list_lookup_insert_eq; by eapply lookup_lt_Some|done].
  - exists si. by rewrite list_lookup_insert_ne.
Qed.

(** X6.  The scan of connect stops at the first slot holding the requested
    id, so a profile stored under the same id as a profile in an earlier slot
    can never be connected: whatever sequence of connects is requested, the
    later slot is left exactly as it was, its enabled flag included. *)
Theorem shadowed_profile_never_connected (commandPath breadcrumb timeoutMs : N)
    (requests : list (list byte)) (st : State) (networkID : list byte) (i j : nat)
    (si sj : NetworkInfo) :
  i < j ->
  sNetworks st !! i = Some si -> sNetworks st !! j = Some sj ->
  has_network_id networkID si -> has_network_id networkID sj ->
  sNetworks (run_commands cfg commandPath breadcrumb timeoutMs (Connect <$> requests) st) !! j
  = Some sj.
Proof.
  intros Hij. revert st si. induction requests as [|requested requests IH];
    intros st si Hi Hj Hidi Hidj; [assumption|].
  unfold run_commands in *. cbn [fmap list_fmap fold_left run_command].
  destruct (connect_skips_shadowed commandPath requested breadcrumb timeoutMs st networkID
              i j si sj Hij Hi Hj Hidi Hidj) as (Hj' & si' & Hi' & Hidi').
  exact (IH _ si' Hi' Hj' Hidi' Hidj).
Qed.

(** *** The id array *)

Lemma add_in_slot_id_in_bounds (c : AddCommand) (old : NetworkInfo) :
  extended_pan_id_fits -> id_in_bounds old -> id_in_bounds (add_in_slot c old).2.
Proof.
  intros [Hfits Hpan] [Hlen Hidlen]. unfold id_in_bounds in *.
  unfold sizeof_mNetworkID, kMaxNetworkIDLen in *.
  destruct c as [ssid credentials|operationalDataset]; cbn [add_in_slot].
  - destruct (AddOrUpdateWiFiNetwork_slot_outcome ssid credentials old)
      as (status & slot' & -> & [((Hssid & _) & _ & Hid & Hidlen' & _)|(_ & _ & Hsame)]);
      cbn [snd].
    + rewrite Hid, Hidlen', length_app, length_drop.
      unfold size, kMaxWiFiSSIDLen in *. lia.
    + destruct Hsame as (<- & <- & _). by split.
  - destruct (AddOrUpdateThreadNetwork_slot_outcome operationalDataset kBoundsExceeded old)
      as (status & slot' & -> & [(_ & _ & Hsame)|[(_ & _ & _ & Hsame)|Hstored]]); cbn [snd].
    + destruct Hsame as (<- & <- & _). by split.
    + destruct Hsame as (<- & <- & _). by split.
    + destruct Hstored as (_ & _ & _ & Hid & Hidlen' & _).
      rewrite Hid, Hidlen'. unfold memcpy. rewrite length_app, length_take, length_drop, Hpan.
      lia.
Qed.

Lemma run_command_id_in_bounds (commandPath breadcrumb timeoutMs : N) (cmd : Command)
    (st : State) :
  extended_pan_id_fits ->
  (forall i slot, sNetworks st !! i = Some slot -> id_in_bounds slot) ->
  forall i slot,
    sNetworks (run_command cfg commandPath breadcrumb timeoutMs cmd st) !! i = Some slot ->
    id_in_bounds slot.
Proof.
  intros Hfits Hbounds i slot. destruct cmd as [c|networkID]; cbn [run_command].
  - destruct (supported_add_dec c) as [Hyes|Hno].
    + destruct (scan is_undefined (N.to_nat (kMaxNetworks cfg)) 0 (sNetworks st))
        as [[k old]|] eqn:Hscan.
      * rewrite (run_add_free _ _ _ _ _ _ _ Hyes Hscan). cbn [sNetworks].
        destruct (scan_Some _ _ _ _ _ _ Hscan) as (Hk & _).
        intros [(-> & <- & _)|(_ & Hi)]%list_lookup_insert_Some; [|by eapply Hbounds].
        apply add_in_slot_id_in_bounds; [assumption|by eapply Hbounds].
      * rewrite (run_add_no_free _ _ _ _ _ Hyes Hscan). apply Hbounds.
    + rewrite (run_add_unsupported _ _ _ _ _ Hno). apply Hbounds.
  - destruct (connect_cases commandPath networkID breadcrumb timeoutMs st)
      as [(status & issued & _ & -> & _)|(k & matched & issued & _ & Hk & -> & _)];
      cbn [sNetworks]; [apply Hbounds|].
    intros [(-> & <- & _)|(_ & Hi)]%list_lookup_insert_Some; [|by eapply Hbounds].
    exact (Hbounds _ _ Hk).
Qed.

(** X7.  The stored network id never leaves its array.  If
    [GetExtendedPanId] fills an array of kSizeExtendedPanId bytes that is no
    larger than the id array (the file's static_assert), and every slot
    starts with an id array of 32 bytes and an id length of at most 32, then
    after every sequence of add and connect commands every slot still has a
    32-byte id array and an id length of at most 32, so the stored id is
    exactly the first mNetworkIDLen bytes of the array and the memcmp of
    connect reads within it. *)
Theorem id_stays_in_bounds (commandPath breadcrumb timeoutMs : N) (cmds : list Command)
    (st : State) :
  extended_pan_id_fits ->
  (forall i slot, sNetworks st !! i = Some slot -> id_in_bounds slot) ->
  forall i slot,
    sNetworks (run_commands cfg commandPath breadcrumb timeoutMs cmds st) !! i = Some slot ->
    id_in_bounds slot
    /\ length (network_id slot) = N.to_nat (mNetworkIDLen slot)
    /\ forall networkID,
         mNetworkIDLen slot = size networkID ->
         N.to_nat (size networkID) <= length (mNetworkID slot).
Proof.
  intros Hfits. revert st. induction cmds as [|cmd cmds IH]; intros st Hbounds i slot Hi.
  - cbn in Hi. pose proof (Hbounds i slot Hi) as [Hlen Hidlen]. split; [by split|].
    unfold network_id, sizeof_mNetworkID, kMaxNetworkIDLen in *. rewrite length_take. split; [lia|].
    intros networkID <-. lia.
  - unfold run_commands in *. cbn [fold_left] in Hi.
    refine (IH (run_command cfg commandPath breadcrumb timeoutMs cmd st) _ i slot Hi).
    by apply run_command_id_in_bounds.
Qed.

(** *** A network added, then connected *)

(** X8.  A WiFi add that is accepted stores its input so that it reads back:
    in the slot it filled, the first mSSIDLen bytes of mSSID are the SSID and
    the first mCredentialsLen bytes of mCredentials are the credentials.
    The bytes behind them are the ones the arrays held before (the add
    writes no terminator after either), and arrays of the declared sizes
    keep their sizes. *)
Theorem wifi_add_stores_input (commandPath : N) (ssid credentials : list byte)
    (breadcrumb timeoutMs : N) (st : State) (i : nat) (old : NetworkInfo) :
  CHIP_DEVICE_LAYER_TARGET cfg = true ->
  well_sized cfg (sNetworks st) ->
  first_undefined (sNetworks st) i -> sNetworks st !! i = Some old ->
  (size ssid <= kMaxWiFiSSIDLen)%N -> (size credentials <= kMaxWiFiCredentialsLen)%N ->
  exists new,
    sNetworks (OnAddOrUpdateWiFiNetworkCommandCallbackInternal cfg commandPath ssid credentials
                 breadcrumb timeoutMs st) !! i = Some new
    /\ take (N.to_nat (mSSIDLen (mWiFi (mData new)))) (mSSID (mWiFi (mData new))) = ssid
    /\ take (N.to_nat (mCredentialsLen (mWiFi (mData new)))) (mCredentials (mWiFi (mData new)))
       = credentials
    /\ drop (length ssid) (mSSID (mWiFi (mData new)))
       = drop (length ssid) (mSSID (mWiFi (mData old)))
    /\ drop (length credentials) (mCredentials (mWiFi (mData new)))
       = drop (length credentials) (mCredentials (mWiFi (mData old)))
    /\ (length (mSSID (mWiFi (mData old))) = N.to_nat sizeof_mSSID ->
        length (mSSID (mWiFi (mData new))) = N.to_nat sizeof_mSSID)
    /\ (length (mCredentials (mWiFi (mData old))) = N.to_nat sizeof_mCredentials ->
        length (mCredentials (mWiFi (mData new))) = N.to_nat sizeof_mCredentials).
Proof.
  intros Htarget Hsize Hfirst Hi Hssid Hcred.
  assert (supported_add cfg (AddWiFi ssid credentials)) as Hyes by exact Htarget.
  destruct (scan_first_undefined cfg _ _ Hsize Hfirst) as (s & Hscan & Hs & _).
  assert (s = old) as -> by congruence.
  change (OnAddOrUpdateWiFiNetworkCommandCallbackInternal cfg commandPath ssid credentials
            breadcrumb timeoutMs st)
    with (run_add cfg commandPath breadcrumb timeoutMs (AddWiFi ssid credentials) st).
  rewrite (run_add_free _ _ _ _ _ _ _ Hyes Hscan). cbn [sNetworks add_in_slot].
  destruct (AddOrUpdateWiFiNetwork_slot_outcome ssid credentials old)
    as (status & new & -> & [(_ & _ & _ & _ & _ & _ & Hpayload)|(Hinvalid & _)]);
    [|by destruct Hinvalid].
  cbn [snd]. exists new.
  split; [apply list_lookup_insert_eq; by eapply lookup_lt_Some|].
  rewrite Hpayload. cbn [mSSID mSSIDLen mCredentials mCredentialsLen].
  unfold size, sizeof_mSSID, sizeof_mCredentials, kMaxWiFiSSIDLen, kMaxWiFiCredentialsLen in *.
  rewrite !Nat2N.id, !take_app_length, !drop_app_length.
  repeat split; intros Hlen; rewrite length_app, length_drop; lia.
Qed.

(** X9.  A WiFi network that was just added is found by connect under its
    SSID.  On a build with WiFi support, after an accepted add into a table
    in which no slot before the first Undefined one holds the SSID as id,
    connect with the SSID makes one provisioning call, on the two arrays of
    the new slot (the SSID, and the credentials, each followed by what its
    array held before); if that call succeeds the notifier is called, the
    response is Success and the new profile is enabled, otherwise the
    response is UnknownError and the profile stays disabled. *)
Theorem wifi_add_then_connect (commandPath : N) (ssid credentials : list byte)
    (breadcrumb timeoutMs : N) (st : State) (i : nat) (old : NetworkInfo) :
  CHIP_DEVICE_LAYER_TARGET cfg = true ->
  well_sized cfg (sNetworks st) ->
  first_undefined (sNetworks st) i -> sNetworks st !! i = Some old ->
  (size ssid <= kMaxWiFiSSIDLen)%N -> (size credentials <= kMaxWiFiCredentialsLen)%N ->
  (forall j slot, j < i -> sNetworks st !! j = Some slot -> ~ has_network_id ssid slot) ->
  let added :=
    OnAddOrUpdateWiFiNetworkCommandCallbackInternal cfg commandPath ssid credentials
      breadcrumb timeoutMs st in
  let provision :=
    ProvisionWiFi (ssid ++ drop (length ssid) (mSSID (mWiFi (mData old))))
      (credentials ++ drop (length credentials) (mCredentials (mWiFi (mData old)))) in
  let connected :=
    OnConnectNetworkCommandCallbackInternal cfg commandPath ssid breadcrumb timeoutMs added in
  first_match (sNetworks added) ssid i
  /\ calls added = calls st ++ [config_response commandPath kSuccess]
  /\ (platform (calls added) provision = CHIP_NO_ERROR ->
      calls connected
      = calls added ++ [provision; ConnectNetworkForOperational ssid;
                        connect_response commandPath kSuccess]
      /\ mEnabled <$> sNetworks connected !! i = Some 1%N)
  /\ (platform (calls added) provision <> CHIP_NO_ERROR ->
      calls connected = calls added ++ [provision; connect_response commandPath kUnknownError]
      /\ mEnabled <$> sNetworks connected !! i = Some 0%N).
Proof.
  intros Htarget Hsize Hfirst Hi Hssid Hcred Hfresh. cbn zeta.
  assert (supported_add cfg (AddWiFi ssid credentials)) as Hyes by exact Htarget.
  destruct (scan_first_undefined cfg _ _ Hsize Hfirst) as (s & Hscan & Hs & _).
  assert (s = old) as -> by congruence.
  change (OnAddOrUpdateWiFiNetworkCommandCallbackInternal cfg commandPath ssid credentials
            breadcrumb timeoutMs st)
    with (run_add cfg commandPath breadcrumb timeoutMs (AddWiFi ssid credentials) st).
  rewrite (run_add_free _ _ _ _ _ _ _ Hyes Hscan). cbn [add_in_slot].
  destruct (AddOrUpdateWiFiNetwork_slot_outcome ssid credentials old)
    as (status & new & -> & [(_ & -> & Hid & Hidlen & Henabled & Htype & Hpayload)
                            |(Hinvalid & _)]);
    [|by destruct Hinvalid].
  cbn [fst snd].
  set (added := {| sNetworks := <[i := new]> (sNetworks st);
                   calls := calls st ++ [config_response commandPath kSuccess] |}).
  assert (i < length (sNetworks st)) as Hlt by (by eapply lookup_lt_Some).
  assert (sNetworks added !! i = Some new) as Hnew by (by apply list_lookup_insert_eq).
  assert (has_network_id ssid new) as Hmatch.
  { unfold has_network_id, network_id. rewrite Htype, Hidlen, Hid.
    unfold size. rewrite Nat2N.id, take_app_length. by repeat split. }
  assert (first_match (sNetworks added) ssid i) as Hfound.
  { split; [by exists new|]. intros j slot Hj Hslot.
    cbn in Hslot. rewrite list_lookup_insert_ne in Hslot by lia. by eapply Hfresh. }
  assert (well_sized cfg (sNetworks added)) as Hsize'.
  { unfold well_sized in *. cbn. by rewrite length_insert. }
  pose proof (first_match_scan cfg _ _ _ _ Hsize' Hfound Hnew) as Hscan'.
  split; [assumption|]. split; [reflexivity|].
  assert (forall log,
            DoConnectNetwork cfg new log
            = ReturnErrorOnFailure (fun err => (err, new))
                (invoke (ProvisionWiFi
                           (ssid ++ drop (length ssid) (mSSID (mWiFi (mData old))))
                           (credentials
                            ++ drop (length credentials) (mCredentials (mWiFi (mData old))))))
                (ret (CHIP_NO_ERROR, set_mEnabled 1 new)) log) as Hdo.
  { intros log. unfold DoConnectNetwork. by rewrite Htype, Htarget, Hpayload. }
  split; intros Hplatform.
  - rewrite (connect_matched cfg commandPath ssid breadcrumb timeoutMs added i new
               (set_mEnabled 1 new) CHIP_NO_ERROR
               (calls added
                ++ [ProvisionWiFi (ssid ++ drop (length ssid) (mSSID (mWiFi (mData old))))
                      (credentials
                       ++ drop (length credentials) (mCredentials (mWiFi (mData old))))])
               Hscan').
    + cbn [is_no_error calls sNetworks]. split; [by rewrite <- app_assoc|].
      rewrite list_lookup_insert_eq by (cbn; by rewrite length_insert). reflexivity.
    + rewrite Hdo. unfold ReturnErrorOnFailure, invoke, ret. by rewrite Hplatform.
  - rewrite (connect_matched cfg commandPath ssid breadcrumb timeoutMs added i new new
               (platform (calls added)
                  (ProvisionWiFi (ssid ++ drop (length ssid) (mSSID (mWiFi (mData old))))
                     (credentials
                      ++ drop (length credentials) (mCredentials (mWiFi (mData old))))))
               (calls added
                ++ [ProvisionWiFi (ssid ++ drop (length ssid) (mSSID (mWiFi (mData old))))
                      (credentials
                       ++ drop (length credentials) (mCredentials (mWiFi (mData old))))])
               Hscan').
    + rewrite (proj2 (is_no_error_false _) Hplatform). cbn [calls sNetworks].
      split; [by rewrite <- app_assoc|].
      rewrite list_lookup_insert_eq by (cbn; by rewrite length_insert).
      cbn. by rewrite Henabled.
    + rewrite Hdo. unfold ReturnErrorOnFailure, invoke, ret.
      by rewrite (proj2 (is_no_error_false _) Hplatform).
Qed.

(** X10.  A Thread network that was just added is found by connect under its
    extended PAN ID, and connect provisions the dataset the add stored.  On
    a build with Thread support, when [Init] and [GetExtendedPanId] succeed
    on the dataset object of the first Undefined slot and no slot before it
    holds the extended PAN ID as id, then after the add that slot is the
    first one holding the extended PAN ID, its dataset object is the one
    [Init] left, and connect with the extended PAN ID does not answer
    NetworkIDNotFound. *)
Theorem thread_add_then_connect (commandPath : N) (operationalDataset : list byte)
    (breadcrumb timeoutMs : N) (st : State) (i : nat) (old : NetworkInfo) :
  CHIP_DEVICE_CONFIG_ENABLE_THREAD cfg = true ->
  well_sized cfg (sNetworks st) ->
  extended_pan_id_fits ->
  first_undefined (sNetworks st) i -> sNetworks st !! i = Some old ->
  let parsed := Init (mThread (mData old)) operationalDataset in
  let extendedPanId := (GetExtendedPanId parsed.2).2 in
  parsed.1 = CHIP_NO_ERROR -> (GetExtendedPanId parsed.2).1 = CHIP_NO_ERROR ->
  (forall j slot, j < i -> sNetworks st !! j = Some slot -> ~ has_network_id extendedPanId slot) ->
  let added :=
    OnAddOrUpdateThreadNetworkCommandCallbackInternal cfg commandPath operationalDataset
      breadcrumb timeoutMs st in
  first_match (sNetworks added) extendedPanId i
  /\ (exists new,
        sNetworks added !! i = Some new /\ mNetworkType new = kThread
        /\ mEnabled new = 0%N /\ mThread (mData new) = parsed.2)
  /\ exists status issued,
       calls (OnConnectNetworkCommandCallbackInternal cfg commandPath extendedPanId
                breadcrumb timeoutMs added)
       = calls st ++ [config_response commandPath kSuccess] ++ issued
         ++ [connect_response commandPath status]
       /\ status <> kNetworkIDNotFound.
Proof.
  intros Hthread Hsize [Hfits Hpanlen] Hfirst Hi. cbn zeta. intros Hinit Hpan Hfresh.
  assert (supported_add cfg (AddThread operationalDataset)) as Hyes by exact Hthread.
  destruct (scan_first_undefined cfg _ _ Hsize Hfirst) as (s & Hscan & Hs & _).
  assert (s = old) as -> by congruence.
  change (OnAddOrUpdateThreadNetworkCommandCallbackInternal cfg commandPath operationalDataset
            breadcrumb timeoutMs st)
    with (run_add cfg commandPath breadcrumb timeoutMs (AddThread operationalDataset) st).
  rewrite (run_add_free _ _ _ _ _ _ _ Hyes Hscan). cbn [add_in_slot].
  destruct (AddOrUpdateThreadNetwork_slot_outcome operationalDataset kBoundsExceeded old)
    as (status & new & -> & [(Hfail & _)|[(_ & Hfail & _)
                            |(_ & _ & -> & Hid & Hidlen & Henabled & Htype & Hstored)]]);
    [congruence..|].
  cbn [fst snd].
  set (added := {| sNetworks := <[i := new]> (sNetworks st);
                   calls := calls st ++ [config_response commandPath kSuccess] |}).
  assert (i < length (sNetworks st)) as Hlt by (by eapply lookup_lt_Some).
  assert (sNetworks added !! i = Some new) as Hnew by (by apply list_lookup_insert_eq).
  set (extendedPanId :=
         (GetExtendedPanId (Init (mThread (mData old)) operationalDataset).2).2) in *.
  assert (length extendedPanId = N.to_nat kSizeExtendedPanId) as Hlen by apply Hpanlen.
  assert (has_network_id extendedPanId new) as Hmatch.
  { unfold has_network_id, network_id. rewrite Htype, Hidlen, Hid.
    unfold memcpy, size. rewrite Hlen, N2Nat.id.
    rewrite <- Hlen, firstn_all, take_app_length. by repeat split. }
  assert (first_match (sNetworks added) extendedPanId i) as Hfound.
  { split; [by exists new|]. intros j slot Hj Hslot.
    cbn in Hslot. rewrite list_lookup_insert_ne in Hslot by lia. by eapply Hfresh. }
  split; [assumption|]. split; [by exists new|].
  destruct (connect_cases commandPath extendedPanId breadcrumb timeoutMs added)
    as [(status & issued & _ & -> & _ & Hnotfound)
       |(k & matched & issued & _ & _ & -> & _)];
    cbn [calls added].
  - exists status, issued. split; [by rewrite <- !app_assoc|].
    intros Hstatus. apply Hnotfound in Hstatus.
    assert (well_sized cfg (sNetworks added)) as Hsize'.
    { unfold well_sized in *. cbn. by rewrite length_insert. }
    rewrite (first_match_scan cfg _ _ _ _ Hsize' Hfound Hnew) in Hstatus. discriminate.
  - exists kSuccess, (issued ++ [ConnectNetworkForOperational extendedPanId]).
    split; [by rewrite <- !app_assoc|discriminate].
Qed.

(** *** Connect and the enabled flag *)

Lemma matches_networkID_same_but_enabled (networkID : list byte) (a b : NetworkInfo) :
  same_but_enabled a b -> matches_networkID networkID a = matches_networkID networkID b.
Proof.
  intros (Hid & Hlen & Htype & _). unfold matches_networkID, is_undefined.
  by rewrite Hid, Hlen, Htype.
Qed.

Lemma scan_same_but_enabled (networkID : list byte) (n : nat) (t1 t2 : list NetworkInfo) :
  Forall2 same_but_enabled t1 t2 ->
  forall i,
    (scan (matches_networkID networkID) n i t1 = None
     /\ scan (matches_networkID networkID) n i t2 = None)
    \/ exists k s1 s2,
         scan (matches_networkID networkID) n i t1 = Some (k, s1)
         /\ scan (matches_networkID networkID) n i t2 = Some (k, s2)
         /\ same_but_enabled s1 s2.
Proof.
  intros Hsame. induction n as [|n IH]; intros i; cbn [scan]; [by left|].
  destruct (t1 !! i) as [s1|] eqn:H1.
  - destruct (Forall2_lookup_l _ _ _ _ _ Hsame H1) as (s2 & -> & Hs).
    rewrite <- (matches_networkID_same_but_enabled networkID s1 s2 Hs).
    destruct (matches_networkID networkID s1); [|apply IH].
    right. by exists i, s1, s2.
  - left. split; [reflexivity|].
    apply lookup_ge_None in H1. rewrite (Forall2_length _ _ _ Hsame) in H1.
    apply lookup_ge_None in H1. by rewrite H1.
Qed.

Lemma DoConnectNetwork_same_but_enabled (a b : NetworkInfo) (log : list Call) :
  same_but_enabled a b ->
  exists err a' b' log',
    DoConnectNetwork cfg a log = ((err, a'), log')
    /\ DoConnectNetwork cfg b log = ((err, b'), log')
    /\ same_but_enabled a' b'.
Proof.
  intros Hsame. pose proof Hsame as (Hid & Hlen & Htype & Hdata).
  unfold DoConnectNetwork, ReturnErrorOnFailure, invoke, ret. rewrite <- Htype, <- Hdata.
  destruct (mNetworkType a);
    repeat match goal with
           | |- context [if CHIP_DEVICE_CONFIG_ENABLE_THREAD cfg then _ else _] =>
               destruct (CHIP_DEVICE_CONFIG_ENABLE_THREAD cfg)
           | |- context [if CHIP_DEVICE_LAYER_TARGET cfg then _ else _] =>
               destruct (CHIP_DEVICE_LAYER_TARGET cfg)
           | |- context [if CHIP_DEVICE_LAYER_TARGET_LINUX cfg then _ else _] =>
               destruct (CHIP_DEVICE_LAYER_TARGET_LINUX cfg)
           | |- context [is_no_error (platform ?l ?c)] =>
               destruct (is_no_error (platform l c))
           end;
    do 4 eexists; (split; [reflexivity|]); (split; [reflexivity|]);
    first [exact Hsame | by repeat split].
Qed.

(** X11.  Connect never reads an enabled flag.  On two tables that agree in
    everything but enabled flags, with the same calls made so far, a connect
    makes the same calls and gives the same response, and the two tables
    still agree in everything but enabled flags afterwards.  So a network
    that is already enabled is provisioned again when it is connected
    again. *)
Theorem connect_ignores_enabled (commandPath : N) (networkID : list byte)
    (breadcrumb timeoutMs : N) (st1 st2 : State) :
  calls st1 = calls st2 ->
  Forall2 same_but_enabled (sNetworks st1) (sNetworks st2) ->
  calls (OnConnectNetworkCommandCallbackInternal cfg commandPath networkID breadcrumb
           timeoutMs st1)
  = calls (OnConnectNetworkCommandCallbackInternal cfg commandPath networkID breadcrumb
             timeoutMs st2)
  /\ Forall2 same_but_enabled
       (sNetworks (OnConnectNetworkCommandCallbackInternal cfg commandPath networkID
                     breadcrumb timeoutMs st1))
       (sNetworks (OnConnectNetworkCommandCallbackInternal cfg commandPath networkID
                     breadcrumb timeoutMs st2)).
Proof.
  intros Hcalls Hsame.
  destruct (scan_same_but_enabled networkID (N.to_nat (kMaxNetworks cfg)) _ _ Hsame 0)
    as [[H1 H2]|(k & s1 & s2 & H1 & H2 & Hs)].
  - rewrite (connect_unmatched cfg _ _ _ _ _ H1), (connect_unmatched cfg _ _ _ _ _ H2).
    cbn [calls sNetworks]. by rewrite Hcalls.
  - destruct (DoConnectNetwork_same_but_enabled s1 s2 (calls st1) Hs)
      as (err & s1' & s2' & log' & Hdo1 & Hdo2 & Hs').
    rewrite Hcalls in Hdo2 at 1.
    rewrite (connect_matched cfg _ _ _ _ _ _ _ _ _ _ H1 Hdo1),
      (connect_matched cfg _ _ _ _ _ _ _ _ _ _ H2 Hdo2).
    destruct (is_no_error err); cbn [calls sNetworks];
      (split; [reflexivity|by apply Forall2_insert]).
Qed.

End ClusterBehaviour.

(** ** [TimedRequest::Send] *)

Section SendProperties.

Import TimedRequest.

Context {PacketBufferHandle Encoder : Type}.
Variable MessagePacketBuffer_New : N -> option PacketBufferHandle.
Variable writer_Init : PacketBufferHandle -> Encoder.
Variable builder_Init : Encoder -> CHIP_ERROR * Encoder.
Variable builder_TimeoutMs : N -> Encoder -> Encoder.
Variable builder_GetError : Encoder -> CHIP_ERROR.
Variable writer_Finalize : Encoder -> CHIP_ERROR * PacketBufferHandle.
Variable SendMessage : @Message PacketBufferHandle -> CHIP_ERROR.

(** X12.  [TimedRequest::Send] hands at most one message to the exchange
    context, and only as its last step: the message has type TimedRequest,
    expects a response, and its result is the result of Send.  When the
    buffer cannot be allocated the result is CHIP_ERROR_NO_MEMORY, and
    whenever no message was handed over the result is an error: Send never
    reports success without having sent. *)
Theorem Send_sends_last (aTimeoutMs : N) :
  let result :=
    Send MessagePacketBuffer_New writer_Init builder_Init builder_TimeoutMs builder_GetError
      writer_Finalize SendMessage aTimeoutMs in
  (MessagePacketBuffer_New 6 = None -> result = (CHIP_ERROR_NO_MEMORY, []))
  /\ (result.2 = []
      \/ exists payload,
           result.2 = [{| msgType := TimedRequest; msgPayload := payload;
                          msgFlags := kExpectResponse |}]
           /\ result.1 = SendMessage {| msgType := TimedRequest; msgPayload := payload;
                                        msgFlags := kExpectResponse |})
  /\ (result.2 = [] -> result.1 <> CHIP_NO_ERROR).
Proof.
  cbn zeta. unfold Send.
  destruct (MessagePacketBuffer_New 6) as [payload|]; [|by repeat split; [left|]].
  split; [discriminate|].
  destruct (builder_Init (writer_Init payload)) as [err builder].
  destruct (is_no_error err) eqn:Herr; cbn [negb];
    [|apply is_no_error_false in Herr; by split; [left|]].
  destruct (is_no_error (builder_GetError (builder_TimeoutMs aTimeoutMs builder))) eqn:Hget;
    cbn [negb]; [|apply is_no_error_false in Hget; by split; [left|]].
  destruct (writer_Finalize (builder_TimeoutMs aTimeoutMs builder)) as [err' payload'].
  destruct (is_no_error err') eqn:Hfin; cbn [negb];
    [|apply is_no_error_false in Hfin; by split; [left|]].
  split; [right; by exists payload'|discriminate].
Qed.

End SendProperties.

(** ** The message-length check of [CHIPClientCallbacks.cpp] *)

Section MessageLength.

Import ClientCallbacks.

Open Scope Z_scope.

Lemma CHECK_MESSAGE_LENGTH_cases (onFailureCallback : option N) (messageLen value : Z) :
  0 <= messageLen < 65536 ->
  (0 <= value <= messageLen
   /\ CHECK_MESSAGE_LENGTH onFailureCallback messageLen value = GoesOn (messageLen - value))
  \/ (~ 0 <= value <= messageLen
      /\ CHECK_MESSAGE_LENGTH onFailureCallback messageLen value
         = Returned (report_failure onFailureCallback)).
Proof.
  intros Hlen. unfold CHECK_MESSAGE_LENGTH, CanCastTo_uint16, static_cast_uint16.
  destruct (Z.leb_spec 0 value); cbn [andb negb]; [|right; split; [lia|reflexivity]].
  destruct (Z.leb_spec value 65535); cbn [negb]; [|right; split; [lia|reflexivity]].
  destruct (Z.ltb_spec messageLen value); [right; split; [lia|reflexivity]|].
  left. split; [lia|]. rewrite (Z.mod_small value) by lia. by rewrite Z.mod_small by lia.
Qed.

(** X13.  For a [uint16_t] message length, the check of one field of [value]
    bytes goes on exactly when [0 <= value <= messageLen], and then the new
    message length is [messageLen - value] as an integer: neither cast wraps
    around, the new length is not larger than the old one, and the bytes
    consumed and the bytes left add up to the old length.  Otherwise the
    enclosing function returns, after the failure callback, when there is
    one, was called once with INVALID_VALUE. *)
Theorem CHECK_MESSAGE_LENGTH_exact (onFailureCallback : option N) (messageLen value : Z) :
  0 <= messageLen < 65536 ->
  (0 <= value <= messageLen ->
   CHECK_MESSAGE_LENGTH onFailureCallback messageLen value = GoesOn (messageLen - value))
  /\ (~ 0 <= value <= messageLen ->
      CHECK_MESSAGE_LENGTH onFailureCallback messageLen value
      = Returned (report_failure onFailureCallback))
  /\ (forall messageLen',
        CHECK_MESSAGE_LENGTH onFailureCallback messageLen value = GoesOn messageLen' ->
        0 <= messageLen' <= messageLen /\ messageLen' + value = messageLen)
  /\ (forall invoked,
        CHECK_MESSAGE_LENGTH onFailureCallback messageLen value = Returned invoked ->
        (length invoked <= 1)%nat
        /\ (onFailureCallback = None -> invoked = [])
        /\ Forall (fun call => Some (callback call) = onFailureCallback
                               /\ status call = EMBER_ZCL_STATUS_INVALID_VALUE) invoked).
Proof.
  intros Hlen.
  destruct (CHECK_MESSAGE_LENGTH_cases onFailureCallback messageLen value Hlen)
    as [[Hin ->]|[Hout ->]].
  - split; [done|]. split; [done|]. split; [|discriminate].
    intros ? [= <-]. lia.
  - split; [done|]. split; [done|]. split; [discriminate|].
    intros ? [= <-]. destruct onFailureCallback as [cb|]; cbn.
    + split; [lia|]. split; [discriminate|]. by repeat constructor.
    + split; [lia|]. split; [done|constructor].
Qed.

Lemma total_nonneg (values : list Z) : Forall (Z.le 0) values -> 0 <= total values.
Proof.
  induction 1 as [|value values Hvalue _ IH]; cbn; [lia|]. unfold total in IH. lia.
Qed.

(** X14.  Checks of several fields in a row consume the message without ever
    running past its end: for a [uint16_t] message length, the sequence of
    checks goes on through all the values exactly when none is negative and
    their sum is at most the message length, and what is left is then the
    message length minus that sum; otherwise the enclosing function returns
    at the first check that fails. *)
Theorem CHECK_MESSAGE_LENGTHS_sum (onFailureCallback : option N) (messageLen : Z)
    (values : list Z) :
  0 <= messageLen < 65536 ->
  (Forall (Z.le 0) values /\ total values <= messageLen ->
   CHECK_MESSAGE_LENGTHS onFailureCallback messageLen values
   = GoesOn (messageLen - total values))
  /\ (~ (Forall (Z.le 0) values /\ total values <= messageLen) ->
      CHECK_MESSAGE_LENGTHS onFailureCallback messageLen values
      = Returned (report_failure onFailureCallback)).
Proof.
  revert messageLen. induction values as [|value values IH]; intros messageLen Hlen.
  - cbn. split; [intros _; f_equal; lia|]. intros Hno. destruct Hno. split; [constructor|lia].
  - cbn [CHECK_MESSAGE_LENGTHS]. change (total (value :: values)) with (value + total values).
    destruct (CHECK_MESSAGE_LENGTH_cases onFailureCallback messageLen value Hlen)
      as [[Hin ->]|[Hout ->]].
    + destruct (IH (messageLen - value)) as [Hgo Hstop]; [lia|]. split.
      * intros [Hall Hsum]. apply Forall_cons in Hall as [_ Hall].
        rewrite Hgo by (split; [assumption|lia]). f_equal. lia.
      * intros Hno. apply Hstop. intros [Hall Hsum]. apply Hno.
        split; [constructor; [lia|assumption]|lia].
    + split; [|done]. intros [Hall Hsum]. apply Forall_cons in Hall as [Hvalue Hall].
      pose proof (total_nonneg values Hall). lia.
Qed.

End MessageLength.

(** ** Runs of the further properties on the sample builds *)

Section BehaviourRuns.

Import Sample.

#[local] Existing Instance threadLib.
#[local] Existing Instance sideBySide.

Lemma sample_extended_pan_id_fits : extended_pan_id_fits.
Proof.
  split; [discriminate|]. intros d. cbn.
  unfold Dataset_GetExtendedPanId.
  destruct (parse (Dataset_AsByteSpan d)) as [entries|]; [|reflexivity].
  destruct (list_find _ entries) as [[? [? value]]|]; [|reflexivity].
  by destruct (decide (length value = 8)).
Qed.

Lemma atBoot_id_in_bounds (i : nat) (slot : NetworkInfo) :
  sNetworks atBoot !! i = Some slot -> id_in_bounds slot.
Proof.
  intros Hi. apply list_elem_of_lookup_2 in Hi.
  apply elem_of_replicate in Hi as [-> _]. split; [reflexivity|discriminate].
Qed.

(** X2 at boot: the build supports WiFi, the table has its four slots, and
    adding [home] answers Success. *)
Lemma wifi_add_status_table_witness :
  CHIP_DEVICE_LAYER_TARGET embedded = true
  /\ well_sized embedded (sNetworks atBoot)
  /\ calls (OnAddOrUpdateWiFiNetworkCommandCallbackInternal embedded 0 home secret123 0 0 atBoot)
     = calls atBoot ++ [config_response 0 kSuccess].
Proof.
  assert (CHIP_DEVICE_LAYER_TARGET embedded = true) as Htarget by reflexivity.
  assert (well_sized embedded (sNetworks atBoot)) as Hsize by reflexivity.
  split; [exact Htarget|]. split; [exact Hsize|].
  destruct (wifi_add_status_table embedded 0 home secret123 0 0 atBoot Htarget Hsize)
    as (status & Hcalls & Hsuccess & _).
  rewrite Hcalls. f_equal. f_equal. f_equal. apply Hsuccess.
  split; [exists 0; exact atBoot_first_undefined|]. split; discriminate.
Defined.

(** X3 at boot: adding [dataset1] answers Success. *)
Lemma thread_add_status_table_witness :
  CHIP_DEVICE_CONFIG_ENABLE_THREAD embedded = true
  /\ well_sized embedded (sNetworks atBoot)
  /\ calls (OnAddOrUpdateThreadNetworkCommandCallbackInternal embedded 0 dataset1 0 0 atBoot)
     = calls atBoot ++ [config_response 0 kSuccess].
Proof.
  assert (CHIP_DEVICE_CONFIG_ENABLE_THREAD embedded = true) as Hthread by reflexivity.
  assert (well_sized embedded (sNetworks atBoot)) as Hsize by reflexivity.
  split; [exact Hthread|]. split; [exact Hsize|].
  destruct (thread_add_status_table embedded 0 dataset1 0 0 atBoot Hthread Hsize)
    as (status & Hcalls & _ & Hfree).
  rewrite Hcalls. f_equal. f_equal. f_equal.
  destruct (Hfree 0 zeroSlot atBoot_first_undefined eq_refl) as (_ & Hsuccess & _).
  apply Hsuccess. split; reflexivity.
Defined.

(** X4 on the table with [home] in slot 0: connecting [home] is not answered
    with NetworkIDNotFound. *)
Lemma connect_status_and_table_witness :
  well_sized embedded (sNetworks homeAdded)
  /\ exists status issued,
       calls (OnConnectNetworkCommandCallbackInternal (device := allSucceed) embedded 0 home
                0 0 homeAdded)
       = calls homeAdded ++ issued ++ [connect_response 0 status]
       /\ status <> kNetworkIDNotFound.
Proof.
  assert (well_sized embedded (sNetworks homeAdded)) as Hsize by reflexivity.
  split; [exact Hsize|].
  destruct (connect_status_and_table (device := allSucceed) embedded 0 home 0 0 homeAdded Hsize)
    as (status & issued & Hcalls & Hnotfound & _).
  exists status, issued. split; [exact Hcalls|].
  intros Hstatus.
  apply (proj1 Hnotfound Hstatus 0 homeProfile eq_refl). repeat split. discriminate.
Defined.

(** X5 on the profile [home] in slot 0, through a connect, an add and another
    connect. *)
Lemma profiles_persist_witness :
  sNetworks homeAdded !! 0 = Some homeProfile
  /\ mNetworkType homeProfile <> kUndefined
  /\ exists slot',
       sNetworks (run_commands (device := allSucceed) embedded 0 0 0
                    [Connect home; Add (AddWiFi office []); Connect office] homeAdded) !! 0
       = Some slot'
       /\ same_but_enabled homeProfile slot'.
Proof.
  assert (sNetworks homeAdded !! 0 = Some homeProfile) as Hslot by reflexivity.
  assert (mNetworkType homeProfile <> kUndefined) as Htype by discriminate.
  split; [exact Hslot|]. split; [exact Htype|].
  destruct (profiles_persist (device := allSucceed) embedded 0 0 0
              [Connect home; Add (AddWiFi office []); Connect office] homeAdded 0 homeProfile
              Hslot Htype)
    as (slot' & Hslot' & Hsame & _).
  exists slot'. split; [exact Hslot'|exact Hsame].
Defined.

(** X6 after the four adds of the example, where [home] is in slots 0 and 1:
    three connects leave slot 1 as it was. *)
Lemma shadowed_profile_never_connected_witness :
  has_network_id home (default zeroSlot (sNetworks allAdded !! 0))
  /\ has_network_id home (default zeroSlot (sNetworks allAdded !! 1))
  /\ sNetworks (run_commands (device := allSucceed) embedded 0 0 0
                  (Connect <$> [home; home; office]) allAdded) !! 1
     = sNetworks allAdded !! 1.
Proof.
  assert (has_network_id home (default zeroSlot (sNetworks allAdded !! 0))) as H0
    by (repeat split; discriminate).
  assert (has_network_id home (default zeroSlot (sNetworks allAdded !! 1))) as H1
    by (repeat split; discriminate).
  split; [exact H0|]. split; [exact H1|].
  exact (shadowed_profile_never_connected (device := allSucceed) embedded 0 0 0
           [home; home; office] allAdded home 0 1 _ _ (le_n 1) eq_refl eq_refl H0 H1).
Defined.

(** X7 from boot, through the four adds of the example and a connect: the
    Thread profile in slot 2 has its id within the id array. *)
Lemma id_stays_in_bounds_witness :
  extended_pan_id_fits
  /\ id_in_bounds
       (default zeroSlot
          (sNetworks (run_commands (device := allSucceed) embedded 0 0 0
                        ((Add <$> fourAdds) ++ [Connect panId]) atBoot) !! 2)).
Proof.
  split; [exact sample_extended_pan_id_fits|].
  apply (id_stays_in_bounds (device := allSucceed) embedded 0 0 0
           ((Add <$> fourAdds) ++ [Connect panId]) atBoot
           sample_extended_pan_id_fits atBoot_id_in_bounds 2).
  reflexivity.
Defined.

(** X8 at boot: [home] and [secret123] read back from slot 0. *)
Lemma wifi_add_stores_input_witness :
  first_undefined (sNetworks atBoot) 0
  /\ (size home <= kMaxWiFiSSIDLen)%N /\ (size secret123 <= kMaxWiFiCredentialsLen)%N
  /\ exists new,
       sNetworks homeAdded !! 0 = Some new
       /\ take (N.to_nat (mSSIDLen (mWiFi (mData new)))) (mSSID (mWiFi (mData new))) = home
       /\ take (N.to_nat (mCredentialsLen (mWiFi (mData new)))) (mCredentials (mWiFi (mData new)))
          = secret123.
Proof.
  assert (size home <= kMaxWiFiSSIDLen)%N as Hssid by discriminate.
  assert (size secret123 <= kMaxWiFiCredentialsLen)%N as Hcred by discriminate.
  split; [exact atBoot_first_undefined|]. split; [exact Hssid|]. split; [exact Hcred|].
  destruct (wifi_add_stores_input embedded 0 home secret123 0 0 atBoot 0 zeroSlot
              eq_refl eq_refl atBoot_first_undefined eq_refl Hssid Hcred)
    as (new & Hnew & Hreadssid & Hreadcred & _).
  exists new. split; [exact Hnew|]. split; [exact Hreadssid|exact Hreadcred].
Defined.

(** X9 at boot, with a device layer where every call succeeds: [home] is
    added, found and enabled. *)
Lemma wifi_add_then_connect_witness :
  first_undefined (sNetworks atBoot) 0
  /\ first_match (sNetworks homeAdded) home 0
  /\ mEnabled
       <$> sNetworks (OnConnectNetworkCommandCallbackInternal (device := allSucceed) embedded 0
                        home 0 0 homeAdded) !! 0
     = Some 1%N.
Proof.
  assert (size home <= kMaxWiFiSSIDLen)%N as Hssid by discriminate.
  assert (size secret123 <= kMaxWiFiCredentialsLen)%N as Hcred by discriminate.
  assert (forall j slot, j < 0 -> sNetworks atBoot !! j = Some slot -> ~ has_network_id home slot)
    as Hfresh by (intros j slot Hj; inversion Hj).
  pose proof (wifi_add_then_connect (device := allSucceed) embedded 0 home secret123 0 0 atBoot
                0 zeroSlot eq_refl eq_refl atBoot_first_undefined eq_refl Hssid Hcred Hfresh)
    as Hrun.
  cbn zeta in Hrun. destruct Hrun as (Hfound & _ & Hok & _).
  split; [exact atBoot_first_undefined|]. split; [exact Hfound|].
  exact (proj2 (Hok eq_refl)).
Defined.

(** X10 at boot: [dataset1] is added and found under its extended PAN ID. *)
Lemma thread_add_then_connect_witness :
  CHIP_DEVICE_CONFIG_ENABLE_THREAD embedded = true
  /\ extended_pan_id_fits
  /\ (Init (mThread (mData zeroSlot)) dataset1).1 = CHIP_NO_ERROR
  /\ (GetExtendedPanId (Init (mThread (mData zeroSlot)) dataset1).2) = (CHIP_NO_ERROR, panId)
  /\ first_match
       (sNetworks (OnAddOrUpdateThreadNetworkCommandCallbackInternal embedded 0 dataset1 0 0
                     atBoot))
       panId 0.
Proof.
  assert (forall j slot, j < 0 -> sNetworks atBoot !! j = Some slot -> ~ has_network_id panId slot)
    as Hfresh by (intros j slot Hj; inversion Hj).
  pose proof (thread_add_then_connect (device := allSucceed) embedded 0 dataset1 0 0 atBoot
                0 zeroSlot eq_refl eq_refl sample_extended_pan_id_fits atBoot_first_undefined
                eq_refl) as Hrun.
  cbn zeta in Hrun. destruct (Hrun eq_refl eq_refl Hfresh) as (Hfound & _).
  split; [reflexivity|]. split; [exact sample_extended_pan_id_fits|].
  split; [reflexivity|]. split; [reflexivity|]. exact Hfound.
Defined.

(** X11 on the table with [home] in slot 0, before and after it was
    connected: the second connect makes the calls of the first. *)
Lemma connect_ignores_enabled_witness :
  Forall2 same_but_enabled (sNetworks homeAdded)
    (sNetworks (OnConnectNetworkCommandCallbackInternal (device := allSucceed) embedded 0 home
                  0 0 homeAdded))
  /\ calls (OnConnectNetworkCommandCallbackInternal (device := allSucceed) embedded 0 home 0 0
              homeAdded)
     = calls (OnConnectNetworkCommandCallbackInternal (device := allSucceed) embedded 0 home 0 0
                {| sNetworks :=
                     sNetworks (OnConnectNetworkCommandCallbackInternal (device := allSucceed)
                                  embedded 0 home 0 0 homeAdded);
                   calls := calls homeAdded |}).
Proof.
  assert (Forall2 same_but_enabled (sNetworks homeAdded)
            (sNetworks (OnConnectNetworkCommandCallbackInternal (device := allSucceed) embedded
                          0 home 0 0 homeAdded))) as Hsame
    by (repeat constructor).
  split; [exact Hsame|].
  exact (proj1 (connect_ignores_enabled (device := allSucceed) embedded 0 home 0 0 homeAdded
                  {| sNetworks :=
                       sNetworks (OnConnectNetworkCommandCallbackInternal
                                    (device := allSucceed) embedded 0 home 0 0 homeAdded);
                     calls := calls homeAdded |}
                  eq_refl Hsame)).
Defined.

(** X13 for a message of 10 bytes and a field of 4. *)
Lemma CHECK_MESSAGE_LENGTH_exact_witness :
  (0 <= 10 < 65536)%Z
  /\ ClientCallbacks.CHECK_MESSAGE_LENGTH (Some 1%N) 10 4 = ClientCallbacks.GoesOn 6.
Proof.
  assert (0 <= 10 < 65536)%Z as Hlen by (split; [discriminate|reflexivity]).
  split; [exact Hlen|].
  destruct (CHECK_MESSAGE_LENGTH_exact (Some 1%N) 10 4 Hlen) as (Hgo & _).
  apply Hgo. split; discriminate.
Defined.

(** X14 for a message of 10 bytes and fields of 4 and 6. *)
Lemma CHECK_MESSAGE_LENGTHS_sum_witness :
  (0 <= 10 < 65536)%Z
  /\ ClientCallbacks.CHECK_MESSAGE_LENGTHS (Some 1%N) 10 [4; 6]%Z = ClientCallbacks.GoesOn 0.
Proof.
  assert (0 <= 10 < 65536)%Z as Hlen by (split; [discriminate|reflexivity]).
  split; [exact Hlen|].
  destruct (CHECK_MESSAGE_LENGTHS_sum (Some 1%N) 10 [4; 6]%Z Hlen) as (Hgo & _).
  apply Hgo. split; [repeat constructor; discriminate|discriminate].
Defined.

End BehaviourRuns.
